(** * Calendar scheduler of the task manager: conflict checker and slot finder

    A shallow embedding of [backend/app/apis/scheduler/__init__.py]:
    [is_conflicting], [get_available_slots], [suggest_alternative_times]
    and [create_event], together with the part of Python's [datetime]
    module these functions rely on.

    Conventions.
    - A naive [datetime] is the number of microseconds elapsed since the
      midnight that opens proleptic Gregorian ordinal 0, so that
      0001-01-01T00:00:00 is [US_PER_DAY] and the largest value is
      9999-12-31T23:59:59.999999.  All timestamps are timezone-naive, as the
      data model of the scheduler has them; text that carries a UTC offset
      is outside the model.
    - A Python exception is a value of [exn]; a call either returns, raises,
      or is still looping when its fuel is spent ([OutOfFuel]).  Fuel bounds
      the number of iterations of each [while] loop and of nothing else.
    - The textual side of [datetime] ([strptime], [fromisoformat],
      [isoformat]) is an interface, [DatetimeText]; the theorems hold for
      every implementation of it.  [IsoText] implements it for zero-padded
      [YYYY-MM-DD] and [YYYY-MM-DDTHH:MM:SS] text and is used to run the
      functions on concrete requests. *)

From Stdlib Require Import ZArith List String Ascii Bool Lia Sorted Permutation.
Import ListNotations.
Local Open Scope string_scope.
Local Open Scope list_scope.
Local Open Scope Z_scope.

(** ** Python values *)

Module Py.

Definition datetime := Z.
Definition date := Z.
Definition timedelta := Z.

Definition US_PER_MINUTE : Z := 60000000.
Definition US_PER_HOUR : Z := 3600000000.
Definition US_PER_DAY : Z := 86400000000.
Definition MAXORDINAL : Z := 3652059.
Definition MAX_DELTA_DAYS : Z := 999999999.

(** [datetime.min <= t <= datetime.max] *)
Definition datetime_in_range (t : Z) : bool :=
  (US_PER_DAY <=? t) && (t <? (MAXORDINAL + 1) * US_PER_DAY).

(** [timedelta.min <= d <= timedelta.max] *)
Definition timedelta_in_range (d : Z) : bool :=
  (- MAX_DELTA_DAYS * US_PER_DAY <=? d) && (d <? (MAX_DELTA_DAYS + 1) * US_PER_DAY).

(** [timedelta(minutes=n)]; [None] stands for [OverflowError]. *)
Definition timedelta_minutes (n : Z) : option timedelta :=
  if timedelta_in_range (n * US_PER_MINUTE) then Some (n * US_PER_MINUTE) else None.

(** [t + d] on a datetime; [None] stands for [OverflowError]. *)
Definition add (t : datetime) (d : timedelta) : option datetime :=
  if datetime_in_range (t + d) then Some (t + d) else None.

(** [t.date()] *)
Definition date_of (t : datetime) : date := t / US_PER_DAY.

(** [datetime.combine(d, datetime.min.time().replace(hour=h))] *)
Definition combine_hour (d : date) (h : Z) : datetime :=
  d * US_PER_DAY + h * US_PER_HOUR.

End Py.

(** Exceptions the scheduler raises or lets through. *)
Inductive exn : Type :=
| HTTPException (status_code : Z) (detail : string)
| ValueError
| OverflowError.

Inductive outcome (A : Type) : Type :=
| Return (a : A)
| Raise (e : exn)
| OutOfFuel.

Arguments Return {A} a.
Arguments Raise {A} e.
Arguments OutOfFuel {A}.

Definition bind {A B : Type} (m : outcome A) (k : A -> outcome B) : outcome B :=
  match m with
  | Return a => k a
  | Raise e => Raise e
  | OutOfFuel => OutOfFuel
  end.

Notation "x <- m ;; k" := (bind m (fun x => k))
  (at level 61, m at next level, right associativity).

(** An [option] whose [None] is the exception [e]. *)
Definition or_raise {A : Type} (e : exn) (o : option A) : outcome A :=
  match o with
  | Some a => Return a
  | None => Raise e
  end.

(** The names the specification gives to the failures. *)
Definition InvalidDate : exn :=
  HTTPException 400 "Invalid date format. Use YYYY-MM-DD".
Definition MalformedTimestamp : exn := ValueError.
Definition ConflictError : exn :=
  HTTPException 400 "Event conflicts with existing events".

(** ** Data model *)

Record TimeSlot : Type := mkTimeSlot {
  start : string;
  end_ : string
}.

Record ScheduleRequest : Type := mkScheduleRequest {
  date : string;
  duration_minutes : Z
}.

Record CalendarEvent : Type := mkCalendarEvent {
  id : string;
  title : string;
  description : option string;
  start_time : string;
  end_time : string;
  is_all_day : bool;
  status : string;
  source : string;
  meeting_request_id : option string
}.

(** The textual operations of [datetime] the scheduler calls.  [None] is
    the [ValueError] of a text that does not parse. *)
Class DatetimeText : Type := {
  strptime_date : string -> option Py.date;
  fromisoformat : string -> option Py.datetime;
  isoformat : Py.datetime -> string
}.

(** The blob ["calendar_events"] of the storage: absent, or a list of
    event dictionaries. *)
Definition storage : Type := option (list CalendarEvent).

Definition get_calendar_events (st : storage) : list CalendarEvent :=
  match st with
  | Some events => events
  | None => []
  end.

Definition save_calendar_events (events : list CalendarEvent) : storage :=
  Some events.

Definition is_cancelled (e : CalendarEvent) : bool :=
  String.eqb (status e) "cancelled".

Section Scheduler.

Context {T : DatetimeText}.

(** *** [is_conflicting] *)

(** The [for other in other_events] loop. *)
Fixpoint conflict_scan (event_start event_end : Py.datetime)
         (other_events : list CalendarEvent) : outcome bool :=
  match other_events with
  | [] => Return false
  | other :: rest =>
      if is_cancelled other then conflict_scan event_start event_end rest
      else
        other_start <- or_raise ValueError (fromisoformat (start_time other)) ;;
        other_end <- or_raise ValueError (fromisoformat (end_time other)) ;;
        if (event_start <? other_end) && (event_end >? other_start)
        then Return true
        else conflict_scan event_start event_end rest
  end.

Definition is_conflicting (event : CalendarEvent)
           (other_events : list CalendarEvent) : outcome bool :=
  event_start <- or_raise ValueError (fromisoformat (start_time event)) ;;
  event_end <- or_raise ValueError (fromisoformat (end_time event)) ;;
  conflict_scan event_start event_end other_events.

(** *** [create_event] *)

Definition create_event (event : CalendarEvent) (st : storage)
  : outcome CalendarEvent * storage :=
  let events := get_calendar_events st in
  match is_conflicting event events with
  | Return true => (Raise ConflictError, st)
  | Return false => (Return event, save_calendar_events (events ++ [event]))
  | Raise e => (Raise e, st)
  | OutOfFuel => (OutOfFuel, st)
  end.

(** *** [get_available_slots] *)

(** The loop over [all_events] that fills [day_events]. *)
Fixpoint collect_day_events (target_date : Py.date)
         (all_events : list CalendarEvent)
         (day_events : list (Py.datetime * Py.datetime))
  : outcome (list (Py.datetime * Py.datetime)) :=
  match all_events with
  | [] => Return day_events
  | event :: rest =>
      event_start <- or_raise ValueError (fromisoformat (start_time event)) ;;
      event_end <- or_raise ValueError (fromisoformat (end_time event)) ;;
      if negb (Py.date_of event_start =? target_date)
         || negb (Py.date_of event_end =? target_date)
         || is_cancelled event
      then collect_day_events target_date rest day_events
      else collect_day_events target_date rest
             (day_events ++ [(event_start, event_end)])
  end.

(** [list.sort(key=lambda x: x["start"])]: the stable sort, as an
    insertion sort that keeps equal keys in their original order. *)
Fixpoint insert_by_start (x : Py.datetime * Py.datetime)
         (l : list (Py.datetime * Py.datetime))
  : list (Py.datetime * Py.datetime) :=
  match l with
  | [] => [x]
  | y :: l' =>
      if fst x <=? fst y then x :: y :: l' else y :: insert_by_start x l'
  end.

Fixpoint sort_by_start (l : list (Py.datetime * Py.datetime))
  : list (Py.datetime * Py.datetime) :=
  match l with
  | [] => []
  | x :: l' => insert_by_start x (sort_by_start l')
  end.

(** One emission loop:
    [while current_time + slot_duration <= bound: append; advance]. *)
Fixpoint emit (fuel : nat) (slot_duration : Py.timedelta)
         (current_time bound : Py.datetime) (free_slots : list TimeSlot)
  : outcome (list TimeSlot) :=
  match fuel with
  | O => OutOfFuel
  | S fuel' =>
      slot_end <- or_raise OverflowError (Py.add current_time slot_duration) ;;
      if slot_end <=? bound
      then emit fuel' slot_duration slot_end bound
             (free_slots ++ [mkTimeSlot (isoformat current_time) (isoformat slot_end)])
      else Return free_slots
  end.

(** [for i in range(len(occupied_slots) - 1)]: the gaps between
    consecutive entries of [occupied_slots]. *)
Fixpoint between (fuel : nat) (slot_duration : Py.timedelta)
         (occupied_slots : list (Py.datetime * Py.datetime))
         (free_slots : list TimeSlot) : outcome (list TimeSlot) :=
  match occupied_slots with
  | cur :: (next :: _) as rest =>
      free_slots' <- emit fuel slot_duration (snd cur) (fst next) free_slots ;;
      between fuel slot_duration rest free_slots'
  | _ => Return free_slots
  end.

(** The walk over the day, from line "Find free slots" on. *)
Definition walk (fuel : nat) (duration_minutes : Z)
           (day_start day_end : Py.datetime)
           (occupied_slots : list (Py.datetime * Py.datetime))
  : outcome (list TimeSlot) :=
  slot_duration <- or_raise OverflowError (Py.timedelta_minutes duration_minutes) ;;
  match occupied_slots with
  | [] => emit fuel slot_duration day_start day_end []
  | first :: _ =>
      free_slots <- (if day_start <? fst first
                     then emit fuel slot_duration day_start (fst first) []
                     else Return []) ;;
      free_slots <- between fuel slot_duration occupied_slots free_slots ;;
      emit fuel slot_duration (snd (last occupied_slots first)) day_end free_slots
  end.

Definition get_available_slots (fuel : nat) (date : string)
           (duration_minutes : Z) (st : storage) : outcome (list TimeSlot) :=
  target_date <- or_raise InvalidDate (strptime_date date) ;;
  let day_start := Py.combine_hour target_date 9 in
  let day_end := Py.combine_hour target_date 17 in
  day_events <- collect_day_events target_date (get_calendar_events st) [] ;;
  walk fuel duration_minutes day_start day_end (sort_by_start day_events).

(** *** [suggest_alternative_times] *)

Definition suggest_alternative_times (fuel : nat) (request : ScheduleRequest)
  : storage -> outcome (list TimeSlot) :=
  fun st =>
    available_slots <- get_available_slots fuel (date request)
                         (duration_minutes request) st ;;
    Return (firstn (Nat.min 3 (List.length available_slots)) available_slots).

(** *** Vocabulary of the statements *)

(** Both timestamps of [e], when both parse. *)
Definition parsed (e : CalendarEvent) : option (Py.datetime * Py.datetime) :=
  match fromisoformat (start_time e), fromisoformat (end_time e) with
  | Some s, Some t => Some (s, t)
  | _, _ => None
  end.

Definition parsable (e : CalendarEvent) : bool :=
  match parsed e with Some _ => true | None => false end.

(** [other] is live and its interval meets [event_start, event_end):
    [event_start < other.end and event_end > other.start]. *)
Definition overlaps (event_start event_end : Py.datetime)
           (other : CalendarEvent) : bool :=
  negb (is_cancelled other)
  && match parsed other with
     | Some (other_start, other_end) =>
         (event_start <? other_end) && (event_end >? other_start)
     | None => false
     end.

(** [e] starts and ends on [target_date] and is not cancelled. *)
Definition considered (target_date : Py.date) (e : CalendarEvent) : bool :=
  match parsed e with
  | Some (s, t) =>
      (Py.date_of s =? target_date) && (Py.date_of t =? target_date)
      && negb (is_cancelled e)
  | None => false
  end.

(** Every event of [l] that is not cancelled has parsable timestamps. *)
Definition live_parsable (l : list CalendarEvent) : Prop :=
  Forall (fun o => is_cancelled o = false -> parsable o = true) l.

(** The conflict rule read without regard to malformed entries:
    [true] is returned exactly when some element of [others] overlaps. *)
Definition conflict_iff_some_overlap (event : CalendarEvent)
           (others : list CalendarEvent) : Prop :=
  forall es ee, parsed event = Some (es, ee) ->
    (is_conflicting event others = Return true <->
     exists other, In other others /\ overlaps es ee other = true).

(** The busy interval of an event whose timestamps parse. *)
Definition interval_of (e : CalendarEvent) : Py.datetime * Py.datetime :=
  match parsed e with
  | Some i => i
  | None => (0, 0)
  end.

End Scheduler.

(** ** The other routes on stored events *)

Definition NotFound : exn := HTTPException 404 "Event not found".
Definition UpdateConflictError : exn :=
  HTTPException 400 "Updated event conflicts with existing events".

(** The dictionary [delete_event] answers with. *)
Record DeleteResponse : Type := mkDeleteResponse {
  success : bool;
  message : string
}.

(** [event["id"] != event_id] *)
Definition other_id (event_id : string) (event : CalendarEvent) : bool :=
  negb (String.eqb (id event) event_id).

(** [events[i] = v], for an index [i] of [events] (the only use, under
    [enumerate(events)], never leaves the list). *)
Fixpoint list_set {A : Type} (events : list A) (i : nat) (v : A) : list A :=
  match events, i with
  | [], _ => []
  | _ :: rest, O => v :: rest
  | x :: rest, S i' => x :: list_set rest i' v
  end.

Definition list_events (st : storage) : list CalendarEvent :=
  get_calendar_events st.

(** The [for event in events] loop of [get_event]. *)
Fixpoint get_event_scan (event_id : string) (events : list CalendarEvent)
  : outcome CalendarEvent :=
  match events with
  | [] => Raise NotFound
  | event :: rest =>
      if String.eqb (id event) event_id then Return event
      else get_event_scan event_id rest
  end.

Definition get_event (event_id : string) (st : storage) : outcome CalendarEvent :=
  get_event_scan event_id (get_calendar_events st).

Definition delete_event (event_id : string) (st : storage)
  : outcome DeleteResponse * storage :=
  let events := get_calendar_events st in
  let initial_count := List.length events in
  let events := filter (other_id event_id) events in
  if Nat.eqb (List.length events) initial_count
  then (Raise NotFound, st)
  else (Return (mkDeleteResponse true "Event deleted"), save_calendar_events events).

Section Update.

Context {T : DatetimeText}.

(** The [for i, event in enumerate(events)] loop of [update_event], from
    index [i] on: [None] when it ends with [event_found] still false,
    otherwise the list with entry [i] replaced. *)
Fixpoint update_scan (event_id : string) (updated_event : CalendarEvent)
         (events : list CalendarEvent) (i : nat) (remaining : list CalendarEvent)
  : outcome (option (list CalendarEvent)) :=
  match remaining with
  | [] => Return None
  | event :: rest =>
      if String.eqb (id event) event_id
      then
        let other_events := filter (other_id event_id) events in
        conflict <- is_conflicting updated_event other_events ;;
        if (conflict : bool) then Raise UpdateConflictError
        else Return (Some (list_set events i updated_event))
      else update_scan event_id updated_event events (S i) rest
  end.

Definition update_event (event_id : string) (updated_event : CalendarEvent)
           (st : storage) : outcome CalendarEvent * storage :=
  let events := get_calendar_events st in
  match update_scan event_id updated_event events 0 events with
  | Return (Some events') => (Return updated_event, save_calendar_events events')
  | Return None => (Raise NotFound, st)
  | Raise e => (Raise e, st)
  | OutOfFuel => (OutOfFuel, st)
  end.

(** *** Vocabulary of the statements *)

(** Two stored events that are both live, both parse, and whose intervals
    meet: [a.start < b.end and a.end > b.start]. *)
Definition clash (a b : CalendarEvent) : bool :=
  negb (is_cancelled a) && negb (is_cancelled b)
  && match parsed a, parsed b with
     | Some (a_start, a_end), Some (b_start, b_end) =>
         (a_start <? b_end) && (a_end >? b_start)
     | _, _ => false
     end.

(** No two entries of the list clash. *)
Definition conflict_free (events : list CalendarEvent) : Prop :=
  ForallOrdPairs (fun a b => clash a b = false) events.

End Update.

(** The starts of the slots of length [slot_duration] packed back to back
    from the lower end of gap [g]: as many as fit. *)
Definition gap_starts (slot_duration : Py.timedelta)
           (g : Py.datetime * Py.datetime) : list Py.datetime :=
  map (fun i => fst g + Z.of_nat i * slot_duration)
      (seq 0 (Z.to_nat ((snd g - fst g) / slot_duration))).

(** ** A textual side to run the functions on

    The proleptic Gregorian calendar as [datetime] computes it
    ([_ymd2ord], [_ord2ymd]), and the zero-padded ISO readings
    [YYYY-MM-DD], [YYYY-MM-DDTHH:MM] and [YYYY-MM-DDTHH:MM:SS]. *)

Module IsoText.

Definition is_leap (y : Z) : bool :=
  (y mod 4 =? 0) && (negb (y mod 100 =? 0) || (y mod 400 =? 0)).

Definition days_before_year (y : Z) : Z :=
  let y' := y - 1 in y' * 365 + y' / 4 - y' / 100 + y' / 400.

Definition DAYS_IN_MONTH : list Z :=
  [0; 31; 28; 31; 30; 31; 30; 31; 31; 30; 31; 30; 31].

Definition DAYS_BEFORE_MONTH : list Z :=
  [0; 0; 31; 59; 90; 120; 151; 181; 212; 243; 273; 304; 334].

Definition days_in_month (y m : Z) : Z :=
  if (m =? 2) && is_leap y then 29 else nth (Z.to_nat m) DAYS_IN_MONTH 0.

Definition days_before_month (y m : Z) : Z :=
  nth (Z.to_nat m) DAYS_BEFORE_MONTH 0 + (if (2 <? m) && is_leap y then 1 else 0).

Definition ymd2ord (y m d : Z) : Z :=
  days_before_year y + days_before_month y m + d.

Definition ord2ymd (n : Z) : Z * Z * Z :=
  let n := n - 1 in
  let n400 := n / 146097 in
  let n := n mod 146097 in
  let year := n400 * 400 + 1 in
  let n100 := n / 36524 in
  let n := n mod 36524 in
  let n4 := n / 1461 in
  let n := n mod 1461 in
  let n1 := n / 365 in
  let n := n mod 365 in
  let year := year + n100 * 100 + n4 * 4 + n1 in
  if (n1 =? 4) || (n100 =? 4) then (year - 1, 12, 31)
  else
    let leapyear := (n1 =? 3) && (negb (n4 =? 24) || (n100 =? 3)) in
    let month := Z.shiftr (n + 50) 5 in
    let preceding :=
      nth (Z.to_nat month) DAYS_BEFORE_MONTH 0
      + (if (2 <? month) && leapyear then 1 else 0) in
    if preceding >? n
    then
      let month' := month - 1 in
      let preceding' :=
        preceding - (nth (Z.to_nat month') DAYS_IN_MONTH 0
                     + (if (month' =? 2) && leapyear then 1 else 0)) in
      (year, month', n - preceding' + 1)
    else (year, month, n - preceding + 1).

(** *** Reading *)

Definition digit (c : ascii) : option Z :=
  let n := Z.of_N (N_of_ascii c) in
  if (48 <=? n) && (n <=? 57) then Some (n - 48) else None.

(** [k] decimal digits off the front of [cs], on top of [acc]. *)
Fixpoint digits (k : nat) (acc : Z) (cs : list ascii) : option (Z * list ascii) :=
  match k with
  | O => Some (acc, cs)
  | S k' =>
      match cs with
      | c :: cs' =>
          match digit c with
          | Some v => digits k' (acc * 10 + v) cs'
          | None => None
          end
      | [] => None
      end
  end.

Definition expect (sep : ascii) (cs : list ascii) : option (list ascii) :=
  match cs with
  | c :: cs' => if Ascii.eqb c sep then Some cs' else None
  | [] => None
  end.

(** [YYYY-MM-DD] off the front of [cs]: the ordinal and the rest. *)
Definition read_date (cs : list ascii) : option (Z * list ascii) :=
  match digits 4 0 cs with
  | Some (y, cs) =>
      match expect "-" cs with
      | Some cs =>
          match digits 2 0 cs with
          | Some (m, cs) =>
              match expect "-" cs with
              | Some cs =>
                  match digits 2 0 cs with
                  | Some (d, cs) =>
                      if (1 <=? y) && (1 <=? m) && (m <=? 12)
                         && (1 <=? d) && (d <=? days_in_month y m)
                      then Some (ymd2ord y m d, cs)
                      else None
                  | None => None
                  end
              | None => None
              end
          | None => None
          end
      | None => None
      end
  | None => None
  end.

(** [HH:MM] or [HH:MM:SS], the whole of [cs]: microseconds into the day. *)
Definition read_time (cs : list ascii) : option Z :=
  match digits 2 0 cs with
  | Some (h, cs) =>
      match expect ":" cs with
      | Some cs =>
          match digits 2 0 cs with
          | Some (mi, []) =>
              if (h <=? 23) && (mi <=? 59)
              then Some (h * Py.US_PER_HOUR + mi * Py.US_PER_MINUTE)
              else None
          | Some (mi, cs) =>
              match expect ":" cs with
              | Some cs =>
                  match digits 2 0 cs with
                  | Some (s, []) =>
                      if (h <=? 23) && (mi <=? 59) && (s <=? 59)
                      then Some (h * Py.US_PER_HOUR + mi * Py.US_PER_MINUTE
                                 + s * 1000000)
                      else None
                  | _ => None
                  end
              | None => None
              end
          | None => None
          end
      | None => None
      end
  | None => None
  end.

Definition strptime_date (s : string) : option Py.date :=
  match read_date (list_ascii_of_string s) with
  | Some (ord, []) => Some ord
  | _ => None
  end.

Definition fromisoformat (s : string) : option Py.datetime :=
  match read_date (list_ascii_of_string s) with
  | Some (ord, []) => Some (ord * Py.US_PER_DAY)
  | Some (ord, sep :: cs) =>
      if Ascii.eqb sep "T"
      then match read_time cs with
           | Some us => Some (ord * Py.US_PER_DAY + us)
           | None => None
           end
      else None
  | None => None
  end.

(** *** Writing *)

(** [n] in [k] decimal digits, zero-padded. *)
Fixpoint decimal (k : nat) (n : Z) : string :=
  match k with
  | O => EmptyString
  | S k' =>
      String.append (decimal k' (n / 10))
        (String (ascii_of_N (Z.to_N (48 + n mod 10))) EmptyString)
  end.

Definition isoformat (t : Py.datetime) : string :=
  let '(y, m, d) := ord2ymd (t / Py.US_PER_DAY) in
  let r := t mod Py.US_PER_DAY in
  let hh := r / Py.US_PER_HOUR in
  let mi := (r mod Py.US_PER_HOUR) / Py.US_PER_MINUTE in
  let ss := (r mod Py.US_PER_MINUTE) / 1000000 in
  let us := r mod 1000000 in
  String.append (decimal 4 y) (String.append "-" (String.append (decimal 2 m)
    (String.append "-" (String.append (decimal 2 d) (String.append "T"
      (String.append (decimal 2 hh) (String.append ":" (String.append (decimal 2 mi)
        (String.append ":" (String.append (decimal 2 ss)
          (if us =? 0 then EmptyString
           else String.append "." (decimal 6 us)))))))))))).

#[global] Instance text : DatetimeText :=
  Build_DatetimeText strptime_date fromisoformat isoformat.

End IsoText.


(** A confirmed (or otherwise labelled) event from [start_time] to
    [end_time]; the fields the scheduler does not read are fixed. *)
Definition event_at (start_time end_time status : string) : CalendarEvent :=
  mkCalendarEvent "evt" "Meeting" None start_time end_time false status "manual" None.

Definition ten_to_eleven : CalendarEvent :=
  event_at "2025-04-15T10:00:00" "2025-04-15T11:00:00" "confirmed".
Definition half_past_ten : CalendarEvent :=
  event_at "2025-04-15T10:30:00" "2025-04-15T11:30:00" "confirmed".
Definition eleven_to_noon : CalendarEvent :=
  event_at "2025-04-15T11:00:00" "2025-04-15T12:00:00" "confirmed".
Definition cancelled_ten_to_eleven : CalendarEvent :=
  event_at "2025-04-15T10:00:00" "2025-04-15T11:00:00" "cancelled".

(** An event whose start is not a timestamp. *)
Definition garbled : CalendarEvent :=
  event_at "tomorrow" "2025-04-15T11:30:00" "confirmed".

(** The slot that starts at instant [t] and lasts [slot_duration]. *)
Definition slot_at {T : DatetimeText} (slot_duration : Py.timedelta)
           (t : Py.datetime) : TimeSlot :=
  mkTimeSlot (isoformat t) (isoformat (t + slot_duration)).

(** The slot from [start_time] to [end_time], both as ISO text. *)
Definition slot_between (start_time end_time : string) : TimeSlot :=
  mkTimeSlot start_time end_time.

(** A day with one event from 08:00 to 18:00. *)
Definition all_day_busy : storage :=
  Some [event_at "2025-04-15T08:00:00" "2025-04-15T18:00:00" "confirmed"].

(** A 10:00-11:00 meeting held inside a 09:00-16:00 workshop. *)
Definition nested_day : storage :=
  Some [event_at "2025-04-15T09:00:00" "2025-04-15T16:00:00" "confirmed";
        event_at "2025-04-15T10:00:00" "2025-04-15T11:00:00" "confirmed"].

(** One event before opening time, 08:00-08:30. *)
Definition early_day : storage :=
  Some [event_at "2025-04-15T08:00:00" "2025-04-15T08:30:00" "confirmed"].

(** One event after closing time, 18:00-19:00. *)
Definition late_day : storage :=
  Some [event_at "2025-04-15T18:00:00" "2025-04-15T19:00:00" "confirmed"].

(** One confirmed meeting, 10:00-11:00. *)
Definition one_meeting_day : storage := Some [ten_to_eleven].

(** One event entered backwards, from 12:00 to 09:00. *)
Definition backwards_day : storage :=
  Some [event_at "2025-04-15T12:00:00" "2025-04-15T09:00:00" "confirmed"].

(** [e] under the id [event_id]. *)
Definition named (event_id : string) (e : CalendarEvent) : CalendarEvent :=
  mkCalendarEvent event_id (title e) (description e) (start_time e) (end_time e)
                  (is_all_day e) (status e) (source e) (meeting_request_id e).

(** Two meetings in a row, 10:00-11:00 as "a" and 11:00-12:00 as "b". *)
Definition morning : CalendarEvent := named "a" ten_to_eleven.
Definition late_morning : CalendarEvent := named "b" eleven_to_noon.
Definition two_meetings : storage := Some [morning; late_morning].

(** The same day once the first meeting has been cancelled. *)
Definition first_cancelled : storage :=
  Some [named "a" cancelled_ten_to_eleven; late_morning].

(** [two_meetings], stored the other way round. *)
Definition two_meetings_reversed : storage := Some [late_morning; morning].

(** A day with a confirmed 10:00-11:00 meeting, a cancelled 14:00-15:00
    one, and an event that starts at 16:00 and ends at 02:00 the next
    day. *)
Definition cancelled_two_to_three : CalendarEvent :=
  event_at "2025-04-15T14:00:00" "2025-04-15T15:00:00" "cancelled".
Definition overnight : CalendarEvent :=
  event_at "2025-04-15T16:00:00" "2025-04-16T02:00:00" "confirmed".
Definition mixed_day : list CalendarEvent :=
  [ten_to_eleven; cancelled_two_to_three; overnight].

(** The two three-hour slots after 11:00. *)
Definition afternoon_slots : list TimeSlot :=
  [mkTimeSlot "2025-04-15T11:00:00" "2025-04-15T14:00:00";
   mkTimeSlot "2025-04-15T14:00:00" "2025-04-15T17:00:00"].

(** 10:00 and 11:00 on 2025-04-15, as instants. *)
Definition at_ten : Py.datetime := 63880394400000000.
Definition at_eleven : Py.datetime := 63880398000000000.

(** The gaps the walk visits between consecutive entries of
    [occupied_slots]: from the end of one to the start of the next. *)
Fixpoint gaps_between (occupied_slots : list (Py.datetime * Py.datetime))
  : list (Py.datetime * Py.datetime) :=
  match occupied_slots with
  | cur :: (next :: _) as rest => (snd cur, fst next) :: gaps_between rest
  | _ => []
  end.

(** All the gaps the walk visits, in order: the whole day when nothing is
    occupied; otherwise the span before the first entry (when the day
    starts before it), the spans between entries, and the span from the
    end of the last entry to the end of the day. *)
Definition gaps (day_start day_end : Py.datetime)
           (occupied_slots : list (Py.datetime * Py.datetime))
  : list (Py.datetime * Py.datetime) :=
  match occupied_slots with
  | [] => [(day_start, day_end)]
  | first :: _ =>
      (if day_start <? fst first then [(day_start, fst first)] else [])
      ++ gaps_between occupied_slots
      ++ [(snd (last occupied_slots first), day_end)]
  end.

(** The slot of length [slot_duration] starting at [t] lies in gap [g]. *)
Definition in_gap (slot_duration : Py.timedelta) (t : Py.datetime)
           (g : Py.datetime * Py.datetime) : Prop :=
  fst g <= t /\ t + slot_duration <= snd g.

(** Slot starts in chronological order from [lo] on, each slot ending
    before the next one starts. *)
Fixpoint spaced (slot_duration : Py.timedelta) (lo : Py.datetime)
         (starts : list Py.datetime) : Prop :=
  match starts with
  | [] => True
  | t :: rest => lo <= t /\ spaced slot_duration (t + slot_duration) rest
  end.

(** The slot of length [slot_duration] starting at [t] does not meet the
    busy interval [b]. *)
Definition clear_of (slot_duration : Py.timedelta) (t : Py.datetime)
           (b : Py.datetime * Py.datetime) : Prop :=
  t + slot_duration <= fst b \/ snd b <= t.

(** Two busy intervals that do not meet. *)
Definition apart (a b : Py.datetime * Py.datetime) : Prop :=
  snd a <= fst b \/ snd b <= fst a.

(** A fuelled computation settles when, from some fuel on, it gives one
    and the same outcome and that outcome is not [OutOfFuel]: the Python
    call terminates, by returning or by raising. *)
Definition settles {A : Type} (f : nat -> outcome A) : Prop :=
  exists n r, r <> OutOfFuel /\ forall fuel, (n <= fuel)%nat -> f fuel = r.

(** * Properties *)

(** Linear arithmetic over instants, which are integers. *)
Ltac zlia := unfold Py.datetime, Py.timedelta, Py.date in *; lia.

(** ** Outcomes *)

Lemma bind_Return {A B : Type} (m : outcome A) (k : A -> outcome B) (b : B) :
  bind m k = Return b <-> exists a, m = Return a /\ k a = Return b.
Proof.
  destruct m as [a | e | ]; simpl; split.
  - intros H; exists a; auto.
  - intros (a' & [= <-] & H); exact H.
  - discriminate.
  - intros (a' & H & _); discriminate.
  - discriminate.
  - intros (a' & H & _); discriminate.
Qed.

(** ** The conflict checker *)

Module Conflict.
Section Conflict.

Context {T : DatetimeText}.

Lemma parsed_Some (e : CalendarEvent) (s t : Py.datetime) :
  parsed e = Some (s, t) <->
  fromisoformat (start_time e) = Some s /\ fromisoformat (end_time e) = Some t.
Proof.
  unfold parsed.
  destruct (fromisoformat (start_time e)), (fromisoformat (end_time e));
    split; try intros [H1 H2]; try intros H; try discriminate; try congruence; auto.
  injection H as <- <-; auto.
Qed.

(** One step of the scan, by what the head of the list is. *)
Lemma conflict_scan_cancelled es ee other rest :
  is_cancelled other = true ->
  conflict_scan es ee (other :: rest) = conflict_scan es ee rest.
Proof. intros H; simpl; rewrite H; reflexivity. Qed.

Lemma conflict_scan_unparsable es ee other rest :
  is_cancelled other = false -> parsable other = false ->
  conflict_scan es ee (other :: rest) = Raise ValueError.
Proof.
  intros Hc Hp; simpl; rewrite Hc.
  unfold parsable, parsed in Hp.
  destruct (fromisoformat (start_time other)); simpl; [|reflexivity].
  destruct (fromisoformat (end_time other)); simpl; [discriminate|reflexivity].
Qed.

Lemma conflict_scan_live es ee other rest os oe :
  is_cancelled other = false -> parsed other = Some (os, oe) ->
  conflict_scan es ee (other :: rest) =
  if (es <? oe) && (ee >? os) then Return true else conflict_scan es ee rest.
Proof.
  intros Hc Hp; simpl; rewrite Hc.
  apply parsed_Some in Hp as [-> ->]; reflexivity.
Qed.

Lemma overlaps_live es ee other os oe :
  is_cancelled other = false -> parsed other = Some (os, oe) ->
  overlaps es ee other = (es <? oe) && (ee >? os).
Proof. intros Hc Hp; unfold overlaps; rewrite Hc, Hp; reflexivity. Qed.

(** The three ways a head event is classified. *)
Lemma head_cases (other : CalendarEvent) :
  is_cancelled other = true
  \/ (is_cancelled other = false /\ parsable other = false)
  \/ (is_cancelled other = false /\ exists os oe, parsed other = Some (os, oe)).
Proof.
  destruct (is_cancelled other); auto.
  right. unfold parsable. destruct (parsed other) as [[os oe]|]; eauto.
Qed.

(** The scan answers [true] exactly when it reaches an overlapping live
    event, that is when every live event before it parses. *)
Lemma conflict_scan_true es ee others :
  conflict_scan es ee others = Return true <->
  exists pre other post,
    others = pre ++ other :: post /\ live_parsable pre /\ overlaps es ee other = true.
Proof.
  induction others as [|o rest IH].
  - simpl; split; [discriminate|].
    intros (pre & other & post & H & _); destruct pre; discriminate.
  - destruct (head_cases o) as [Hc | [[Hc Hp] | [Hc (os & oe & Hp)]]].
    + rewrite (conflict_scan_cancelled _ _ _ _ Hc), IH; split.
      * intros (pre & other & post & -> & Hpre & Hov).
        exists (o :: pre), other, post; repeat split; auto.
        constructor; auto; congruence.
      * intros (pre & other & post & Heq & Hpre & Hov).
        destruct pre as [|p pre]; simpl in Heq; injection Heq as <- ->.
        -- unfold overlaps in Hov; rewrite Hc in Hov; discriminate.
        -- inversion Hpre; subst; exists pre, other, post; auto.
    + rewrite (conflict_scan_unparsable _ _ _ _ Hc Hp); split; [discriminate|].
      intros (pre & other & post & Heq & Hpre & Hov).
      destruct pre as [|p pre]; simpl in Heq; injection Heq as <- ->.
      * unfold overlaps, parsable in *; destruct (parsed o);
          [discriminate | rewrite andb_false_r in Hov; discriminate].
      * inversion Hpre as [|? ? Hh _]; subst. specialize (Hh Hc); congruence.
    + rewrite (conflict_scan_live _ _ _ _ _ _ Hc Hp).
      pose proof (overlaps_live es ee _ _ _ Hc Hp) as Hov0.
      destruct ((es <? oe) && (ee >? os)) eqn:Hb.
      * split; [intros _|reflexivity].
        exists [], o, rest; repeat split; auto. constructor.
      * rewrite IH; split.
        -- intros (pre & other & post & -> & Hpre & Hov).
           exists (o :: pre), other, post; repeat split; auto.
           constructor; auto. intros _; unfold parsable; rewrite Hp; reflexivity.
        -- intros (pre & other & post & Heq & Hpre & Hov).
           destruct pre as [|p pre]; simpl in Heq; injection Heq as <- ->.
           ++ congruence.
           ++ inversion Hpre; subst; exists pre, other, post; auto.
Qed.

(** With every live event parsable the scan is total and computes the
    disjunction of the pairwise tests. *)
Lemma conflict_scan_total es ee others :
  live_parsable others ->
  conflict_scan es ee others = Return (existsb (overlaps es ee) others).
Proof.
  induction 1 as [|o rest Ho _ IH]; [reflexivity|].
  destruct (head_cases o) as [Hc | [[Hc Hp] | [Hc (os & oe & Hp)]]].
  - rewrite (conflict_scan_cancelled _ _ _ _ Hc), IH.
    simpl; unfold overlaps at 2; rewrite Hc; reflexivity.
  - specialize (Ho Hc); congruence.
  - rewrite (conflict_scan_live _ _ _ _ _ _ Hc Hp); simpl.
    rewrite (overlaps_live es ee _ _ _ Hc Hp).
    destruct ((es <? oe) && (ee >? os)); auto.
Qed.

(** The scan fails exactly when it reaches a live event that does not
    parse before any overlap. *)
Lemma conflict_scan_raise es ee pre other post :
  conflict_scan es ee pre = Return false ->
  is_cancelled other = false -> parsable other = false ->
  conflict_scan es ee (pre ++ other :: post) = Raise ValueError.
Proof.
  intros Hpre Hc Hp; induction pre as [|o pre IH]; simpl app.
  - apply conflict_scan_unparsable; assumption.
  - destruct (head_cases o) as [Hc' | [[Hc' Hp'] | [Hc' (os & oe & Hp')]]].
    + rewrite (conflict_scan_cancelled es ee o pre Hc') in Hpre.
      rewrite (conflict_scan_cancelled _ _ _ _ Hc'). apply IH, Hpre.
    + rewrite (conflict_scan_unparsable _ _ _ _ Hc' Hp') in Hpre; discriminate.
    + rewrite (conflict_scan_live es ee o pre _ _ Hc' Hp') in Hpre.
      rewrite (conflict_scan_live _ _ _ _ _ _ Hc' Hp').
      destruct ((es <? oe) && (ee >? os)); [discriminate|apply IH, Hpre].
Qed.

Lemma conflict_scan_raise_inv es ee others e :
  conflict_scan es ee others = Raise e ->
  e = ValueError /\
  exists pre other post,
    others = pre ++ other :: post /\ conflict_scan es ee pre = Return false
    /\ is_cancelled other = false /\ parsable other = false.
Proof.
  induction others as [|o rest IH]; [discriminate|].
  destruct (head_cases o) as [Hc | [[Hc Hp] | [Hc (os & oe & Hp)]]].
  - rewrite (conflict_scan_cancelled _ _ _ _ Hc); intros H.
    destruct (IH H) as (-> & pre & other & post & -> & Hpre & Hco & Hpo).
    split; [reflexivity|]; exists (o :: pre), other, post; repeat split; auto.
    rewrite (conflict_scan_cancelled _ _ _ _ Hc); exact Hpre.
  - rewrite (conflict_scan_unparsable _ _ _ _ Hc Hp); intros [= <-].
    split; [reflexivity|]; exists [], o, rest; auto.
  - rewrite (conflict_scan_live _ _ _ _ _ _ Hc Hp).
    destruct ((es <? oe) && (ee >? os)) eqn:Hb; [discriminate|]; intros H.
    destruct (IH H) as (-> & pre & other & post & -> & Hpre & Hco & Hpo).
    split; [reflexivity|]; exists (o :: pre), other, post; repeat split; auto.
    rewrite (conflict_scan_live _ _ _ _ _ _ Hc Hp), Hb; exact Hpre.
Qed.

Lemma conflict_scan_false es ee others other :
  conflict_scan es ee others = Return false ->
  In other others -> overlaps es ee other = false.
Proof.
  induction others as [|o rest IH]; [intros _ []|].
  destruct (head_cases o) as [Hc | [[Hc Hp] | [Hc (os & oe & Hp)]]].
  - rewrite (conflict_scan_cancelled _ _ _ _ Hc); intros H [<-|Hin]; auto.
    unfold overlaps; rewrite Hc; reflexivity.
  - rewrite (conflict_scan_unparsable _ _ _ _ Hc Hp); discriminate.
  - rewrite (conflict_scan_live _ _ _ _ _ _ Hc Hp).
    destruct ((es <? oe) && (ee >? os)) eqn:Hb; [discriminate|].
    intros H [<-|Hin]; auto.
    rewrite (overlaps_live _ _ _ _ _ Hc Hp); exact Hb.
Qed.

Lemma conflict_scan_fuel_free es ee others :
  conflict_scan es ee others <> OutOfFuel.
Proof.
  induction others as [|o rest IH]; [discriminate|].
  destruct (head_cases o) as [Hc | [[Hc Hp] | [Hc (os & oe & Hp)]]].
  - rewrite (conflict_scan_cancelled _ _ _ _ Hc); exact IH.
  - rewrite (conflict_scan_unparsable _ _ _ _ Hc Hp); discriminate.
  - rewrite (conflict_scan_live _ _ _ _ _ _ Hc Hp).
    destruct ((es <? oe) && (ee >? os)); [discriminate|exact IH].
Qed.

Lemma is_conflicting_parsed event others es ee :
  parsed event = Some (es, ee) ->
  is_conflicting event others = conflict_scan es ee others.
Proof.
  intros H; apply parsed_Some in H as [H1 H2].
  unfold is_conflicting; rewrite H1, H2; reflexivity.
Qed.

Lemma is_conflicting_unparsable event others :
  parsable event = false -> is_conflicting event others = Raise ValueError.
Proof.
  unfold parsable, parsed, is_conflicting; intros H.
  destruct (fromisoformat (start_time event)); simpl; [|reflexivity].
  destruct (fromisoformat (end_time event)); simpl; [discriminate|reflexivity].
Qed.

Lemma overlaps_spec es ee other :
  overlaps es ee other = true <->
  is_cancelled other = false /\
  exists os oe,
    fromisoformat (start_time other) = Some os /\
    fromisoformat (end_time other) = Some oe /\
    es < oe /\ ee > os.
Proof.
  unfold overlaps; split.
  - intros H; apply andb_prop in H as [Hc H].
    apply negb_true_iff in Hc; split; [exact Hc|].
    destruct (parsed other) as [[os oe]|] eqn:Hp; [|discriminate].
    apply parsed_Some in Hp as [H1 H2]; exists os, oe.
    apply andb_prop in H as [Ha Hb].
    rewrite Z.gtb_ltb in Hb; apply Z.ltb_lt in Ha, Hb; repeat split; auto; lia.
  - intros (Hc & os & oe & H1 & H2 & Ha & Hb).
    rewrite Hc, (proj2 (parsed_Some other os oe) (conj H1 H2)); simpl.
    rewrite Z.gtb_ltb; apply andb_true_intro; split; apply Z.ltb_lt; lia.
Qed.

(** C4, as amended.  For a candidate whose timestamps parse,
    [is_conflicting] returns [True] exactly when [others] holds a
    non-cancelled event with [candidate.start < other.end] and
    [candidate.end > other.start] such that every non-cancelled event
    before it has parsable timestamps.  When every non-cancelled event
    of [others] parses, the call returns, and returns [True] if and only
    if some non-cancelled element satisfies the two strict comparisons.
    Touching endpoints are not a conflict. *)
Theorem is_conflicting_iff_reached_overlap event others es ee :
  parsed event = Some (es, ee) ->
  (is_conflicting event others = Return true <->
   exists pre other post,
     others = pre ++ other :: post /\ live_parsable pre /\
     is_cancelled other = false /\
     exists os oe,
       fromisoformat (start_time other) = Some os /\
       fromisoformat (end_time other) = Some oe /\
       es < oe /\ ee > os)
  /\ (live_parsable others ->
      (is_conflicting event others = Return true
       \/ is_conflicting event others = Return false) /\
      (is_conflicting event others = Return true <->
       exists other,
         In other others /\ is_cancelled other = false /\
         exists os oe,
           fromisoformat (start_time other) = Some os /\
           fromisoformat (end_time other) = Some oe /\
           es < oe /\ ee > os))
  /\ (forall other os oe,
        parsed other = Some (os, oe) -> es = oe \/ ee = os ->
        is_conflicting event [other] = Return false).
Proof.
  intros Hev; rewrite !(is_conflicting_parsed _ _ _ _ Hev).
  split; [|split].
  - rewrite conflict_scan_true; split.
    + intros (pre & other & post & Heq & Hpre & Hov).
      exists pre, other, post; apply overlaps_spec in Hov; tauto.
    + intros (pre & other & post & Heq & Hpre & Hov).
      exists pre, other, post; rewrite overlaps_spec; tauto.
  - intros Hall. rewrite (conflict_scan_total _ _ _ Hall); split.
    + destruct (existsb (overlaps es ee) others); auto.
    + split.
      * intros [= H]; apply existsb_exists in H as (other & Hin & Hov).
        exists other; apply overlaps_spec in Hov; tauto.
      * intros (other & Hin & Hov); f_equal; apply existsb_exists.
        exists other; rewrite overlaps_spec; tauto.
  - intros other os oe Hp Htouch.
    rewrite (is_conflicting_parsed _ _ _ _ Hev).
    destruct (is_cancelled other) eqn:Hc.
    + rewrite (conflict_scan_cancelled _ _ _ _ Hc); reflexivity.
    + rewrite (conflict_scan_live _ _ _ _ _ _ Hc Hp).
      replace ((es <? oe) && (ee >? os)) with false; [reflexivity|].
      symmetry; apply andb_false_iff; rewrite Z.gtb_ltb.
      destruct Htouch; [left|right]; apply Z.ltb_ge; lia.
Qed.

(** C6.  The events the checker examines are the candidate and, in
    order, every non-cancelled element of [others] it reaches, that is
    every one before which no overlap was found.  If the candidate, or
    such an element, has a start or end timestamp that does not parse,
    the whole call raises the parser's error: no boolean is returned and
    the element is not skipped.  The call raises nothing else, and raises
    only in these two cases. *)
Theorem is_conflicting_malformed_timestamp event others pre other post :
  (parsable event = false ->
   is_conflicting event others = Raise MalformedTimestamp)
  /\ (is_conflicting event pre = Return false ->
      is_cancelled other = false -> parsable other = false ->
      is_conflicting event (pre ++ other :: post) = Raise MalformedTimestamp)
  /\ (forall e,
        is_conflicting event others = Raise e ->
        e = MalformedTimestamp /\
        (parsable event = false \/
         exists pre' other' post',
           others = pre' ++ other' :: post'
           /\ is_conflicting event pre' = Return false
           /\ is_cancelled other' = false /\ parsable other' = false)).
Proof.
  split; [apply is_conflicting_unparsable|split].
  - intros Hpre Hc Hp.
    destruct (parsed event) as [[es ee]|] eqn:Hev.
    + rewrite (is_conflicting_parsed event pre _ _ Hev) in Hpre.
      rewrite (is_conflicting_parsed _ _ _ _ Hev).
      apply conflict_scan_raise; assumption.
    + rewrite is_conflicting_unparsable in Hpre; [discriminate|].
      unfold parsable; rewrite Hev; reflexivity.
  - intros e.
    destruct (parsed event) as [[es ee]|] eqn:Hev.
    + rewrite (is_conflicting_parsed _ _ _ _ Hev); intros H.
      apply conflict_scan_raise_inv in H
        as (-> & pre' & other' & post' & -> & Hpre & Hc & Hp).
      split; [reflexivity|right].
      exists pre', other', post'; repeat split; auto.
      rewrite (is_conflicting_parsed _ _ _ _ Hev); exact Hpre.
    + assert (Hp : parsable event = false) by (unfold parsable; rewrite Hev; auto).
      rewrite (is_conflicting_unparsable _ _ Hp); intros [= <-]; auto.
Qed.

End Conflict.


(** The amended rule on a candidate 10:00-11:00 against a 10:30-11:30
    event (conflict) and against an 11:00-12:00 event (touching). *)
Lemma is_conflicting_iff_reached_overlap_witness :
  parsed ten_to_eleven = Some (63880394400000000, 63880398000000000)
  /\ live_parsable [half_past_ten]
  /\ is_conflicting ten_to_eleven [half_past_ten] = Return true
  /\ is_conflicting ten_to_eleven [eleven_to_noon] = Return false.
Proof.
  assert (Hev : parsed ten_to_eleven
                = Some (63880394400000000, 63880398000000000))
    by (vm_compute; reflexivity).
  assert (Hall : live_parsable [half_past_ten])
    by (repeat constructor).
  pose proof (is_conflicting_iff_reached_overlap
                ten_to_eleven [half_past_ten] _ _ Hev) as (_ & H2 & H3).
  destruct (H2 Hall) as (_ & Hiff).
  split; [exact Hev|]. split; [exact Hall|]. split.
  - apply Hiff. exists half_past_ten. split; [left; reflexivity|].
    split; [reflexivity|].
    exists 63880396200000000, 63880399800000000.
    repeat split; vm_compute; reflexivity.
  - apply (H3 eleven_to_noon 63880398000000000 63880401600000000).
    + vm_compute; reflexivity.
    + right; reflexivity.
Defined.

(** The rule as first stated fails when an unparsable live event is
    met before the overlapping one: the call raises instead of
    returning [True]. *)
Lemma is_conflicting_garbled_first_counterexample :
  is_conflicting ten_to_eleven [garbled; half_past_ten] = Raise ValueError
  /\ ~ conflict_iff_some_overlap ten_to_eleven [garbled; half_past_ten].
Proof.
  split; [vm_compute; reflexivity|].
  intros H.
  specialize (H 63880394400000000 63880398000000000 eq_refl).
  assert (Hr : is_conflicting ten_to_eleven [garbled; half_past_ten] = Return true).
  { apply H. exists half_past_ten. split; [right; left; reflexivity|].
    vm_compute; reflexivity. }
  vm_compute in Hr; discriminate.
Qed.

Lemma is_conflicting_malformed_timestamp_witness :
  parsable garbled = false
  /\ is_conflicting garbled [] = Raise MalformedTimestamp
  /\ is_conflicting ten_to_eleven [eleven_to_noon] = Return false
  /\ is_cancelled garbled = false
  /\ is_conflicting ten_to_eleven ([eleven_to_noon] ++ garbled :: [half_past_ten])
     = Raise MalformedTimestamp.
Proof.
  assert (Hp : parsable garbled = false) by (vm_compute; reflexivity).
  assert (Hpre : is_conflicting ten_to_eleven [eleven_to_noon] = Return false)
    by (vm_compute; reflexivity).
  assert (Hc : is_cancelled garbled = false) by reflexivity.
  split; [exact Hp|]. split.
  - apply (is_conflicting_malformed_timestamp garbled [] [] garbled []); exact Hp.
  - split; [exact Hpre|]. split; [exact Hc|].
    apply (is_conflicting_malformed_timestamp
             ten_to_eleven [] [eleven_to_noon] garbled [half_past_ten]);
      assumption.
Defined.

End Conflict.

(** ** The event store *)

Module Store.
Section Store.

Context {T : DatetimeText}.

(** C9.  [create_event] either rejects the event and leaves the storage
    as it was, or appends the event after the stored ones.  When
    [is_conflicting] answers [True] the call raises the 400 error and the
    storage is unchanged; when it answers [False] the storage holds the
    former events, unchanged and in order, followed by the new one; and
    whatever exception the call raises, the storage is unchanged.  In
    particular a new event that overlaps a non-cancelled stored event is
    never stored: the call raises the 400 error, or the parser's error
    when a malformed stored event is met first. *)
Theorem create_event_atomic event st :
  (is_conflicting event (get_calendar_events st) = Return true ->
   create_event event st = (Raise ConflictError, st))
  /\ (is_conflicting event (get_calendar_events st) = Return false ->
      let stored := get_calendar_events st in
      create_event event st = (Return event, Some (stored ++ [event])) /\
      firstn (List.length stored) (stored ++ [event]) = stored /\
      nth_error (stored ++ [event]) (List.length stored) = Some event /\
      List.length (stored ++ [event]) = S (List.length stored))
  /\ (forall e st', create_event event st = (Raise e, st') -> st' = st)
  /\ (forall es ee other,
        parsed event = Some (es, ee) ->
        In other (get_calendar_events st) -> overlaps es ee other = true ->
        create_event event st = (Raise ConflictError, st)
        \/ create_event event st = (Raise MalformedTimestamp, st)).
Proof.
  unfold create_event; split; [|split; [|split]].
  - intros ->; reflexivity.
  - intros ->; cbv zeta; repeat split.
    + rewrite firstn_app, firstn_all, Nat.sub_diag; simpl; apply app_nil_r.
    + rewrite nth_error_app2, Nat.sub_diag; [reflexivity|apply Nat.le_refl].
    + rewrite length_app, Nat.add_comm; reflexivity.
  - intros e st'.
    destruct (is_conflicting event (get_calendar_events st)) as [[|]|e'|];
      intros [= ]; subst; reflexivity.
  - intros es ee other Hev Hin Hov.
    rewrite (Conflict.is_conflicting_parsed _ _ _ _ Hev).
    destruct (conflict_scan es ee (get_calendar_events st))
      as [[|]| e |] eqn:Hscan; auto.
    + rewrite (Conflict.conflict_scan_false _ _ _ _ Hscan Hin) in Hov; discriminate.
    + apply Conflict.conflict_scan_raise_inv in Hscan as [-> _]; auto.
    + apply Conflict.conflict_scan_fuel_free in Hscan; contradiction.
Qed.

End Store.

Lemma create_event_atomic_witness :
  is_conflicting half_past_ten
    (get_calendar_events (Some [ten_to_eleven])) = Return true
  /\ create_event half_past_ten (Some [ten_to_eleven])
     = (Raise ConflictError, Some [ten_to_eleven])
  /\ is_conflicting eleven_to_noon
       (get_calendar_events (Some [ten_to_eleven])) = Return false
  /\ create_event eleven_to_noon (Some [ten_to_eleven])
     = (Return eleven_to_noon,
        Some [ten_to_eleven; eleven_to_noon]).
Proof.
  assert (H1 : is_conflicting half_past_ten
                 (get_calendar_events (Some [ten_to_eleven])) = Return true)
    by (vm_compute; reflexivity).
  assert (H2 : is_conflicting eleven_to_noon
                 (get_calendar_events (Some [ten_to_eleven])) = Return false)
    by (vm_compute; reflexivity).
  split; [exact H1|]. split.
  - exact (proj1 (create_event_atomic _ _) H1).
  - split; [exact H2|].
    exact (proj1 (proj1 (proj2 (create_event_atomic _ _)) H2)).
Defined.

End Store.

(** ** The slot finder *)

Module Slots.
Section Slots.

Context {T : DatetimeText}.

(** *** Which exceptions can come out *)

Lemma emit_unfold fuel sd cur bound acc :
  emit (S fuel) sd cur bound acc =
  match Py.add cur sd with
  | None => Raise OverflowError
  | Some slot_end =>
      if slot_end <=? bound
      then emit fuel sd slot_end bound
             (acc ++ [mkTimeSlot (isoformat cur) (isoformat slot_end)])
      else Return acc
  end.
Proof. simpl; destruct (Py.add cur sd); reflexivity. Qed.

Lemma emit_raise fuel sd cur bound acc e :
  emit fuel sd cur bound acc = Raise e -> e = OverflowError.
Proof.
  revert cur acc; induction fuel as [|fuel IH]; intros cur acc; [discriminate|].
  rewrite emit_unfold.
  destruct (Py.add cur sd) as [slot_end|]; [|congruence].
  destruct (slot_end <=? bound); [apply IH|discriminate].
Qed.

Lemma between_raise fuel sd occ acc e :
  between fuel sd occ acc = Raise e -> e = OverflowError.
Proof.
  revert acc; induction occ as [|cur rest IH]; intros acc; [discriminate|].
  destruct rest as [|next rest]; [discriminate|].
  change (between fuel sd (cur :: next :: rest) acc)
    with (bind (emit fuel sd (snd cur) (fst next) acc)
               (fun acc' => between fuel sd (next :: rest) acc')).
  destruct (emit fuel sd (snd cur) (fst next) acc) as [acc'| e' |] eqn:He; simpl.
  - apply IH.
  - intros [= <-]; eapply emit_raise; eassumption.
  - discriminate.
Qed.

Lemma walk_raise fuel d day_start day_end occ e :
  walk fuel d day_start day_end occ = Raise e -> e = OverflowError.
Proof.
  unfold walk.
  destruct (Py.timedelta_minutes d) as [sd|]; cbn [bind or_raise]; [|congruence].
  destruct occ as [|first rest]; [apply emit_raise|].
  destruct (if day_start <? fst first
            then emit fuel sd day_start (fst first) []
            else Return []) as [acc| e' |] eqn:H1; cbn [bind].
  - destruct (between fuel sd (first :: rest) acc) as [acc'| e' |] eqn:H2;
      cbn [bind].
    + apply emit_raise.
    + intros [= <-]; eapply between_raise; eassumption.
    + discriminate.
  - intros [= <-]. destruct (day_start <? fst first); [|discriminate].
    eapply emit_raise; eassumption.
  - discriminate.
Qed.

Lemma collect_day_events_unfold target event rest acc :
  collect_day_events target (event :: rest) acc =
  match parsed event with
  | None => Raise ValueError
  | Some i =>
      if considered target event
      then collect_day_events target rest (acc ++ [i])
      else collect_day_events target rest acc
  end.
Proof.
  simpl; unfold considered, parsed.
  destruct (fromisoformat (start_time event)) as [s|]; simpl; [|reflexivity].
  destruct (fromisoformat (end_time event)) as [t|]; simpl; [|reflexivity].
  destruct (Py.date_of s =? target), (Py.date_of t =? target),
    (is_cancelled event); reflexivity.
Qed.

Lemma collect_day_events_raise target events acc e :
  collect_day_events target events acc = Raise e -> e = ValueError.
Proof.
  revert acc; induction events as [|event rest IH]; intros acc; [discriminate|].
  rewrite collect_day_events_unfold.
  destruct (parsed event); [|congruence].
  destruct (considered target event); apply IH.
Qed.

Lemma collect_day_events_fuel_free target events acc :
  collect_day_events target events acc <> OutOfFuel.
Proof.
  revert acc; induction events as [|event rest IH]; intros acc; [discriminate|].
  rewrite collect_day_events_unfold.
  destruct (parsed event); [|discriminate].
  destruct (considered target event); apply IH.
Qed.

Lemma get_available_slots_parsed fuel date d st target :
  strptime_date date = Some target ->
  get_available_slots fuel date d st =
  bind (collect_day_events target (get_calendar_events st) [])
       (fun day_events =>
          walk fuel d (Py.combine_hour target 9) (Py.combine_hour target 17)
               (sort_by_start day_events)).
Proof. intros H; unfold get_available_slots; rewrite H; reflexivity. Qed.

(** With a date that parses, no HTTP error comes out of the slot finder. *)
Lemma get_available_slots_no_http fuel date d st target code detail :
  strptime_date date = Some target ->
  get_available_slots fuel date d st <> Raise (HTTPException code detail).
Proof.
  intros Hd; rewrite (get_available_slots_parsed _ _ _ _ _ Hd).
  destruct (collect_day_events target (get_calendar_events st) [])
    as [day_events| e |] eqn:Hc; simpl.
  - intros H; apply walk_raise in H; discriminate.
  - intros [= ->]; apply collect_day_events_raise in Hc; discriminate.
  - discriminate.
Qed.

(** C7.  A [date] that does not parse makes the slot finder raise the
    400 error "Invalid date format", whatever the duration, the stored
    events and the fuel: nothing is read or computed and no slot is
    returned.  A [date] that parses never leads to that error. *)
Theorem invalid_date_rejected_first date :
  (strptime_date date = None ->
   forall fuel d st, get_available_slots fuel date d st = Raise InvalidDate)
  /\ (forall target, strptime_date date = Some target ->
      forall fuel d st, get_available_slots fuel date d st <> Raise InvalidDate).
Proof.
  split.
  - intros H fuel d st; unfold get_available_slots; rewrite H; reflexivity.
  - intros target H fuel d st; eapply get_available_slots_no_http; eassumption.
Qed.

(** C3, as amended.  The slot finder makes no check on the duration: with
    a date that parses, a call with [duration_minutes <= 0] never raises
    an HTTP (400) error, and its outcome is that of the slot walk run with
    that duration on the day's events. *)
Theorem nonpositive_duration_unchecked fuel date d st target :
  d <= 0 ->
  strptime_date date = Some target ->
  (forall code detail,
      get_available_slots fuel date d st <> Raise (HTTPException code detail))
  /\ (forall day_events,
        collect_day_events target (get_calendar_events st) [] = Return day_events ->
        get_available_slots fuel date d st =
        walk fuel d (Py.combine_hour target 9) (Py.combine_hour target 17)
             (sort_by_start day_events)).
Proof.
  intros _ Hd; split.
  - intros code detail; eapply get_available_slots_no_http; eassumption.
  - intros day_events Hc.
    rewrite (get_available_slots_parsed _ _ _ _ _ Hd), Hc; reflexivity.
Qed.

(** With duration 0 an emission loop whose bound is not yet passed never
    advances. *)
Lemma emit_zero_diverges fuel cur bound acc :
  Py.datetime_in_range cur = true -> cur <= bound ->
  emit fuel 0 cur bound acc = OutOfFuel.
Proof.
  intros Hr Hle; revert acc; induction fuel as [|fuel IH]; intros acc;
    [reflexivity|].
  rewrite emit_unfold; unfold Py.add; rewrite Z.add_0_r, Hr.
  destruct (Z.leb_spec cur bound); [apply IH|lia].
Qed.

(** X17.  Duration 0 on a day without considered events: the first loop
    never advances and the call never returns, whatever the fuel. *)
Lemma zero_duration_diverges fuel date st target :
  strptime_date date = Some target ->
  1 <= target <= Py.MAXORDINAL ->
  collect_day_events target (get_calendar_events st) [] = Return [] ->
  get_available_slots fuel date 0 st = OutOfFuel.
Proof.
  intros Hd Hrange Hc.
  rewrite (get_available_slots_parsed _ _ _ _ _ Hd), Hc; simpl.
  unfold walk; simpl. apply emit_zero_diverges.
  - unfold Py.datetime_in_range, Py.combine_hour, Py.US_PER_DAY, Py.US_PER_HOUR,
      Py.MAXORDINAL in *.
    apply andb_true_intro; split; [apply Z.leb_le|apply Z.ltb_lt]; lia.
  - unfold Py.combine_hour, Py.US_PER_HOUR; lia.
Qed.

(** *** Termination *)

Lemma settles_const {A : Type} (r : outcome A) :
  r <> OutOfFuel -> settles (fun _ => r).
Proof. intros H; exists 0%nat, r; auto. Qed.

Lemma settles_bind {A B : Type} (f : nat -> outcome A)
      (g : A -> nat -> outcome B) :
  settles f -> (forall a, settles (g a)) ->
  settles (fun fuel => bind (f fuel) (fun a => g a fuel)).
Proof.
  intros (n & r & Hr & Hf) Hg.
  destruct r as [a | e | ]; [| |congruence].
  - destruct (Hg a) as (m & r' & Hr' & Hga).
    exists (Nat.max n m), r'; split; [exact Hr'|].
    intros fuel Hfuel; rewrite Hf by lia; simpl; apply Hga; lia.
  - exists n, (Raise e); split; [discriminate|].
    intros fuel Hfuel; rewrite Hf by lia; reflexivity.
Qed.

(** One emission loop with a positive step: [bound - current_time]
    shrinks by [slot_duration] at every turn, so [k + 1] turns are enough
    once [bound - current_time < k]; more fuel changes nothing. *)
Lemma emit_enough_fuel sd bound (k : nat) :
  0 < sd ->
  forall cur acc, bound - cur < Z.of_nat k ->
    emit (S k) sd cur bound acc <> OutOfFuel /\
    forall fuel, (S k <= fuel)%nat ->
      emit fuel sd cur bound acc = emit (S k) sd cur bound acc.
Proof.
  intros Hsd; induction k as [|k IH]; intros cur acc Hk.
  - split.
    + rewrite emit_unfold; unfold Py.add.
      destruct (Py.datetime_in_range (cur + sd)); [|discriminate].
      destruct (Z.leb_spec (cur + sd) bound); [lia|discriminate].
    + intros [|fuel] Hfuel; [lia|].
      rewrite !emit_unfold; unfold Py.add.
      destruct (Py.datetime_in_range (cur + sd)); [|reflexivity].
      destruct (Z.leb_spec (cur + sd) bound); [lia|reflexivity].
  - split.
    + rewrite emit_unfold; unfold Py.add.
      destruct (Py.datetime_in_range (cur + sd)); [|discriminate].
      destruct (Z.leb_spec (cur + sd) bound); [|discriminate].
      apply IH; lia.
    + intros [|fuel] Hfuel; [lia|].
      rewrite (emit_unfold fuel), (emit_unfold (S k)); unfold Py.add.
      destruct (Py.datetime_in_range (cur + sd)); [|reflexivity].
      destruct (Z.leb_spec (cur + sd) bound); [|reflexivity].
      apply IH; lia.
Qed.

Lemma emit_settles sd cur bound acc :
  0 < sd -> settles (fun fuel => emit fuel sd cur bound acc).
Proof.
  intros Hsd.
  destruct (emit_enough_fuel sd bound (Z.to_nat (bound - cur + 1)) Hsd cur acc)
    as [Hne Hsame]; [lia|].
  exists (S (Z.to_nat (bound - cur + 1))),
    (emit (S (Z.to_nat (bound - cur + 1))) sd cur bound acc); auto.
Qed.

Lemma between_settles sd occ acc :
  0 < sd -> settles (fun fuel => between fuel sd occ acc).
Proof.
  intros Hsd; revert acc; induction occ as [|cur rest IH]; intros acc.
  - exact (settles_const (Return acc) ltac:(discriminate)).
  - destruct rest as [|next rest];
      [exact (settles_const (Return acc) ltac:(discriminate))|].
    apply (settles_bind (fun fuel => emit fuel sd (snd cur) (fst next) acc)
             (fun acc' fuel => between fuel sd (next :: rest) acc')).
    + apply emit_settles, Hsd.
    + intros acc'; apply IH.
Qed.

Lemma timedelta_minutes_positive d sd :
  0 < d -> Py.timedelta_minutes d = Some sd -> 0 < sd.
Proof.
  unfold Py.timedelta_minutes, Py.US_PER_MINUTE; intros Hd.
  destruct (Py.timedelta_in_range _); intros [= <-]; lia.
Qed.

Lemma walk_settles d day_start day_end occ :
  0 < d -> settles (fun fuel => walk fuel d day_start day_end occ).
Proof.
  intros Hd; unfold walk.
  destruct (Py.timedelta_minutes d) as [sd|] eqn:Hsd; cbn [bind or_raise];
    [|exact (settles_const (Raise OverflowError) ltac:(discriminate))].
  apply (timedelta_minutes_positive _ _ Hd) in Hsd.
  destruct occ as [|first rest]; [apply emit_settles, Hsd|].
  apply (settles_bind
           (fun fuel => if day_start <? fst first
                        then emit fuel sd day_start (fst first) []
                        else Return [])
           (fun acc fuel =>
              bind (between fuel sd (first :: rest) acc)
                   (fun acc' => emit fuel sd (snd (last (first :: rest) first))
                                     day_end acc'))).
  - destruct (day_start <? fst first);
      [apply emit_settles, Hsd|exact (settles_const (Return []) ltac:(discriminate))].
  - intros acc.
    apply (settles_bind (fun fuel => between fuel sd (first :: rest) acc)
             (fun acc' fuel => emit fuel sd (snd (last (first :: rest) first))
                                    day_end acc')).
    + apply between_settles, Hsd.
    + intros acc'; apply emit_settles, Hsd.
Qed.

Lemma walk_settles_slots date d st :
  0 < d -> settles (fun fuel => get_available_slots fuel date d st).
Proof.
  intros Hd; unfold get_available_slots.
  destruct (strptime_date date) as [target|]; cbn [bind or_raise];
    [|exact (settles_const (Raise InvalidDate) ltac:(discriminate))].
  destruct (collect_day_events target (get_calendar_events st) [])
    as [day_events| e |] eqn:Hc; cbn [bind].
  - apply walk_settles, Hd.
  - exact (settles_const (Raise e) ltac:(discriminate)).
  - apply collect_day_events_fuel_free in Hc; contradiction.
Qed.

(** *** Shape of the returned slots *)

Lemma emit_slots fuel sd cur bound acc slots :
  emit fuel sd cur bound acc = Return slots ->
  exists starts, slots = acc ++ map (slot_at sd) starts.
Proof.
  revert cur acc; induction fuel as [|fuel IH]; intros cur acc; [discriminate|].
  rewrite emit_unfold; unfold Py.add.
  destruct (Py.datetime_in_range (cur + sd)); [|discriminate].
  destruct (cur + sd <=? bound).
  - intros H; apply IH in H as [starts ->].
    exists (cur :: starts); rewrite <- app_assoc; reflexivity.
  - intros [= <-]; exists []; rewrite app_nil_r; reflexivity.
Qed.

Lemma between_slots fuel sd occ acc slots :
  between fuel sd occ acc = Return slots ->
  exists starts, slots = acc ++ map (slot_at sd) starts.
Proof.
  revert acc; induction occ as [|cur rest IH]; intros acc.
  - intros [= <-]; exists []; rewrite app_nil_r; reflexivity.
  - destruct rest as [|next rest].
    + intros [= <-]; exists []; rewrite app_nil_r; reflexivity.
    + change (between fuel sd (cur :: next :: rest) acc)
        with (bind (emit fuel sd (snd cur) (fst next) acc)
                   (fun acc' => between fuel sd (next :: rest) acc')).
      intros H; apply bind_Return in H as (acc' & H1 & H2).
      apply emit_slots in H1 as [l1 ->]; apply IH in H2 as [l2 ->].
      exists (l1 ++ l2); rewrite map_app, app_assoc; reflexivity.
Qed.

Lemma walk_slots fuel d day_start day_end occ slots :
  walk fuel d day_start day_end occ = Return slots ->
  exists sd starts,
    Py.timedelta_minutes d = Some sd /\ slots = map (slot_at sd) starts.
Proof.
  unfold walk.
  destruct (Py.timedelta_minutes d) as [sd|]; cbn [bind or_raise]; [|discriminate].
  intros H; exists sd.
  destruct occ as [|first rest].
  - apply emit_slots in H as [starts ->]; exists starts; auto.
  - apply bind_Return in H as (acc1 & H1 & H).
    apply bind_Return in H as (acc2 & H2 & H3).
    assert (exists l1, acc1 = map (slot_at sd) l1) as [l1 ->].
    { destruct (day_start <? fst first).
      - apply emit_slots in H1 as [l1 ->]; exists l1; reflexivity.
      - injection H1 as <-; exists []; reflexivity. }
    apply between_slots in H2 as [l2 ->]; apply emit_slots in H3 as [l3 ->].
    exists (l1 ++ l2 ++ l3); rewrite !map_app, app_assoc; auto.
Qed.

(** X13.  Every returned slot runs from some instant [t] to [t] plus the
    requested number of minutes. *)
Lemma slots_have_requested_duration fuel date d st slots :
  get_available_slots fuel date d st = Return slots ->
  Forall (fun slot =>
            exists t, start slot = isoformat t
                      /\ end_ slot = isoformat (t + d * Py.US_PER_MINUTE)) slots.
Proof.
  unfold get_available_slots; intros H.
  apply bind_Return in H as (target & _ & H).
  apply bind_Return in H as (day_events & _ & H).
  apply walk_slots in H as (sd & starts & Hsd & ->).
  unfold Py.timedelta_minutes in Hsd.
  destruct (Py.timedelta_in_range _); [|discriminate]; injection Hsd as <-.
  apply Forall_forall; intros slot Hin.
  apply in_map_iff in Hin as (t & <- & _); exists t; auto.
Qed.

(** *** Where the returned slots lie *)

Lemma emit_in_gap fuel sd cur bound acc slots :
  0 <= sd ->
  emit fuel sd cur bound acc = Return slots ->
  exists starts,
    slots = acc ++ map (slot_at sd) starts
    /\ Forall (fun t => in_gap sd t (cur, bound)) starts
    /\ spaced sd cur starts.
Proof.
  intros Hsd; revert cur acc; induction fuel as [|fuel IH]; intros cur acc;
    [discriminate|].
  rewrite emit_unfold; unfold Py.add.
  destruct (Py.datetime_in_range (cur + sd)); [|discriminate].
  destruct (Z.leb_spec (cur + sd) bound) as [Hle|Hgt].
  - intros H; apply IH in H as (starts & -> & Hin & Hsp).
    exists (cur :: starts); rewrite <- app_assoc; split; [reflexivity|]. split.
    + constructor; [unfold in_gap; simpl; lia|].
      eapply Forall_impl; [|exact Hin]. unfold in_gap; simpl; intros t; lia.
    + simpl; split; [lia|exact Hsp].
  - intros [= <-]; exists []; rewrite app_nil_r; repeat split; constructor.
Qed.

Lemma between_unfold fuel sd cur next rest acc :
  between fuel sd (cur :: next :: rest) acc =
  bind (emit fuel sd (snd cur) (fst next) acc)
       (fun acc' => between fuel sd (next :: rest) acc').
Proof. reflexivity. Qed.

Lemma between_in_gaps fuel sd occ acc slots :
  0 <= sd ->
  between fuel sd occ acc = Return slots ->
  exists starts,
    slots = acc ++ map (slot_at sd) starts
    /\ Forall (fun t => Exists (in_gap sd t) (gaps_between occ)) starts.
Proof.
  intros Hsd; revert acc; induction occ as [|cur rest IH]; intros acc.
  - intros [= <-]; exists []; rewrite app_nil_r; split; constructor.
  - destruct rest as [|next rest].
    + intros [= <-]; exists []; rewrite app_nil_r; split; constructor.
    + rewrite between_unfold; intros H.
      apply bind_Return in H as (acc' & H1 & H2).
      apply (emit_in_gap _ _ _ _ _ _ Hsd) in H1 as (l1 & -> & Hl1 & _).
      apply IH in H2 as (l2 & -> & Hl2).
      exists (l1 ++ l2); rewrite map_app, app_assoc; split; [reflexivity|].
      apply Forall_app; split.
      * eapply Forall_impl; [|exact Hl1]; intros t Ht.
        change (gaps_between (cur :: next :: rest))
          with ((snd cur, fst next) :: gaps_between (next :: rest)).
        apply Exists_cons_hd; exact Ht.
      * eapply Forall_impl; [|exact Hl2]; intros t Ht.
        change (gaps_between (cur :: next :: rest))
          with ((snd cur, fst next) :: gaps_between (next :: rest)).
        apply Exists_cons_tl; exact Ht.
Qed.

Lemma walk_unfold fuel d day_start day_end first rest sd :
  Py.timedelta_minutes d = Some sd ->
  walk fuel d day_start day_end (first :: rest) =
  bind (if day_start <? fst first
        then emit fuel sd day_start (fst first) []
        else Return [])
       (fun acc1 =>
          bind (between fuel sd (first :: rest) acc1)
               (fun acc2 =>
                  emit fuel sd (snd (last (first :: rest) first)) day_end acc2)).
Proof. intros H; unfold walk; rewrite H; reflexivity. Qed.

(** Every slot the walk returns lies in one of the gaps it visits. *)
Lemma walk_in_gaps fuel d day_start day_end occ sd slots :
  0 <= sd -> Py.timedelta_minutes d = Some sd ->
  walk fuel d day_start day_end occ = Return slots ->
  exists starts,
    slots = map (slot_at sd) starts
    /\ Forall (fun t => Exists (in_gap sd t) (gaps day_start day_end occ)) starts.
Proof.
  intros Hsd Htd; destruct occ as [|first rest].
  - unfold walk; rewrite Htd; cbn [bind or_raise]; intros H.
    apply (emit_in_gap _ _ _ _ _ _ Hsd) in H as (l & -> & Hl & _).
    exists l; split; [reflexivity|].
    eapply Forall_impl; [|exact Hl]; intros t Ht; apply Exists_cons_hd; exact Ht.
  - rewrite (walk_unfold _ _ _ _ _ _ _ Htd); intros H.
    apply bind_Return in H as (acc1 & H1 & H).
    apply bind_Return in H as (acc2 & H2 & H3).
    unfold gaps.
    assert (exists l1, acc1 = map (slot_at sd) l1
              /\ Forall (fun t => Exists (in_gap sd t)
                                    (if day_start <? fst first
                                     then [(day_start, fst first)] else [])) l1)
      as (l1 & -> & Hl1).
    { destruct (day_start <? fst first).
      - apply (emit_in_gap _ _ _ _ _ _ Hsd) in H1 as (l1 & -> & Hl1 & _).
        exists l1; split; [reflexivity|].
        eapply Forall_impl; [|exact Hl1]; intros t Ht; apply Exists_cons_hd, Ht.
      - injection H1 as <-; exists []; split; constructor. }
    apply (between_in_gaps _ _ _ _ _ Hsd) in H2 as (l2 & -> & Hl2).
    apply (emit_in_gap _ _ _ _ _ _ Hsd) in H3 as (l3 & -> & Hl3 & _).
    exists (l1 ++ l2 ++ l3); rewrite !map_app, app_assoc; split; [reflexivity|].
    repeat (apply Forall_app; split).
    + eapply Forall_impl; [|exact Hl1]; intros t Ht.
      apply Exists_app; left; exact Ht.
    + eapply Forall_impl; [|exact Hl2]; intros t Ht.
      apply Exists_app; right; apply Exists_app; left; exact Ht.
    + eapply Forall_impl; [|exact Hl3]; intros t Ht.
      apply Exists_app; right; apply Exists_app; right.
      apply Exists_cons_hd; exact Ht.
Qed.

(** *** The stable sort *)

Lemma insert_by_start_In b x l :
  In b (insert_by_start x l) <-> b = x \/ In b l.
Proof.
  induction l as [|y l IH]; simpl.
  - intuition auto.
  - destruct (fst x <=? fst y); simpl; [intuition auto|].
    rewrite IH; intuition auto.
Qed.

Lemma sort_by_start_In b l : In b (sort_by_start l) <-> In b l.
Proof.
  induction l as [|x l IH]; simpl; [reflexivity|].
  rewrite insert_by_start_In, IH; intuition auto.
Qed.

Lemma sort_by_start_Forall (P : Py.datetime * Py.datetime -> Prop) l :
  Forall P l -> Forall P (sort_by_start l).
Proof.
  rewrite !Forall_forall; intros H b Hb; apply H, sort_by_start_In, Hb.
Qed.

Lemma insert_by_start_sorted x l :
  StronglySorted (fun a b => fst a <= fst b) l ->
  StronglySorted (fun a b => fst a <= fst b) (insert_by_start x l).
Proof.
  induction 1 as [|y l Hl IH Hy]; simpl.
  - repeat constructor.
  - destruct (_ <=? _) eqn:Hcmp;
      [apply Z.leb_le in Hcmp as Hle|apply Z.leb_gt in Hcmp as Hgt].
    + constructor; [constructor; assumption|].
      constructor; [exact Hle|].
      eapply Forall_impl; [|exact Hy]; simpl; intros b; zlia.
    + constructor; [exact IH|].
      apply Forall_forall; intros b Hb; apply insert_by_start_In in Hb as [->|Hb];
        [zlia|]. rewrite Forall_forall in Hy; auto.
Qed.

Lemma sort_by_start_sorted l :
  StronglySorted (fun a b => fst a <= fst b) (sort_by_start l).
Proof.
  induction l as [|x l IH]; simpl; [constructor|].
  apply insert_by_start_sorted, IH.
Qed.

(** Busy intervals that are non-empty and pairwise apart come out of
    the sort as a chain: each ends before the next starts. *)
Lemma insert_by_start_chain x l :
  fst x < snd x ->
  Forall (fun b => fst b < snd b) l ->
  Forall (apart x) l ->
  StronglySorted (fun a b => snd a <= fst b) l ->
  StronglySorted (fun a b => snd a <= fst b) (insert_by_start x l).
Proof.
  intros Hx Hwf Hap Hch; induction Hch as [|y l Hl IH Hy]; simpl.
  - repeat constructor.
  - inversion Hwf as [|? ? Hwy Hwl]; subst.
    inversion Hap as [|? ? Hay Hal]; subst.
    rewrite Forall_forall in Hy, Hwl, Hal.
    destruct (_ <=? _) eqn:Hcmp;
      [apply Z.leb_le in Hcmp as Hle|apply Z.leb_gt in Hcmp as Hgt].
    + constructor; [constructor; [assumption|apply Forall_forall; assumption]|].
      unfold apart in *. constructor.
      * destruct Hay; zlia.
      * apply Forall_forall; intros b Hb.
        specialize (Hy b Hb); specialize (Hwl b Hb).
        destruct (Hal b Hb); zlia.
    + constructor.
      * apply IH; apply Forall_forall; assumption.
      * apply Forall_forall; intros b Hb.
        apply insert_by_start_In in Hb as [->|Hb];
          [unfold apart in Hay; destruct Hay; zlia|auto].
Qed.

Lemma sort_by_start_chain l :
  Forall (fun b => fst b < snd b) l ->
  ForallOrdPairs apart l ->
  StronglySorted (fun a b => snd a <= fst b) (sort_by_start l).
Proof.
  intros Hwf Hap; induction Hap as [|x l Hx Hl IH]; simpl; [constructor|].
  inversion Hwf; subst.
  apply insert_by_start_chain; auto using sort_by_start_Forall.
Qed.

(** *** Gaps of a chain are free *)

Lemma gaps_between_ends occ g :
  In g (gaps_between occ) ->
  exists x y, In x occ /\ In y occ /\ g = (snd x, fst y).
Proof.
  induction occ as [|cur rest IH]; [intros []|].
  destruct rest as [|next rest]; [intros []|].
  change (gaps_between (cur :: next :: rest))
    with ((snd cur, fst next) :: gaps_between (next :: rest)).
  intros [<-|Hg].
  - exists cur, next; simpl; auto.
  - destruct (IH Hg) as (x & y & Hx & Hy & ->).
    exists x, y; simpl in *; auto.
Qed.

Lemma chain_gaps_between_clear occ g b :
  StronglySorted (fun a b => snd a <= fst b) occ ->
  Forall (fun b => fst b <= snd b) occ ->
  In g (gaps_between occ) -> In b occ ->
  snd b <= fst g \/ snd g <= fst b.
Proof.
  intros Hch; revert g b; induction Hch as [|cur rest Hrest IH Hcur];
    intros g b Hwf Hg Hb; [destruct Hg|].
  destruct rest as [|next rest]; [destruct Hg|].
  inversion Hwf as [|? ? Hwc Hwr]; subst.
  change (gaps_between (cur :: next :: rest))
    with ((snd cur, fst next) :: gaps_between (next :: rest)) in Hg.
  rewrite Forall_forall in Hcur.
  destruct Hg as [<-|Hg]; simpl.
  - destruct Hb as [<-|[<-|Hb]]; [left; zlia|right; zlia|right].
    inversion Hrest as [|? ? _ Hnext]; subst.
    inversion Hwr as [|? ? Hwn _]; subst.
    rewrite Forall_forall in Hnext; specialize (Hnext b Hb); zlia.
  - destruct Hb as [<-|Hb]; [|apply IH; assumption].
    left. destruct (gaps_between_ends _ _ Hg) as (x & y & Hx & _ & ->); simpl.
    rewrite Forall_forall in Hwr.
    specialize (Hcur x Hx); specialize (Hwr x Hx); zlia.
Qed.

Lemma chain_last_latest first rest b :
  StronglySorted (fun a b => snd a <= fst b) (first :: rest) ->
  Forall (fun b => fst b <= snd b) (first :: rest) ->
  In b (first :: rest) ->
  snd b <= snd (last (first :: rest) first).
Proof.
  revert first b; induction rest as [|next rest IH]; intros first b Hch Hwf Hb.
  - destruct Hb as [<-|[]]; simpl; zlia.
  - inversion Hch as [|? ? Hrest Hfirst]; subst.
    inversion Hwf as [|? ? Hwc Hwr]; subst.
    change (last (first :: next :: rest) first) with (last (next :: rest) first).
    assert (Hlast : last (next :: rest) first = last (next :: rest) next).
    { clear; revert next; induction rest as [|z rest IHr]; intros next;
        [reflexivity|]. simpl in *. destruct rest; auto. }
    rewrite Hlast.
    destruct Hb as [<-|Hb]; [|apply IH; assumption].
    rewrite Forall_forall in Hfirst.
    assert (Hn : In next (next :: rest)) by (left; reflexivity).
    specialize (IH next next Hrest Hwr Hn).
    specialize (Hfirst next Hn).
    inversion Hwr; subst; zlia.
Qed.

(** In a chain every gap the walk visits is clear of every busy interval. *)
Lemma chain_gaps_clear day_start day_end occ g b :
  StronglySorted (fun a b => snd a <= fst b) occ ->
  Forall (fun b => fst b <= snd b) occ ->
  In g (gaps day_start day_end occ) -> In b occ ->
  snd b <= fst g \/ snd g <= fst b.
Proof.
  intros Hch Hwf Hg Hb; destruct occ as [|first rest]; [destruct Hb|].
  unfold gaps in Hg; apply in_app_or in Hg as [Hg|Hg];
    [|apply in_app_or in Hg as [Hg|Hg]].
  - revert Hg; destruct (_ <? _); simpl; [|contradiction].
    intros [<-|[]]; simpl; right.
    destruct Hb as [<-|Hb]; [zlia|].
    inversion Hch as [|? ? _ Hfirst]; subst; inversion Hwf; subst.
    rewrite Forall_forall in Hfirst; specialize (Hfirst b Hb); zlia.
  - eapply chain_gaps_between_clear; eassumption.
  - destruct Hg as [<-|[]]; simpl fst; left.
    apply chain_last_latest; assumption.
Qed.

(** *** Order of the returned slots *)

Lemma spaced_weaken sd lo lo' l :
  lo' <= lo -> spaced sd lo l -> spaced sd lo' l.
Proof. destruct l; simpl; [auto|]. intros H [H1 H2]; split; [lia|exact H2]. Qed.

Lemma spaced_app sd lo hi lo' l1 l2 :
  spaced sd lo l1 -> Forall (fun t => t + sd <= hi) l1 ->
  spaced sd lo' l2 -> hi <= lo' -> lo <= lo' ->
  spaced sd lo (l1 ++ l2).
Proof.
  revert lo; induction l1 as [|t l1 IH]; intros lo H1 Hhi H2 Hle Hlo; simpl.
  - eapply spaced_weaken; eassumption.
  - destruct H1 as [Ht H1]; inversion Hhi; subst; split; [exact Ht|].
    apply IH; auto; lia.
Qed.

Lemma spaced_nth sd lo l i j ti tj :
  0 <= sd -> spaced sd lo l -> (i < j)%nat ->
  nth_error l i = Some ti -> nth_error l j = Some tj -> ti + sd <= tj.
Proof.
  intros Hsd; revert lo i j; induction l as [|t l IH]; intros lo i j Hsp Hij Hi Hj.
  - destruct i; discriminate.
  - destruct Hsp as [Ht Hsp]; destruct j as [|j]; [lia|]; simpl in Hj.
    destruct i as [|i]; simpl in Hi.
    + injection Hi as <-.
      clear IH Hij Ht; revert j Hj; generalize dependent (t + sd).
      induction l as [|u l IHl]; intros lo' Hsp j Hj; [destruct j; discriminate|].
      destruct Hsp as [Hu Hsp]; destruct j as [|j]; simpl in Hj.
      * injection Hj as <-; exact Hu.
      * specialize (IHl _ Hsp j Hj); lia.
    + apply (IH (t + sd) i j); auto; lia.
Qed.

Lemma last_cons_default {A : Type} (x y : A) (l : list A) :
  last (x :: l) y = last l x.
Proof.
  revert x y; induction l as [|z l IH]; intros x y; [reflexivity|].
  change (last (x :: z :: l) y) with (last (z :: l) y).
  rewrite (IH z y); symmetry; apply (IH z x).
Qed.

Lemma last_In {A : Type} (x : A) (l : list A) : In (last l x) (x :: l).
Proof.
  revert x; induction l as [|z l IH]; intros x; [left; reflexivity|].
  right; rewrite (last_cons_default z x l); apply IH.
Qed.

Lemma sorted_first_le_last first rest :
  StronglySorted (fun a b : Py.datetime * Py.datetime => fst a <= fst b)
                 (first :: rest) ->
  fst first <= fst (last (first :: rest) first).
Proof.
  intros H; inversion H as [|? ? _ Hf]; subst; rewrite last_cons_default.
  destruct rest as [|next rest]; [simpl; lia|].
  rewrite Forall_forall in Hf; apply Hf.
  rewrite last_cons_default; apply last_In.
Qed.

Lemma between_spaced fuel sd first rest acc slots :
  0 <= sd ->
  StronglySorted (fun a b => fst a <= fst b) (first :: rest) ->
  Forall (fun b => fst b <= snd b) (first :: rest) ->
  between fuel sd (first :: rest) acc = Return slots ->
  exists starts,
    slots = acc ++ map (slot_at sd) starts
    /\ spaced sd (fst first) starts
    /\ Forall (fun t => t + sd <= fst (last (first :: rest) first)) starts.
Proof.
  intros Hsd; revert first acc; induction rest as [|next rest IH];
    intros first acc Hso Hwf.
  - intros [= <-]; exists []; rewrite app_nil_r; repeat split; constructor.
  - rewrite between_unfold; intros H.
    apply bind_Return in H as (acc' & H1 & H2).
    inversion Hso as [|? ? Hso' Hfirst]; subst.
    inversion Hwf as [|? ? Hwfirst Hwf']; subst.
    apply (emit_in_gap _ _ _ _ _ _ Hsd) in H1 as (l1 & -> & Hl1 & Hs1).
    apply (IH _ _ Hso' Hwf') in H2 as (l2 & -> & Hs2 & Hl2).
    pose proof (sorted_first_le_last _ _ Hso') as Hlast.
    assert (Hfn : fst first <= fst next) by (inversion Hfirst; assumption).
    change (last (first :: next :: rest) first) with (last (next :: rest) first).
    rewrite (last_cons_default next first rest),
      <- (last_cons_default next next rest).
    exists (l1 ++ l2); rewrite map_app, app_assoc; split; [reflexivity|]. split.
    + apply (spaced_app sd (fst first) (fst next) (fst next)); auto; try zlia.
      * eapply spaced_weaken; [|exact Hs1]; exact Hwfirst.
      * eapply Forall_impl; [|exact Hl1]; unfold in_gap; cbn [fst snd]; intros t [? ?]; zlia.
    + apply Forall_app; split; [|exact Hl2].
      eapply Forall_impl; [|exact Hl1]; unfold in_gap; cbn [fst snd]; intros t [? ?]; zlia.
Qed.

(** When the occupied entries are sorted by start and none ends before
    it starts, the walk returns its slots in chronological order, each
    ending before the next starts. *)
Lemma walk_spaced fuel d day_start day_end occ sd slots :
  0 <= sd -> Py.timedelta_minutes d = Some sd ->
  StronglySorted (fun a b => fst a <= fst b) occ ->
  Forall (fun b => fst b <= snd b) occ ->
  walk fuel d day_start day_end occ = Return slots ->
  exists lo starts, slots = map (slot_at sd) starts /\ spaced sd lo starts.
Proof.
  intros Hsd Htd Hso Hwf; destruct occ as [|first rest].
  - unfold walk; rewrite Htd; cbn [bind or_raise]; intros H.
    apply (emit_in_gap _ _ _ _ _ _ Hsd) in H as (l & -> & _ & Hl).
    exists day_start, l; auto.
  - rewrite (walk_unfold _ _ _ _ _ _ _ Htd); intros H.
    apply bind_Return in H as (acc1 & H1 & H).
    apply bind_Return in H as (acc2 & H2 & H3).
    apply (between_spaced _ _ _ _ _ _ Hsd Hso Hwf) in H2 as (l2 & -> & Hs2 & Hl2).
    apply (emit_in_gap _ _ _ _ _ _ Hsd) in H3 as (l3 & -> & _ & Hs3).
    assert (Hlw : fst (last (first :: rest) first)
                  <= snd (last (first :: rest) first)).
    { rewrite Forall_forall in Hwf; apply Hwf.
      rewrite last_cons_default; apply last_In. }
    pose proof (sorted_first_le_last _ _ Hso) as Hfl.
    assert (H23 : spaced sd (fst first) (l2 ++ l3)).
    { apply (spaced_app sd _ (fst (last (first :: rest) first))
               (snd (last (first :: rest) first))); auto; zlia. }
    revert H1; destruct (_ <? _) eqn:Hcmp.
    + apply Z.ltb_lt in Hcmp; intros H1.
      apply (emit_in_gap _ _ _ _ _ _ Hsd) in H1 as (l1 & -> & Hl1 & Hs1).
      exists day_start, (l1 ++ l2 ++ l3); simpl app.
      rewrite !map_app, app_assoc; split; [reflexivity|].
      apply (spaced_app sd _ (fst first) (fst first)); auto; try zlia.
      eapply Forall_impl; [|exact Hl1]; unfold in_gap; cbn [fst snd]; intros t [? ?]; zlia.
    + intros [= <-]; exists (fst first), (l2 ++ l3); simpl app.
      rewrite map_app; auto.
Qed.

(** *** What holds of the slots of well-formed days *)

Lemma get_available_slots_walk fuel date d st target busy slots :
  strptime_date date = Some target ->
  collect_day_events target (get_calendar_events st) [] = Return busy ->
  get_available_slots fuel date d st = Return slots ->
  Py.timedelta_minutes d = Some (d * Py.US_PER_MINUTE)
  /\ walk fuel d (Py.combine_hour target 9) (Py.combine_hour target 17)
          (sort_by_start busy) = Return slots.
Proof.
  intros Hd Hc; rewrite (get_available_slots_parsed _ _ _ _ _ Hd), Hc;
    cbn [bind]; intros H; split; [|exact H].
  unfold walk, Py.timedelta_minutes in *.
  destruct (Py.timedelta_in_range _); [reflexivity|discriminate].
Qed.

(** Every returned slot lies in one of the gaps of the sorted busy
    intervals, for any duration that is not negative. *)
Lemma slots_lie_in_gaps fuel date d st target busy slots :
  0 <= d ->
  strptime_date date = Some target ->
  collect_day_events target (get_calendar_events st) [] = Return busy ->
  get_available_slots fuel date d st = Return slots ->
  exists starts,
    slots = map (slot_at (d * Py.US_PER_MINUTE)) starts
    /\ Forall (fun t =>
                 Exists (in_gap (d * Py.US_PER_MINUTE) t)
                        (gaps (Py.combine_hour target 9) (Py.combine_hour target 17)
                              (sort_by_start busy))) starts.
Proof.
  intros Hd Hdate Hc H.
  destruct (get_available_slots_walk _ _ _ _ _ _ _ Hdate Hc H) as [Htd Hw].
  eapply walk_in_gaps; [|exact Htd|exact Hw].
  unfold Py.US_PER_MINUTE; lia.
Qed.

(** X14.  When no considered event ends before it starts, the slots come
    in chronological order and each ends before the next one starts. *)
Lemma slots_chronological fuel date d st target busy slots :
  0 <= d ->
  strptime_date date = Some target ->
  collect_day_events target (get_calendar_events st) [] = Return busy ->
  Forall (fun b => fst b <= snd b) busy ->
  get_available_slots fuel date d st = Return slots ->
  exists starts,
    slots = map (slot_at (d * Py.US_PER_MINUTE)) starts
    /\ forall i j ti tj,
        (i < j)%nat -> nth_error starts i = Some ti -> nth_error starts j = Some tj ->
        ti + d * Py.US_PER_MINUTE <= tj.
Proof.
  intros Hd Hdate Hc Hwf H.
  destruct (get_available_slots_walk _ _ _ _ _ _ _ Hdate Hc H) as [Htd Hw].
  assert (Hsd : 0 <= d * Py.US_PER_MINUTE) by (unfold Py.US_PER_MINUTE; lia).
  destruct (walk_spaced _ _ _ _ _ _ _ Hsd Htd (sort_by_start_sorted busy)
              (sort_by_start_Forall _ _ Hwf) Hw) as (lo & starts & -> & Hsp).
  exists starts; split; [reflexivity|].
  intros i j ti tj; eapply spaced_nth; eassumption.
Qed.

(** X15.  When the considered events are non-empty intervals that are
    pairwise apart, no returned slot meets any of them. *)
Lemma slots_clear_of_separate_events fuel date d st target busy slots :
  0 <= d ->
  strptime_date date = Some target ->
  collect_day_events target (get_calendar_events st) [] = Return busy ->
  Forall (fun b => fst b < snd b) busy ->
  ForallOrdPairs apart busy ->
  get_available_slots fuel date d st = Return slots ->
  exists starts,
    slots = map (slot_at (d * Py.US_PER_MINUTE)) starts
    /\ Forall (fun t => Forall (clear_of (d * Py.US_PER_MINUTE) t) busy) starts.
Proof.
  intros Hd Hdate Hc Hwf Hap H.
  destruct (slots_lie_in_gaps _ _ _ _ _ _ _ Hd Hdate Hc H) as (starts & -> & Hin).
  exists starts; split; [reflexivity|].
  eapply Forall_impl; [|exact Hin]; intros t Ht.
  apply Exists_exists in Ht as (g & Hg & Hlo & Hhi).
  apply Forall_forall; intros b Hb.
  assert (Hwf' : Forall (fun b : Py.datetime * Py.datetime => fst b <= snd b)
                        (sort_by_start busy)).
  { apply sort_by_start_Forall; eapply Forall_impl; [|exact Hwf].
    simpl; intros; zlia. }
  destruct (chain_gaps_clear _ _ _ g b (sort_by_start_chain _ Hwf Hap) Hwf' Hg)
    as [Hl|Hr]; [apply sort_by_start_In; exact Hb| |]; unfold clear_of; zlia.
Qed.

(** X16.  When every considered event starts and ends within business
    hours, so does every returned slot. *)
Lemma slots_within_hours_of_inner_events fuel date d st target busy slots :
  0 <= d ->
  strptime_date date = Some target ->
  collect_day_events target (get_calendar_events st) [] = Return busy ->
  Forall (fun b =>
            Py.combine_hour target 9 <= fst b <= Py.combine_hour target 17
            /\ Py.combine_hour target 9 <= snd b <= Py.combine_hour target 17) busy ->
  get_available_slots fuel date d st = Return slots ->
  exists starts,
    slots = map (slot_at (d * Py.US_PER_MINUTE)) starts
    /\ Forall (fun t => Py.combine_hour target 9 <= t
                        /\ t + d * Py.US_PER_MINUTE <= Py.combine_hour target 17)
              starts.
Proof.
  intros Hd Hdate Hc Hin H.
  destruct (slots_lie_in_gaps _ _ _ _ _ _ _ Hd Hdate Hc H) as (starts & -> & Hg).
  exists starts; split; [reflexivity|].
  eapply Forall_impl; [|exact Hg]; intros t Ht.
  apply Exists_exists in Ht as (g & Hgin & Hlo & Hhi).
  apply (sort_by_start_Forall _ _) in Hin; rewrite Forall_forall in Hin.
  destruct (sort_by_start busy) as [|first rest] eqn:Hocc.
  - destruct Hgin as [<-|[]]; split; assumption.
  - unfold gaps in Hgin; apply in_app_or in Hgin as [Hgin|Hgin];
      [|apply in_app_or in Hgin as [Hgin|Hgin]].
    + revert Hgin; destruct (_ <? _); simpl; [|contradiction].
      intros [<-|[]]; simpl in *.
      specialize (Hin first (or_introl eq_refl)); zlia.
    + destruct (gaps_between_ends _ _ Hgin) as (x & y & Hx & Hy & ->).
      specialize (Hin x Hx) as Hx'; specialize (Hin y Hy) as Hy'.
      simpl in *; zlia.
    + destruct Hgin as [<-|[]]; cbn [fst snd] in Hlo, Hhi.
      assert (Hl : In (last (first :: rest) first) (first :: rest)).
      { rewrite last_cons_default; apply last_In. }
      specialize (Hin _ Hl); zlia.
Qed.

(** *** Which events are considered *)

Lemma considered_spec target e :
  considered target e = true <->
  exists s t,
    parsed e = Some (s, t) /\ Py.date_of s = target /\ Py.date_of t = target
    /\ is_cancelled e = false.
Proof.
  unfold considered; destruct (parsed e) as [[s t]|]; split.
  - intros H; apply andb_prop in H as [H Hc]; apply andb_prop in H as [Hs Ht].
    exists s, t; apply Z.eqb_eq in Hs, Ht; apply negb_true_iff in Hc; auto.
  - intros (s' & t' & [= <- <-] & Hs & Ht & Hc).
    rewrite Hc; apply Z.eqb_eq in Hs, Ht; rewrite Hs, Ht; reflexivity.
  - discriminate.
  - intros (s' & t' & H & _); discriminate.
Qed.

Lemma collect_day_events_skip target pre e post acc :
  parsable e = true -> considered target e = false ->
  collect_day_events target (pre ++ e :: post) acc
  = collect_day_events target (pre ++ post) acc.
Proof.
  intros Hp Hc; revert acc; induction pre as [|x pre IH]; intros acc; simpl app.
  - rewrite collect_day_events_unfold, Hc; unfold parsable in Hp.
    destruct (parsed e); [reflexivity|discriminate].
  - rewrite !(collect_day_events_unfold target x).
    destruct (parsed x); [|reflexivity].
    destruct (considered target x); apply IH.
Qed.

Lemma collect_day_events_filter target events acc :
  Forall (fun e => parsable e = true) events ->
  collect_day_events target events acc
  = Return (acc ++ map interval_of (filter (considered target) events)).
Proof.
  intros H; revert acc; induction H as [|e events He _ IH]; intros acc.
  - simpl; rewrite app_nil_r; reflexivity.
  - rewrite collect_day_events_unfold; simpl filter.
    unfold parsable in He; unfold interval_of at 1.
    destruct (parsed e) as [i|] eqn:Hp; [|discriminate].
    destruct (considered target e).
    + rewrite IH, <- app_assoc; simpl; rewrite Hp; reflexivity.
    + apply IH.
Qed.

Lemma filter_considered_parsable target events :
  Forall (fun e => parsable e = true) (filter (considered target) events).
Proof.
  apply Forall_forall; intros e He; apply filter_In in He as [_ He].
  unfold considered in He; unfold parsable.
  destruct (parsed e); [reflexivity|discriminate].
Qed.

Lemma filter_idempotent {A : Type} (f : A -> bool) (l : list A) :
  filter f (filter f l) = filter f l.
Proof.
  induction l as [|x l IH]; [reflexivity|]; simpl.
  destruct (f x) eqn:Hx; simpl; [rewrite Hx, IH|]; auto.
Qed.

(** *** No overflow on ordinary days *)

(** The instants of day [target]. *)
Lemma date_of_bounds t target :
  Py.date_of t = target ->
  target * Py.US_PER_DAY <= t < (target + 1) * Py.US_PER_DAY.
Proof.
  unfold Py.date_of, Py.US_PER_DAY; intros <-.
  pose proof (Z.div_mod t 86400000000 ltac:(lia)).
  pose proof (Z.mod_pos_bound t 86400000000 ltac:(lia)). lia.
Qed.

(** An emission loop that starts and is bounded below [hi], with
    [hi + slot_duration] still a datetime, never overflows. *)
Lemma emit_no_raise fuel sd cur bound hi acc e :
  0 <= sd -> Py.US_PER_DAY <= cur -> cur < hi -> bound < hi ->
  hi + sd <= (Py.MAXORDINAL + 1) * Py.US_PER_DAY ->
  emit fuel sd cur bound acc <> Raise e.
Proof.
  intros Hsd Hlo Hcur Hb Hhi; revert cur acc Hlo Hcur;
    induction fuel as [|fuel IH]; intros cur acc Hlo Hcur; [discriminate|].
  rewrite emit_unfold; unfold Py.add.
  replace (Py.datetime_in_range (cur + sd)) with true.
  - destruct (Z.leb_spec (cur + sd) bound); [apply IH; lia|discriminate].
  - symmetry; unfold Py.datetime_in_range.
    apply andb_true_intro; split; [apply Z.leb_le|apply Z.ltb_lt]; lia.
Qed.

Lemma between_no_raise fuel sd occ hi acc e :
  0 <= sd ->
  Forall (fun b => fst b < hi /\ Py.US_PER_DAY <= snd b < hi) occ ->
  hi + sd <= (Py.MAXORDINAL + 1) * Py.US_PER_DAY ->
  between fuel sd occ acc <> Raise e.
Proof.
  intros Hsd Hocc Hhi; revert acc; induction Hocc as [|cur rest Hcur Hrest IH];
    intros acc; [discriminate|].
  destruct rest as [|next rest]; [discriminate|].
  rewrite between_unfold.
  destruct (emit _ _ _ _ _) as [acc'| e' |] eqn:He;
    cbn [bind]; [apply IH| |discriminate].
  intros [= ->]; revert He. inversion Hrest as [|? ? Hnext _]; subst.
  apply (emit_no_raise _ _ _ _ hi); zlia.
Qed.

Lemma walk_no_raise fuel d day_start day_end occ hi e :
  0 <= d ->
  Py.US_PER_DAY <= day_start < hi -> day_end < hi ->
  Forall (fun b => fst b < hi /\ Py.US_PER_DAY <= snd b < hi) occ ->
  hi + d * Py.US_PER_MINUTE <= (Py.MAXORDINAL + 1) * Py.US_PER_DAY ->
  walk fuel d day_start day_end occ <> Raise e.
Proof.
  intros Hd Hds Hde Hocc Hhi.
  assert (Hsd : 0 <= d * Py.US_PER_MINUTE) by (unfold Py.US_PER_MINUTE; lia).
  assert (Htd : Py.timedelta_minutes d = Some (d * Py.US_PER_MINUTE)).
  { unfold Py.timedelta_minutes.
    replace (Py.timedelta_in_range (d * Py.US_PER_MINUTE)) with true;
      [reflexivity|].
    symmetry; unfold Py.timedelta_in_range, Py.MAX_DELTA_DAYS,
      Py.MAXORDINAL, Py.US_PER_DAY in *.
    apply andb_true_intro; split; [apply Z.leb_le|apply Z.ltb_lt]; lia. }
  destruct occ as [|first rest].
  - unfold walk; rewrite Htd; cbn [bind or_raise].
    apply (emit_no_raise _ _ _ _ hi); lia.
  - rewrite (walk_unfold _ _ _ _ _ _ _ Htd).
    assert (Hlast : In (last (first :: rest) first) (first :: rest))
      by (rewrite last_cons_default; apply last_In).
    pose proof (proj1 (Forall_forall _ _) Hocc _ Hlast) as Hl.
    inversion Hocc as [|? ? Hfirst _]; subst.
    destruct (if _ <? _ then _ else _) as [acc1| e1 |] eqn:H1; cbn [bind].
    + destruct (between _ _ _ _) as [acc2| e2 |] eqn:H2; cbn [bind].
      * apply (emit_no_raise _ _ _ _ hi); zlia.
      * intros [= ->]; revert H2; apply (between_no_raise _ _ _ hi); assumption.
      * discriminate.
    + intros [= ->]; revert H1; destruct (_ <? _); [|discriminate].
      apply (emit_no_raise _ _ _ _ hi); zlia.
    + discriminate.
Qed.

(** With a positive duration that does not reach past the last day of
    the calendar, a date that parses and stored events that all parse,
    the slot finder returns a list. *)
Lemma get_available_slots_returns date d st target :
  0 < d ->
  strptime_date date = Some target -> 1 <= target ->
  d * Py.US_PER_MINUTE <= (Py.MAXORDINAL - target) * Py.US_PER_DAY ->
  Forall (fun e => parsable e = true) (get_calendar_events st) ->
  exists n slots,
    forall fuel, (n <= fuel)%nat ->
      get_available_slots fuel date d st = Return slots.
Proof.
  intros Hd Hdate Htarget Hmax Hall.
  assert (Hnr : forall fuel e, get_available_slots fuel date d st <> Raise e).
  { intros fuel e; rewrite (get_available_slots_parsed _ _ _ _ _ Hdate),
      (collect_day_events_filter _ _ [] Hall); cbn [bind app].
    apply (walk_no_raise _ _ _ _ _ ((target + 1) * Py.US_PER_DAY)).
    - lia.
    - unfold Py.combine_hour, Py.US_PER_DAY, Py.US_PER_HOUR; lia.
    - unfold Py.combine_hour, Py.US_PER_DAY, Py.US_PER_HOUR; lia.
    - apply sort_by_start_Forall, Forall_forall; intros b Hb.
      apply in_map_iff in Hb as (ev & <- & Hev).
      apply filter_In in Hev as [_ Hev].
      apply considered_spec in Hev as (s0 & t0 & Hp & Hs & Ht & _).
      unfold interval_of; rewrite Hp; cbn [fst snd].
      apply date_of_bounds in Hs, Ht; unfold Py.US_PER_DAY in *; lia.
    - unfold Py.US_PER_DAY in *; lia. }
  destruct (walk_settles_slots date d st Hd) as (n & r & Hr & Hn).
  destruct r as [slots| e |]; [|exfalso|congruence].
  - exists n, slots; exact Hn.
  - apply (Hnr n e), Hn, Nat.le_refl.
Qed.

(** C10.  With [duration_minutes > 0] the slot finder terminates on every
    date and every stored event list: from some fuel on it gives one
    outcome, a returned list or a raised exception, never a loop still
    running.  Each emission loop steps [current_time] by the positive
    slot duration towards its fixed bound and is over within
    [bound - current_time + 2] turns.  When moreover the date parses, the
    stored events all parse and the duration does not reach past the last
    day of the calendar, the outcome is a returned list. *)
Theorem get_available_slots_terminates date d st :
  0 < d ->
  settles (fun fuel => get_available_slots fuel date d st)
  /\ (forall sd cur bound acc fuel,
        Py.timedelta_minutes d = Some sd ->
        (Z.to_nat (bound - cur + 1) < fuel)%nat ->
        emit fuel sd cur bound acc <> OutOfFuel)
  /\ (forall target,
        strptime_date date = Some target -> 1 <= target ->
        d * Py.US_PER_MINUTE <= (Py.MAXORDINAL - target) * Py.US_PER_DAY ->
        Forall (fun e => parsable e = true) (get_calendar_events st) ->
        exists n slots,
          forall fuel, (n <= fuel)%nat ->
            get_available_slots fuel date d st = Return slots).
Proof.
  intros Hd; split; [apply walk_settles_slots, Hd|split].
  - intros sd cur bound acc fuel Hsd Hfuel.
    apply (timedelta_minutes_positive _ _ Hd) in Hsd.
    destruct (emit_enough_fuel sd bound (Z.to_nat (bound - cur + 1)) Hsd cur acc)
      as [Hne Hsame]; [lia|].
    rewrite Hsame by lia; exact Hne.
  - intros target; apply get_available_slots_returns, Hd.
Qed.

(** *** Alternative times *)

(** C8.  [suggest_alternative_times] returns the first [min(3, n)] of the
    [n] slots the slot finder returns for the same date and duration, in
    the same order, and nothing else; when the slot finder raises, so
    does it, with the same exception. *)
Theorem suggest_alternative_times_prefix fuel request st :
  match get_available_slots fuel (date request) (duration_minutes request) st with
  | Return slots =>
      exists alternatives,
        suggest_alternative_times fuel request st = Return alternatives
        /\ alternatives = firstn 3 slots
        /\ List.length alternatives = Nat.min 3 (List.length slots)
        /\ (forall i, (i < Nat.min 3 (List.length slots))%nat ->
              nth_error alternatives i = nth_error slots i)
        /\ (forall i, (Nat.min 3 (List.length slots) <= i)%nat ->
              nth_error alternatives i = None)
  | Raise e => suggest_alternative_times fuel request st = Raise e
  | OutOfFuel => suggest_alternative_times fuel request st = OutOfFuel
  end.
Proof.
  unfold suggest_alternative_times.
  destruct (get_available_slots fuel (date request) (duration_minutes request) st)
    as [slots| e |]; cbn [bind]; try reflexivity.
  assert (Hcut : firstn (Nat.min 3 (List.length slots)) slots = firstn 3 slots).
  { destruct (Nat.le_ge_cases 3 (List.length slots)) as [H|H].
    - rewrite Nat.min_l by exact H; reflexivity.
    - rewrite Nat.min_r, firstn_all, firstn_all2 by exact H; reflexivity. }
  exists (firstn 3 slots); rewrite Hcut; repeat split.
  - apply length_firstn.
  - intros i Hi; rewrite nth_error_firstn.
    destruct (Nat.ltb_spec i 3); [reflexivity|lia].
  - intros i Hi; apply nth_error_None; rewrite length_firstn; exact Hi.
Qed.

End Slots.

(** *** Slots that are not free *)

(** C1, on a day where a 10:00-11:00 meeting lies inside a 09:00-16:00
    event: the walk restarts at 11:00, the end of the last event by
    start time, and returns twelve half-hour slots from 11:00 to 17:00;
    the first ten lie inside the 09:00-16:00 event.  The slot
    11:00-11:30 starts before 16:00 and ends after 09:00. *)
Theorem slot_inside_enclosing_event :
  get_available_slots (T := IsoText.text) 100 "2025-04-15" 30 nested_day
  = Return
      [slot_between "2025-04-15T11:00:00" "2025-04-15T11:30:00";
       slot_between "2025-04-15T11:30:00" "2025-04-15T12:00:00";
       slot_between "2025-04-15T12:00:00" "2025-04-15T12:30:00";
       slot_between "2025-04-15T12:30:00" "2025-04-15T13:00:00";
       slot_between "2025-04-15T13:00:00" "2025-04-15T13:30:00";
       slot_between "2025-04-15T13:30:00" "2025-04-15T14:00:00";
       slot_between "2025-04-15T14:00:00" "2025-04-15T14:30:00";
       slot_between "2025-04-15T14:30:00" "2025-04-15T15:00:00";
       slot_between "2025-04-15T15:00:00" "2025-04-15T15:30:00";
       slot_between "2025-04-15T15:30:00" "2025-04-15T16:00:00";
       slot_between "2025-04-15T16:00:00" "2025-04-15T16:30:00";
       slot_between "2025-04-15T16:30:00" "2025-04-15T17:00:00"]
  /\ exists slot_start slot_end busy_start busy_end,
      IsoText.fromisoformat "2025-04-15T11:00:00" = Some slot_start
      /\ IsoText.fromisoformat "2025-04-15T11:30:00" = Some slot_end
      /\ IsoText.fromisoformat "2025-04-15T09:00:00" = Some busy_start
      /\ IsoText.fromisoformat "2025-04-15T16:00:00" = Some busy_end
      /\ slot_start < busy_end /\ slot_end > busy_start.
Proof.
  split; [vm_compute; reflexivity|].
  do 4 eexists; repeat split; try (vm_compute; reflexivity).
Qed.

(** C2, on a day whose only event ends before 09:00 or starts after
    17:00: with the event 08:00-08:30 the first returned slot is
    08:30-09:00, before the business day opens, and with the event
    18:00-19:00 the slots run on until 18:00, the last two after the
    business day has closed.  Each slot is still 30 minutes long. *)
Theorem slot_outside_business_hours :
  get_available_slots (T := IsoText.text) 100 "2025-04-15" 30 early_day
  = Return
      (slot_between "2025-04-15T08:30:00" "2025-04-15T09:00:00"
       :: map (slot_at (T := IsoText.text) (30 * Py.US_PER_MINUTE))
            (map (fun i => Py.combine_hour 739356 9 + i * (30 * Py.US_PER_MINUTE))
                 [0; 1; 2; 3; 4; 5; 6; 7; 8; 9; 10; 11; 12; 13; 14; 15]))
  /\ get_available_slots (T := IsoText.text) 100 "2025-04-15" 30 late_day
     = Return
         (map (slot_at (T := IsoText.text) (30 * Py.US_PER_MINUTE))
              (map (fun i => Py.combine_hour 739356 9 + i * (30 * Py.US_PER_MINUTE))
                   [0; 1; 2; 3; 4; 5; 6; 7; 8; 9; 10; 11; 12; 13; 14; 15])
          ++ [slot_between "2025-04-15T17:00:00" "2025-04-15T17:30:00";
              slot_between "2025-04-15T17:30:00" "2025-04-15T18:00:00"])
  /\ exists early_start late_end,
      IsoText.fromisoformat "2025-04-15T08:30:00" = Some early_start
      /\ IsoText.fromisoformat "2025-04-15T18:00:00" = Some late_end
      /\ early_start < Py.combine_hour 739356 9
      /\ late_end > Py.combine_hour 739356 17.
Proof.
  split; [vm_compute; reflexivity|].
  split; [vm_compute; reflexivity|].
  do 2 eexists; repeat split; try (vm_compute; reflexivity).
Qed.

(** *** Requests on 2025-04-15 *)

(** An empty day gives the sixteen half-hours from 09:00 to 17:00. *)
Example empty_day_slots :
  get_available_slots (T := IsoText.text) 100 "2025-04-15" 30 None
  = Return
      (map (slot_at (T := IsoText.text) (30 * Py.US_PER_MINUTE))
           (map (fun i => Py.combine_hour 739356 9 + i * (30 * Py.US_PER_MINUTE))
                [0; 1; 2; 3; 4; 5; 6; 7; 8; 9; 10; 11; 12; 13; 14; 15])).
Proof. vm_compute; reflexivity. Qed.

(** A 10:00-11:00 meeting leaves the two half-hours before it and the
    twelve after it. *)
Example one_meeting_day_slots :
  get_available_slots (T := IsoText.text) 100 "2025-04-15" 30 one_meeting_day
  = Return
      (slot_between "2025-04-15T09:00:00" "2025-04-15T09:30:00"
       :: slot_between "2025-04-15T09:30:00" "2025-04-15T10:00:00"
       :: map (slot_at (T := IsoText.text) (30 * Py.US_PER_MINUTE))
            (map (fun i => Py.combine_hour 739356 11 + i * (30 * Py.US_PER_MINUTE))
                 [0; 1; 2; 3; 4; 5; 6; 7; 8; 9; 10; 11])).
Proof. vm_compute; reflexivity. Qed.

(** A 45-minute request finds nothing in the 25 minutes between two
    meetings, 09:00-12:00 and 12:25-17:00. *)
Example short_gap_no_slot :
  get_available_slots (T := IsoText.text) 100 "2025-04-15" 45
    (Some [event_at "2025-04-15T09:00:00" "2025-04-15T12:00:00" "confirmed";
           event_at "2025-04-15T12:25:00" "2025-04-15T17:00:00" "confirmed"])
  = Return [].
Proof. vm_compute; reflexivity. Qed.

(** An event entered with its end before its start makes the walk return
    the hours 09:00-12:00 twice. *)
Example backwards_day_slots :
  get_available_slots (T := IsoText.text) 100 "2025-04-15" 60 backwards_day
  = Return
      [slot_between "2025-04-15T09:00:00" "2025-04-15T10:00:00";
       slot_between "2025-04-15T10:00:00" "2025-04-15T11:00:00";
       slot_between "2025-04-15T11:00:00" "2025-04-15T12:00:00";
       slot_between "2025-04-15T09:00:00" "2025-04-15T10:00:00";
       slot_between "2025-04-15T10:00:00" "2025-04-15T11:00:00";
       slot_between "2025-04-15T11:00:00" "2025-04-15T12:00:00";
       slot_between "2025-04-15T12:00:00" "2025-04-15T13:00:00";
       slot_between "2025-04-15T13:00:00" "2025-04-15T14:00:00";
       slot_between "2025-04-15T14:00:00" "2025-04-15T15:00:00";
       slot_between "2025-04-15T15:00:00" "2025-04-15T16:00:00";
       slot_between "2025-04-15T16:00:00" "2025-04-15T17:00:00"].
Proof. vm_compute; reflexivity. Qed.

(** Durations 0 and -30 are not rejected: with the 08:00-18:00 event the
    call returns the empty list, and with no event at all duration 0
    exhausts any fuel. *)
Lemma nonpositive_duration_counterexample :
  get_available_slots 1 "2025-04-15" 0 all_day_busy = Return []
  /\ get_available_slots 1 "2025-04-15" (-30) all_day_busy = Return []
  /\ ~ (exists e, get_available_slots 1 "2025-04-15" 0 all_day_busy = Raise e).
Proof.
  split; [vm_compute; reflexivity|].
  split; [vm_compute; reflexivity|].
  intros [e H]; vm_compute in H; discriminate.
Qed.

Lemma nonpositive_duration_unchecked_witness :
  -30 <= 0
  /\ strptime_date "2025-04-15" = Some 739356
  /\ (forall code detail,
        get_available_slots 1 "2025-04-15" (-30) all_day_busy
        <> Raise (HTTPException code detail)).
Proof.
  assert (Hd : strptime_date "2025-04-15" = Some 739356) by (vm_compute; reflexivity).
  assert (Hn : -30 <= 0) by lia.
  split; [exact Hn|]. split; [exact Hd|].
  exact (proj1 (nonpositive_duration_unchecked 1 "2025-04-15" (-30)
                  all_day_busy 739356 Hn Hd)).
Defined.

Lemma get_available_slots_terminates_witness :
  0 < 30
  /\ settles (fun fuel => get_available_slots fuel "2025-04-15" 30 all_day_busy)
  /\ strptime_date "2025-04-15" = Some 739356
  /\ 1 <= 739356
  /\ 30 * Py.US_PER_MINUTE <= (Py.MAXORDINAL - 739356) * Py.US_PER_DAY
  /\ Forall (fun e => parsable e = true) (get_calendar_events all_day_busy)
  /\ exists n slots,
      forall fuel, (n <= fuel)%nat ->
        get_available_slots fuel "2025-04-15" 30 all_day_busy = Return slots.
Proof.
  assert (Hd : 0 < 30) by lia.
  assert (Hdate : strptime_date "2025-04-15" = Some 739356)
    by (vm_compute; reflexivity).
  assert (Ht : 1 <= 739356) by lia.
  assert (Hmax : 30 * Py.US_PER_MINUTE <= (Py.MAXORDINAL - 739356) * Py.US_PER_DAY)
    by (vm_compute; discriminate).
  assert (Hall : Forall (fun e => parsable e = true)
                        (get_calendar_events all_day_busy))
    by (repeat constructor).
  pose proof (get_available_slots_terminates "2025-04-15" 30 all_day_busy Hd)
    as (H1 & _ & H3).
  repeat (split; [assumption|]).
  exact (H3 739356 Hdate Ht Hmax Hall).
Defined.

Lemma invalid_date_rejected_first_witness :
  strptime_date "15/04/2025" = None
  /\ get_available_slots 0 "15/04/2025" 30 all_day_busy = Raise InvalidDate
  /\ strptime_date "2025-04-15" = Some 739356
  /\ get_available_slots 100 "2025-04-15" 30 all_day_busy <> Raise InvalidDate.
Proof.
  assert (H1 : strptime_date "15/04/2025" = None) by (vm_compute; reflexivity).
  assert (H2 : strptime_date "2025-04-15" = Some 739356) by (vm_compute; reflexivity).
  split; [exact H1|]. split.
  - exact (proj1 (invalid_date_rejected_first "15/04/2025") H1 0%nat 30 all_day_busy).
  - split; [exact H2|].
    exact (proj2 (invalid_date_rejected_first "2025-04-15") 739356 H2
             100%nat 30 all_day_busy).
Defined.

End Slots.

(** ** Reading, deleting and updating stored events *)

Module Routes.
Section Routes.

Context {T : DatetimeText}.

Lemma other_id_true event_id e : other_id event_id e = true <-> id e <> event_id.
Proof.
  unfold other_id; rewrite negb_true_iff; split.
  - intros H; apply String.eqb_neq, H.
  - intros H; apply String.eqb_neq, H.
Qed.

Lemma other_id_false event_id e : other_id event_id e = false <-> id e = event_id.
Proof. unfold other_id; rewrite negb_false_iff; apply String.eqb_eq. Qed.

Lemma get_event_scan_Return event_id events e :
  get_event_scan event_id events = Return e <->
  exists pre post,
    events = pre ++ e :: post /\ id e = event_id
    /\ Forall (fun x => id x <> event_id) pre.
Proof.
  induction events as [|x rest IH]; simpl.
  - split; [discriminate|]. intros (pre & post & H & _); destruct pre; discriminate.
  - destruct (String.eqb_spec (id x) event_id) as [Heq|Hne]; split.
    + intros [= <-]; exists [], rest; auto.
    + intros (pre & post & H & Hid & Hpre).
      destruct pre as [|p pre]; simpl in H; injection H as <- ->; [reflexivity|].
      inversion Hpre; subst; contradiction.
    + intros H; apply IH in H as (pre & post & -> & Hid & Hpre).
      exists (x :: pre), post; auto.
    + intros (pre & post & H & Hid & Hpre).
      destruct pre as [|p pre]; simpl in H; injection H as <- ->; [contradiction|].
      apply IH; exists pre, post; inversion Hpre; auto.
Qed.

Lemma get_event_scan_Raise event_id events err :
  get_event_scan event_id events = Raise err <->
  err = NotFound /\ Forall (fun x => id x <> event_id) events.
Proof.
  induction events as [|x rest IH]; simpl.
  - split; [intros [= <-]; auto|intros [-> _]; reflexivity].
  - destruct (String.eqb_spec (id x) event_id) as [Heq|Hne]; split.
    + discriminate.
    + intros [_ H]; inversion H; subst; contradiction.
    + intros H; apply IH in H as [-> H]; auto.
    + intros [-> H]; apply IH; inversion H; auto.
Qed.

Lemma get_event_scan_fuel_free event_id events :
  get_event_scan event_id events <> OutOfFuel.
Proof.
  induction events as [|x rest IH]; simpl; [discriminate|].
  destruct (String.eqb (id x) event_id); [discriminate|exact IH].
Qed.

(** X1.  [get_event] returns the first stored event whose id is the one
    asked for, and raises the 404 error exactly when no stored event has
    that id; it raises nothing else. *)
Theorem get_event_first_match event_id st :
  (forall e,
      get_event event_id st = Return e <->
      exists pre post,
        get_calendar_events st = pre ++ e :: post /\ id e = event_id
        /\ Forall (fun x => id x <> event_id) pre)
  /\ (forall err,
        get_event event_id st = Raise err <->
        err = NotFound
        /\ Forall (fun x => id x <> event_id) (get_calendar_events st)).
Proof.
  split; intros x; [apply get_event_scan_Return|apply get_event_scan_Raise].
Qed.

Lemma get_event_scan_app_found event_id l1 l2 e :
  get_event_scan event_id l1 = Return e ->
  get_event_scan event_id (l1 ++ l2) = Return e.
Proof.
  induction l1 as [|x l1 IH]; simpl; [discriminate|].
  destruct (String.eqb (id x) event_id); auto.
Qed.

Lemma get_event_scan_app_missing event_id l1 l2 :
  Forall (fun x => id x <> event_id) l1 ->
  get_event_scan event_id (l1 ++ l2) = get_event_scan event_id l2.
Proof.
  induction 1 as [|x l1 Hx _ IH]; simpl; [reflexivity|].
  destruct (String.eqb_spec (id x) event_id); [contradiction|exact IH].
Qed.

(** X2.  After [create_event] has stored an event, every lookup that
    found an event before finds the same one, the new event included in
    the ids it answers for: the new event is returned for its id only when
    no stored event had that id already, since ids are not checked for
    uniqueness and the first match wins. *)
Theorem create_event_then_get_event event st st' :
  create_event event st = (Return event, st') ->
  (forall event_id e,
      get_event event_id st = Return e -> get_event event_id st' = Return e)
  /\ (get_event (id event) st = Raise NotFound ->
      get_event (id event) st' = Return event)
  /\ (forall event_id,
        event_id <> id event -> get_event event_id st' = get_event event_id st).
Proof.
  unfold create_event, get_event.
  destruct (is_conflicting event (get_calendar_events st)) as [[|]| e |];
    intros [= <-]; simpl get_calendar_events.
  split; [|split].
  - intros event_id e; apply get_event_scan_app_found.
  - intros H; apply get_event_scan_Raise in H as [_ H].
    rewrite (get_event_scan_app_missing _ _ _ H); simpl.
    rewrite String.eqb_refl; reflexivity.
  - intros event_id Hne.
    destruct (get_event_scan event_id (get_calendar_events st))
      as [e| err |] eqn:Hg.
    + apply get_event_scan_app_found, Hg.
    + apply get_event_scan_Raise in Hg as [-> H].
      rewrite (get_event_scan_app_missing _ _ _ H); simpl.
      destruct (String.eqb_spec (id event) event_id); [congruence|reflexivity].
    + apply get_event_scan_fuel_free in Hg; contradiction.
Qed.

(** *** [delete_event] *)

Lemma filter_length_all {A : Type} (f : A -> bool) (l : list A) :
  List.length (filter f l) = List.length l <-> Forall (fun x => f x = true) l.
Proof.
  induction l as [|x l IH]; simpl; [split; auto|].
  pose proof (filter_length_le f l) as Hle.
  destruct (f x) eqn:Hx; simpl; split.
  - intros [= H]; constructor; [exact Hx|apply IH, H].
  - intros H; inversion H; subst; f_equal; apply IH; assumption.
  - intros H; lia.
  - intros H; inversion H; subst; congruence.
Qed.

Lemma filter_all {A : Type} (f : A -> bool) (l : list A) :
  Forall (fun x => f x = true) l -> filter f l = l.
Proof.
  induction 1 as [|x l Hx _ IH]; simpl; [reflexivity|].
  rewrite Hx, IH; reflexivity.
Qed.

Lemma get_event_scan_filter_other event_id other events :
  other <> event_id ->
  get_event_scan other (filter (other_id event_id) events)
  = get_event_scan other events.
Proof.
  intros Hne; induction events as [|x rest IH]; simpl; [reflexivity|].
  destruct (other_id event_id x) eqn:Hx; simpl.
  - destruct (String.eqb (id x) other); [reflexivity|exact IH].
  - apply other_id_false in Hx.
    destruct (String.eqb_spec (id x) other); [congruence|exact IH].
Qed.

(** X3.  [delete_event] raises the 404 error and leaves the storage as it
    was exactly when no stored event has the id.  Otherwise it answers
    with its success message and stores the former events without those,
    all of them, that have the id, the others unchanged and in order;
    afterwards [get_event] raises 404 for the id and answers as before for
    every other id. *)
Theorem delete_event_removes_all event_id st :
  (Forall (fun x => id x <> event_id) (get_calendar_events st) ->
   delete_event event_id st = (Raise NotFound, st))
  /\ (Exists (fun x => id x = event_id) (get_calendar_events st) ->
      let st' := Some (filter (other_id event_id) (get_calendar_events st)) in
      delete_event event_id st
      = (Return (mkDeleteResponse true "Event deleted"), st')
      /\ Forall (fun x => id x <> event_id) (get_calendar_events st')
      /\ get_event event_id st' = Raise NotFound
      /\ (forall other, other <> event_id ->
            get_event other st' = get_event other st)).
Proof.
  unfold delete_event; split.
  - intros H.
    replace (List.length (filter (other_id event_id) (get_calendar_events st))
             =? List.length (get_calendar_events st))%nat with true; [reflexivity|].
    symmetry; apply Nat.eqb_eq, filter_length_all.
    eapply Forall_impl; [|exact H]; intros x; apply other_id_true.
  - intros H; cbv zeta.
    replace (List.length (filter (other_id event_id) (get_calendar_events st))
             =? List.length (get_calendar_events st))%nat with false.
    + assert (Hgone : Forall (fun x => id x <> event_id)
                             (filter (other_id event_id) (get_calendar_events st))).
      { apply Forall_forall; intros x Hx; apply filter_In in Hx as [_ Hx].
        apply other_id_true, Hx. }
      repeat split.
      * exact Hgone.
      * apply get_event_scan_Raise; auto.
      * intros other Hne; apply get_event_scan_filter_other, Hne.
    + symmetry; apply Nat.eqb_neq; intros Hlen.
      apply filter_length_all in Hlen; rewrite Forall_forall in Hlen.
      apply Exists_exists in H as (x & Hin & Hid).
      apply Hlen, other_id_true in Hin; contradiction.
Qed.

(** *** [update_event] *)

Lemma list_set_app {A : Type} (seen : list A) (e v : A) (post : list A) :
  list_set (seen ++ e :: post) (List.length seen) v = seen ++ v :: post.
Proof. induction seen as [|x seen IH]; simpl; [reflexivity|]. rewrite IH; reflexivity. Qed.

Lemma update_scan_missing event_id updated events i remaining :
  Forall (fun x => id x <> event_id) remaining ->
  update_scan event_id updated events i remaining = Return None.
Proof.
  intros H; revert i; induction H as [|x rest Hx _ IH]; intros i; simpl;
    [reflexivity|].
  destruct (String.eqb_spec (id x) event_id); [contradiction|apply IH].
Qed.

Lemma update_scan_found event_id updated seen pre e post :
  Forall (fun x => id x <> event_id) pre -> id e = event_id ->
  update_scan event_id updated (seen ++ pre ++ e :: post) (List.length seen)
              (pre ++ e :: post)
  = bind (is_conflicting updated
            (filter (other_id event_id) (seen ++ pre ++ e :: post)))
         (fun conflict : bool =>
            if conflict then Raise UpdateConflictError
            else Return (Some (seen ++ pre ++ updated :: post))).
Proof.
  intros Hpre He; revert seen; induction Hpre as [|p pre Hp _ IH]; intros seen.
  - simpl app; simpl update_scan.
    rewrite (proj2 (String.eqb_eq _ _) He), list_set_app; reflexivity.
  - simpl app; simpl update_scan.
    destruct (String.eqb_spec (id p) event_id); [contradiction|].
    specialize (IH (seen ++ [p])).
    rewrite <- !app_assoc, length_app, Nat.add_comm in IH; simpl in IH.
    exact IH.
Qed.

Lemma update_event_found event_id updated st pre e post :
  get_calendar_events st = pre ++ e :: post ->
  Forall (fun x => id x <> event_id) pre -> id e = event_id ->
  update_event event_id updated st =
  match is_conflicting updated
          (filter (other_id event_id) (get_calendar_events st)) with
  | Return true => (Raise UpdateConflictError, st)
  | Return false => (Return updated, Some (pre ++ updated :: post))
  | Raise err => (Raise err, st)
  | OutOfFuel => (OutOfFuel, st)
  end.
Proof.
  intros Hst Hpre He; unfold update_event.
  pose proof (update_scan_found event_id updated [] pre e post Hpre He) as Hscan.
  simpl in Hscan; rewrite Hst, Hscan.
  destruct (is_conflicting _ _) as [[|]| err |]; reflexivity.
Qed.

Lemma is_conflicting_fuel_free event others :
  is_conflicting event others <> OutOfFuel.
Proof.
  destruct (parsed event) as [[es ee]|] eqn:Hev.
  - rewrite (Conflict.is_conflicting_parsed _ _ _ _ Hev).
    apply Conflict.conflict_scan_fuel_free.
  - rewrite Conflict.is_conflicting_unparsable; [discriminate|].
    unfold parsable; rewrite Hev; reflexivity.
Qed.

(** X4.  [update_event] raises the 404 error, whatever the new event,
    when no stored event has the id.  Otherwise it checks the new event
    against the stored events of every other id: on a conflict it raises
    its 400 error, on a malformed timestamp the parser's error, and in
    both cases the storage is as it was; without conflict it puts the new
    event, under the id it carries, in the place of the first stored event
    with the id asked for and keeps all other entries in place. *)
Theorem update_event_first_match event_id updated st :
  (Forall (fun x => id x <> event_id) (get_calendar_events st) ->
   update_event event_id updated st = (Raise NotFound, st))
  /\ (forall pre e post,
        get_calendar_events st = pre ++ e :: post ->
        Forall (fun x => id x <> event_id) pre -> id e = event_id ->
        let others := filter (other_id event_id) (get_calendar_events st) in
        (is_conflicting updated others = Return true ->
         update_event event_id updated st = (Raise UpdateConflictError, st))
        /\ (is_conflicting updated others = Return false ->
            update_event event_id updated st
            = (Return updated, Some (pre ++ updated :: post)))
        /\ (forall err,
              is_conflicting updated others = Raise err ->
              update_event event_id updated st = (Raise err, st))).
Proof.
  split.
  - intros H; unfold update_event.
    rewrite (update_scan_missing _ _ _ _ _ H); reflexivity.
  - intros pre e post Hst Hpre He; cbv zeta.
    rewrite (update_event_found _ _ _ _ _ _ Hst Hpre He).
    repeat split; [intros -> | intros -> | intros err ->]; reflexivity.
Qed.

(** *** What the routes keep true of the storage *)

Lemma clash_sym a b : clash a b = clash b a.
Proof.
  unfold clash.
  destruct (is_cancelled a), (is_cancelled b); simpl; try reflexivity.
  destruct (parsed a) as [[s1 e1]|], (parsed b) as [[s2 e2]|]; try reflexivity.
  rewrite !Z.gtb_ltb; apply andb_comm.
Qed.

Lemma clash_overlaps a b es ee :
  parsed a = Some (es, ee) ->
  clash a b = negb (is_cancelled a) && overlaps es ee b.
Proof.
  intros Ha; unfold clash, overlaps; rewrite Ha.
  destruct (is_cancelled a), (is_cancelled b), (parsed b) as [[s2 e2]|];
    reflexivity.
Qed.

(** An event that passed the conflict check clashes with none of the
    events it was checked against. *)
Lemma checked_no_clash event others :
  is_conflicting event others = Return false ->
  parsable event = true
  /\ Forall (fun o => clash o event = false /\ clash event o = false) others.
Proof.
  intros H.
  destruct (parsed event) as [[es ee]|] eqn:Hev.
  - split; [unfold parsable; rewrite Hev; reflexivity|].
    rewrite (Conflict.is_conflicting_parsed _ _ _ _ Hev) in H.
    apply Forall_forall; intros o Ho.
    pose proof (Conflict.conflict_scan_false _ _ _ _ H Ho) as Hov.
    assert (Hc : clash event o = false).
    { rewrite (clash_overlaps _ _ _ _ Hev), Hov; apply andb_false_r. }
    rewrite (clash_sym o event); auto.
  - rewrite Conflict.is_conflicting_unparsable in H; [discriminate|].
    unfold parsable; rewrite Hev; reflexivity.
Qed.

Lemma ForallOrdPairs_app {A : Type} (R : A -> A -> Prop) (l1 l2 : list A) :
  ForallOrdPairs R (l1 ++ l2) <->
  ForallOrdPairs R l1 /\ ForallOrdPairs R l2
  /\ Forall (fun a => Forall (R a) l2) l1.
Proof.
  induction l1 as [|x l1 IH]; simpl.
  - split; [intros H; repeat split; auto; constructor|intros (_ & H & _); exact H].
  - split.
    + intros H; inversion H as [|? ? Hx Hl]; subst.
      apply IH in Hl as (H1 & H2 & H3); apply Forall_app in Hx as [Hx1 Hx2].
      repeat split; auto; constructor; auto.
    + intros (H1 & H2 & H3); inversion H1; inversion H3; subst.
      constructor; [apply Forall_app; auto|apply IH; auto].
Qed.

Lemma ForallOrdPairs_filter {A : Type} (R : A -> A -> Prop) (f : A -> bool)
      (l : list A) :
  ForallOrdPairs R l -> ForallOrdPairs R (filter f l).
Proof.
  induction 1 as [|x l Hx _ IH]; simpl; [constructor|].
  destruct (f x); [|exact IH].
  constructor; [|exact IH].
  apply Forall_forall; intros y Hy; apply filter_In in Hy as [Hy _].
  rewrite Forall_forall in Hx; auto.
Qed.

(** X5.  [create_event] keeps the storage free of conflicts and of
    malformed events: if no two stored events clash, then after a call
    that stored the new event no two stored events clash either, and if
    all stored events had parsable timestamps they still all have. *)
Theorem create_event_keeps_conflict_free event st r st' :
  conflict_free (get_calendar_events st) ->
  create_event event st = (Return r, st') ->
  conflict_free (get_calendar_events st')
  /\ (Forall (fun e => parsable e = true) (get_calendar_events st) ->
      Forall (fun e => parsable e = true) (get_calendar_events st')).
Proof.
  unfold create_event; intros Hfree.
  destruct (is_conflicting event (get_calendar_events st)) as [[|]| e |] eqn:Hc;
    intros [= <- <-]; simpl get_calendar_events.
  apply checked_no_clash in Hc as [Hp Hno]; split.
  - apply ForallOrdPairs_app; repeat split; [exact Hfree|repeat constructor|].
    eapply Forall_impl; [|exact Hno]; intros o [Ho _]; repeat constructor; exact Ho.
  - intros Hall; apply Forall_app; split; [exact Hall|repeat constructor; exact Hp].
Qed.

Lemma NoDup_ids_filter_other event_id pre e post :
  NoDup (map id (pre ++ e :: post)) -> id e = event_id ->
  filter (other_id event_id) (pre ++ e :: post) = pre ++ post.
Proof.
  intros Hnd He; rewrite filter_app; simpl.
  rewrite (proj2 (other_id_false event_id e) He).
  rewrite map_app in Hnd; simpl in Hnd.
  apply NoDup_remove in Hnd as [_ Hnotin]; rewrite <- map_app in Hnotin.
  assert (Hall : Forall (fun x => other_id event_id x = true) (pre ++ post)).
  { apply Forall_forall; intros x Hx; apply other_id_true; intros Hid.
    apply Hnotin, in_map_iff; exists x; split; [congruence|exact Hx]. }
  apply Forall_app in Hall as [H1 H2].
  rewrite (filter_all _ _ H1), (filter_all _ _ H2); reflexivity.
Qed.

(** X6.  When the stored ids are pairwise distinct, [update_event] keeps
    the storage free of conflicts and of malformed events and keeps its
    length: after a call that stored the new event no two stored events
    clash if none did before, and all stored events parse if all did. *)
Theorem update_event_keeps_conflict_free event_id updated st r st' :
  NoDup (map id (get_calendar_events st)) ->
  conflict_free (get_calendar_events st) ->
  update_event event_id updated st = (Return r, st') ->
  conflict_free (get_calendar_events st')
  /\ (Forall (fun e => parsable e = true) (get_calendar_events st) ->
      Forall (fun e => parsable e = true) (get_calendar_events st'))
  /\ List.length (get_calendar_events st') = List.length (get_calendar_events st).
Proof.
  intros Hnd Hfree Hup.
  destruct (get_event_scan event_id (get_calendar_events st)) as [e| err |] eqn:Hg.
  - apply get_event_scan_Return in Hg as (pre & post & Hst & He & Hpre).
    rewrite (update_event_found _ _ _ _ _ _ Hst Hpre He) in Hup.
    rewrite Hst in Hnd, Hup.
    rewrite (NoDup_ids_filter_other _ _ _ _ Hnd He) in Hup.
    destruct (is_conflicting updated (pre ++ post)) as [[|]| err |] eqn:Hc.
    + discriminate.
    + injection Hup as <- <-; simpl get_calendar_events.
      apply checked_no_clash in Hc as [Hp Hno].
      apply Forall_app in Hno as [Hno1 Hno2].
      rewrite Hst in Hfree |- *.
      apply ForallOrdPairs_app in Hfree as (F1 & F2 & F3).
      inversion F2 as [|? ? _ F2']; subst.
      repeat split.
      * apply ForallOrdPairs_app; repeat split; [exact F1| |].
        -- constructor; [|exact F2'].
           eapply Forall_impl; [|exact Hno2]; intros o [_ Ho]; exact Ho.
        -- rewrite Forall_forall in F3, Hno1 |- *; intros a Ha.
           specialize (F3 a Ha); inversion F3; subst.
           constructor; [apply (Hno1 a Ha)|assumption].
      * intros Hall; apply Forall_app in Hall as [H1 H2].
        inversion H2; subst. apply Forall_app; split; [exact H1|].
        constructor; assumption.
      * rewrite !length_app; reflexivity.
    + discriminate.
    + discriminate.
  - apply get_event_scan_Raise in Hg as [_ Hg].
    unfold update_event in Hup.
    rewrite (update_scan_missing _ _ _ _ _ Hg) in Hup; discriminate.
  - apply get_event_scan_fuel_free in Hg; contradiction.
Qed.

(** X7.  [delete_event], whether it finds the id or not, keeps what was
    true of the storage: no two stored events clash if none did, all
    stored events parse if all did, and the stored ids stay pairwise
    distinct if they were. *)
Theorem delete_event_keeps_conflict_free event_id st :
  let stored := get_calendar_events st in
  let stored' := get_calendar_events (snd (delete_event event_id st)) in
  (conflict_free stored -> conflict_free stored')
  /\ (Forall (fun e => parsable e = true) stored ->
      Forall (fun e => parsable e = true) stored')
  /\ (NoDup (map id stored) -> NoDup (map id stored')).
Proof.
  cbv zeta; unfold delete_event.
  destruct (Nat.eqb _ _); simpl snd; [auto|]; simpl get_calendar_events.
  split; [apply ForallOrdPairs_filter|split].
  - intros H; apply Forall_forall; intros e He; apply filter_In in He as [He _].
    rewrite Forall_forall in H; auto.
  - generalize (get_calendar_events st) as l; induction l as [|x l IH]; simpl;
      [auto|].
    intros Hnd; inversion Hnd as [|? ? Hx Hl]; subst.
    destruct (other_id event_id x); [|auto].
    simpl; constructor; [|auto].
    intros Hin; apply Hx, in_map_iff. apply in_map_iff in Hin as (y & Hy & Hin).
    apply filter_In in Hin as [Hin _]; exists y; auto.
Qed.

(** *** The conflict check as a relation *)

(** X9.  On two events that are not cancelled and whose timestamps parse,
    the conflict check does not depend on which one is the candidate, and
    it answers [True] exactly when each starts before the other ends. *)
Theorem is_conflicting_symmetric a b a_start a_end b_start b_end :
  is_cancelled a = false -> is_cancelled b = false ->
  parsed a = Some (a_start, a_end) -> parsed b = Some (b_start, b_end) ->
  is_conflicting a [b] = is_conflicting b [a]
  /\ (is_conflicting a [b] = Return true <-> a_start < b_end /\ b_start < a_end)
  /\ (is_conflicting a [b] = Return false <-> b_end <= a_start \/ a_end <= b_start).
Proof.
  intros Hca Hcb Hpa Hpb.
  rewrite (Conflict.is_conflicting_parsed _ _ _ _ Hpa),
    (Conflict.is_conflicting_parsed _ _ _ _ Hpb),
    (Conflict.conflict_scan_live _ _ _ _ _ _ Hcb Hpb),
    (Conflict.conflict_scan_live _ _ _ _ _ _ Hca Hpa).
  simpl conflict_scan; rewrite !Z.gtb_ltb.
  destruct (Z.ltb_spec a_start b_end), (Z.ltb_spec b_start a_end),
    (Z.ltb_spec b_start a_end), (Z.ltb_spec a_start b_end); simpl;
    try lia; repeat split; try reflexivity; try discriminate; intros; lia.
Qed.

Lemma existsb_Permutation {A : Type} (f : A -> bool) (l l' : list A) :
  Permutation l l' -> existsb f l = existsb f l'.
Proof.
  intros H; destruct (existsb f l) eqn:E; symmetry.
  - apply existsb_exists in E as (x & Hx & Hf).
    apply existsb_exists; exists x; split; [eapply Permutation_in; eassumption|auto].
  - destruct (existsb f l') eqn:E'; [|reflexivity].
    apply existsb_exists in E' as (x & Hx & Hf).
    rewrite <- E; symmetry; apply existsb_exists; exists x; split; [|exact Hf].
    eapply Permutation_in; [apply Permutation_sym|]; eassumption.
Qed.

(** X10.  When every event of [others] that is not cancelled has
    parsable timestamps, the answer of the conflict check does not depend
    on the order of [others]. *)
Theorem is_conflicting_order_free event others others' :
  Permutation others others' -> live_parsable others ->
  is_conflicting event others = is_conflicting event others'.
Proof.
  intros Hperm Hall.
  assert (Hall' : live_parsable others').
  { unfold live_parsable in *; eapply Permutation_Forall; eassumption. }
  destruct (parsed event) as [[es ee]|] eqn:Hev.
  - rewrite !(Conflict.is_conflicting_parsed _ _ _ _ Hev),
      (Conflict.conflict_scan_total _ _ _ Hall),
      (Conflict.conflict_scan_total _ _ _ Hall').
    f_equal; apply existsb_Permutation, Hperm.
  - rewrite !Conflict.is_conflicting_unparsable; auto;
      unfold parsable; rewrite Hev; reflexivity.
Qed.

End Routes.

(** *** The routes on two meetings in a row *)

Lemma create_event_then_get_event_witness :
  create_event late_morning (Some [morning]) = (Return late_morning, two_meetings)
  /\ get_event (id late_morning) (Some [morning]) = Raise NotFound
  /\ get_event (id late_morning) two_meetings = Return late_morning.
Proof.
  assert (H : create_event late_morning (Some [morning])
              = (Return late_morning, two_meetings)) by (vm_compute; reflexivity).
  assert (Hn : get_event (id late_morning) (Some [morning]) = Raise NotFound)
    by (vm_compute; reflexivity).
  split; [exact H|]. split; [exact Hn|].
  exact (proj1 (proj2 (create_event_then_get_event _ _ _ H)) Hn).
Defined.

Lemma delete_event_removes_all_witness :
  Exists (fun x => id x = "a") (get_calendar_events two_meetings)
  /\ delete_event "a" two_meetings
     = (Return (mkDeleteResponse true "Event deleted"),
        Some (filter (other_id "a") (get_calendar_events two_meetings)))
  /\ Forall (fun x => id x <> "zz") (get_calendar_events two_meetings)
  /\ delete_event "zz" two_meetings = (Raise NotFound, two_meetings).
Proof.
  assert (He : Exists (fun x => id x = "a") (get_calendar_events two_meetings))
    by (apply Exists_cons_hd; reflexivity).
  assert (Hf : Forall (fun x => id x <> "zz") (get_calendar_events two_meetings))
    by (repeat constructor; discriminate).
  split; [exact He|]. split.
  - exact (proj1 (proj2 (delete_event_removes_all "a" two_meetings) He)).
  - split; [exact Hf|].
    exact (proj1 (delete_event_removes_all "zz" two_meetings) Hf).
Defined.

Lemma update_event_first_match_witness :
  get_calendar_events two_meetings = [] ++ morning :: [late_morning]
  /\ Forall (fun x => id x <> "a") []
  /\ id morning = "a"
  /\ is_conflicting (named "a" cancelled_ten_to_eleven)
       (filter (other_id "a") (get_calendar_events two_meetings)) = Return false
  /\ update_event "a" (named "a" cancelled_ten_to_eleven) two_meetings
     = (Return (named "a" cancelled_ten_to_eleven),
        Some ([] ++ named "a" cancelled_ten_to_eleven :: [late_morning]))
  /\ Forall (fun x => id x <> "zz") (get_calendar_events two_meetings)
  /\ update_event "zz" garbled two_meetings = (Raise NotFound, two_meetings).
Proof.
  assert (Hst : get_calendar_events two_meetings = [] ++ morning :: [late_morning])
    by reflexivity.
  assert (Hpre : Forall (fun x : CalendarEvent => id x <> "a") []) by constructor.
  assert (Hid : id morning = "a") by reflexivity.
  assert (Hc : is_conflicting (named "a" cancelled_ten_to_eleven)
                 (filter (other_id "a") (get_calendar_events two_meetings))
               = Return false) by (vm_compute; reflexivity).
  assert (Hf : Forall (fun x => id x <> "zz") (get_calendar_events two_meetings))
    by (repeat constructor; discriminate).
  repeat (split; [assumption|]); split; [|split; [exact Hf|]].
  - exact (proj1 (proj2 (proj2 (update_event_first_match
                                  "a" (named "a" cancelled_ten_to_eleven)
                                  two_meetings)
                                [] morning [late_morning] Hst Hpre Hid)) Hc).
  - exact (proj1 (update_event_first_match "zz" garbled two_meetings) Hf).
Defined.

Lemma create_event_keeps_conflict_free_witness :
  conflict_free (get_calendar_events (Some [morning]))
  /\ create_event late_morning (Some [morning]) = (Return late_morning, two_meetings)
  /\ conflict_free (get_calendar_events two_meetings).
Proof.
  assert (Hfree : conflict_free (get_calendar_events (Some [morning])))
    by (repeat constructor).
  assert (H : create_event late_morning (Some [morning])
              = (Return late_morning, two_meetings)) by (vm_compute; reflexivity).
  split; [exact Hfree|]. split; [exact H|].
  exact (proj1 (create_event_keeps_conflict_free _ _ _ _ Hfree H)).
Defined.

Lemma update_event_keeps_conflict_free_witness :
  NoDup (map id (get_calendar_events first_cancelled))
  /\ conflict_free (get_calendar_events first_cancelled)
  /\ update_event "b" (named "b" half_past_ten) first_cancelled
     = (Return (named "b" half_past_ten),
        Some [named "a" cancelled_ten_to_eleven; named "b" half_past_ten])
  /\ conflict_free [named "a" cancelled_ten_to_eleven; named "b" half_past_ten].
Proof.
  assert (Hnd : NoDup (map id (get_calendar_events first_cancelled))).
  { repeat constructor; simpl; intuition discriminate. }
  assert (Hfree : conflict_free (get_calendar_events first_cancelled)).
  { repeat constructor. }
  assert (H : update_event "b" (named "b" half_past_ten) first_cancelled
              = (Return (named "b" half_past_ten),
                 Some [named "a" cancelled_ten_to_eleven; named "b" half_past_ten]))
    by (vm_compute; reflexivity).
  split; [exact Hnd|]. split; [exact Hfree|]. split; [exact H|].
  exact (proj1 (update_event_keeps_conflict_free _ _ _ _ _ Hnd Hfree H)).
Defined.

Lemma is_conflicting_symmetric_witness :
  is_cancelled ten_to_eleven = false /\ is_cancelled half_past_ten = false
  /\ parsed ten_to_eleven = Some (at_ten, at_eleven)
  /\ parsed half_past_ten = Some (63880396200000000, 63880399800000000)
  /\ is_conflicting ten_to_eleven [half_past_ten]
     = is_conflicting half_past_ten [ten_to_eleven].
Proof.
  assert (H1 : is_cancelled ten_to_eleven = false) by reflexivity.
  assert (H2 : is_cancelled half_past_ten = false) by reflexivity.
  assert (H3 : parsed ten_to_eleven = Some (at_ten, at_eleven))
    by (vm_compute; reflexivity).
  assert (H4 : parsed half_past_ten = Some (63880396200000000, 63880399800000000))
    by (vm_compute; reflexivity).
  repeat (split; [assumption|]).
  exact (proj1 (is_conflicting_symmetric _ _ _ _ _ _ H1 H2 H3 H4)).
Defined.

Lemma is_conflicting_order_free_witness :
  Permutation [morning; late_morning] [late_morning; morning]
  /\ live_parsable [morning; late_morning]
  /\ is_conflicting half_past_ten [morning; late_morning]
     = is_conflicting half_past_ten [late_morning; morning].
Proof.
  assert (Hp : Permutation [morning; late_morning] [late_morning; morning])
    by apply perm_swap.
  assert (Hl : live_parsable [morning; late_morning])
    by (repeat constructor).
  split; [exact Hp|]. split; [exact Hl|].
  exact (is_conflicting_order_free half_past_ten _ _ Hp Hl).
Defined.

End Routes.

(** ** More on the slot finder *)

Module SlotFacts.
Section SlotFacts.

Context {T : DatetimeText}.

(** *** What each gap contributes *)

Lemma gap_starts_none sd cur bound :
  0 < sd -> bound < cur + sd -> gap_starts sd (cur, bound) = [].
Proof.
  intros Hsd Hlt; unfold gap_starts; cbn [fst snd].
  replace (Z.to_nat ((bound - cur) / sd)) with 0%nat; [reflexivity|].
  assert ((bound - cur) / sd < 1) by (apply Z.div_lt_upper_bound; lia). lia.
Qed.

Lemma gap_starts_step sd cur bound :
  0 < sd -> cur + sd <= bound ->
  gap_starts sd (cur, bound) = cur :: gap_starts sd (cur + sd, bound).
Proof.
  intros Hsd Hle; unfold gap_starts; cbn [fst snd].
  replace (bound - cur) with ((bound - (cur + sd)) + 1 * sd) by lia.
  rewrite Z.div_add by lia.
  assert (0 <= (bound - (cur + sd)) / sd) by (apply Z.div_pos; lia).
  rewrite Z2Nat.inj_add, Nat.add_comm by lia; simpl.
  f_equal; [lia|].
  rewrite <- seq_shift, map_map; apply map_ext; intros i; lia.
Qed.

Lemma emit_exact fuel sd cur bound hi acc :
  0 < sd -> Py.US_PER_DAY <= cur -> cur < hi -> bound < hi ->
  hi + sd <= (Py.MAXORDINAL + 1) * Py.US_PER_DAY ->
  (List.length (gap_starts sd (cur, bound)) < fuel)%nat ->
  emit fuel sd cur bound acc
  = Return (acc ++ map (slot_at sd) (gap_starts sd (cur, bound))).
Proof.
  intros Hsd Hlo Hcur Hb Hhi; revert cur acc Hlo Hcur;
    induction fuel as [|fuel IH]; intros cur acc Hlo Hcur Hfuel; [lia|].
  rewrite Slots.emit_unfold; unfold Py.add.
  replace (Py.datetime_in_range (cur + sd)) with true.
  - destruct (Z.leb_spec (cur + sd) bound) as [Hle|Hgt].
    + rewrite (gap_starts_step _ _ _ Hsd Hle) in Hfuel |- *; simpl in Hfuel.
      rewrite IH; [rewrite <- app_assoc; reflexivity|lia|lia|lia].
    + rewrite (gap_starts_none _ _ _ Hsd Hgt), app_nil_r; reflexivity.
  - symmetry; unfold Py.datetime_in_range.
    apply andb_true_intro; split; [apply Z.leb_le|apply Z.ltb_lt]; lia.
Qed.

Lemma between_exact fuel sd occ hi acc :
  0 < sd ->
  Forall (fun b => fst b < hi /\ Py.US_PER_DAY <= snd b < hi) occ ->
  hi + sd <= (Py.MAXORDINAL + 1) * Py.US_PER_DAY ->
  Forall (fun g => (List.length (gap_starts sd g) < fuel)%nat) (gaps_between occ) ->
  between fuel sd occ acc
  = Return (acc ++ map (slot_at sd) (flat_map (gap_starts sd) (gaps_between occ))).
Proof.
  intros Hsd Hocc Hhi; revert acc; induction Hocc as [|cur rest Hcur Hrest IH];
    intros acc Hfuel.
  - simpl; rewrite app_nil_r; reflexivity.
  - destruct rest as [|next rest]; [simpl; rewrite app_nil_r; reflexivity|].
    change (gaps_between (cur :: next :: rest))
      with ((snd cur, fst next) :: gaps_between (next :: rest)) in Hfuel |- *.
    inversion Hfuel as [|? ? Hg Hgs]; subst.
    inversion Hrest as [|? ? Hnext _]; subst.
    rewrite Slots.between_unfold.
    rewrite (emit_exact fuel sd _ _ hi);
      [|exact Hsd|zlia|zlia|zlia|exact Hhi|exact Hg].
    cbn [bind]; rewrite (IH _ Hgs); simpl flat_map.
    rewrite map_app, app_assoc; reflexivity.
Qed.

(** The walk returns, gap after gap, as many back-to-back slots as fit
    in the gap, from the gap's lower end. *)
Lemma walk_exact fuel d day_start day_end occ hi :
  0 < d ->
  Py.US_PER_DAY <= day_start < hi -> day_end < hi ->
  Forall (fun b => fst b < hi /\ Py.US_PER_DAY <= snd b < hi) occ ->
  hi + d * Py.US_PER_MINUTE <= (Py.MAXORDINAL + 1) * Py.US_PER_DAY ->
  Forall (fun g => (List.length (gap_starts (d * Py.US_PER_MINUTE)%Z g) < fuel)%nat)
         (gaps day_start day_end occ) ->
  walk fuel d day_start day_end occ
  = Return (map (slot_at (d * Py.US_PER_MINUTE))
                (flat_map (gap_starts (d * Py.US_PER_MINUTE))
                          (gaps day_start day_end occ))).
Proof.
  intros Hd Hds Hde Hocc Hhi Hfuel.
  assert (Hsd : 0 < d * Py.US_PER_MINUTE) by (unfold Py.US_PER_MINUTE; lia).
  assert (Htd : Py.timedelta_minutes d = Some (d * Py.US_PER_MINUTE)).
  { unfold Py.timedelta_minutes.
    replace (Py.timedelta_in_range (d * Py.US_PER_MINUTE)) with true;
      [reflexivity|].
    symmetry; unfold Py.timedelta_in_range, Py.MAX_DELTA_DAYS,
      Py.MAXORDINAL, Py.US_PER_DAY in *.
    apply andb_true_intro; split; [apply Z.leb_le|apply Z.ltb_lt]; lia. }
  destruct occ as [|first rest].
  - unfold walk; rewrite Htd; cbn [bind or_raise].
    simpl in Hfuel |- *; inversion Hfuel as [|? ? Hg _]; subst.
    rewrite (emit_exact fuel _ _ _ hi);
      [|exact Hsd|zlia|zlia|zlia|exact Hhi|exact Hg].
    rewrite app_nil_r; reflexivity.
  - rewrite (Slots.walk_unfold _ _ _ _ _ _ _ Htd).
    unfold gaps in Hfuel |- *.
    unfold Py.datetime, Py.timedelta, Py.date in *.
    apply Forall_app in Hfuel as [Hf1 Hf]; apply Forall_app in Hf as [Hf2 Hf3].
    inversion Hf3 as [|? ? Hlast _]; subst.
    assert (Hin : In (last (first :: rest) first) (first :: rest))
      by (rewrite Slots.last_cons_default; apply Slots.last_In).
    pose proof (proj1 (Forall_forall _ _) Hocc _ Hin) as Hl.
    inversion Hocc as [|? ? Hfirst _]; subst.
    rewrite !flat_map_app, !map_app.
    assert (H1 : (if day_start <? fst first
                  then emit fuel (d * Py.US_PER_MINUTE) day_start (fst first) []
                  else Return [])
                 = Return (map (slot_at (d * Py.US_PER_MINUTE))
                             (flat_map (gap_starts (d * Py.US_PER_MINUTE))
                                (if day_start <? fst first
                                 then [(day_start, fst first)] else [])))).
    { revert Hf1; destruct (_ <? _); [|reflexivity].
      intros Hf1; inversion Hf1 as [|? ? Hg _]; subst.
      rewrite (emit_exact fuel _ _ _ hi);
        [|exact Hsd|zlia|zlia|zlia|exact Hhi|exact Hg].
      simpl; rewrite app_nil_r; reflexivity. }
    rewrite H1; cbn [bind].
    rewrite (between_exact _ _ _ hi _ Hsd Hocc Hhi Hf2); cbn [bind].
    rewrite (emit_exact fuel _ _ _ hi);
      [|exact Hsd|zlia|zlia|zlia|exact Hhi|exact Hlast].
    simpl flat_map; rewrite app_nil_r, <- !app_assoc; reflexivity.
Qed.

(** The busy intervals kept for day [target] lie on that day. *)
Lemma collect_day_events_on_day target events acc busy :
  collect_day_events target events acc = Return busy ->
  Forall (fun b => Py.date_of (fst b) = target /\ Py.date_of (snd b) = target) acc ->
  Forall (fun b => Py.date_of (fst b) = target /\ Py.date_of (snd b) = target) busy.
Proof.
  revert acc; induction events as [|event rest IH]; intros acc.
  - intros [= <-]; auto.
  - rewrite Slots.collect_day_events_unfold.
    destruct (parsed event) as [[s t]|] eqn:Hp; [|discriminate].
    destruct (considered target event) eqn:Hc; intros H Hacc.
    + apply (IH _ H), Forall_app; split; [exact Hacc|].
      apply Slots.considered_spec in Hc as (s' & t' & Hp' & Hs & Ht & _).
      rewrite Hp in Hp'; injection Hp' as <- <-; repeat constructor; simpl; auto.
    + apply (IH _ H Hacc).
Qed.

Lemma day_bounds target busy :
  1 <= target ->
  Forall (fun b => Py.date_of (fst b) = target /\ Py.date_of (snd b) = target) busy ->
  Forall (fun b => fst b < (target + 1) * Py.US_PER_DAY
                   /\ Py.US_PER_DAY <= snd b < (target + 1) * Py.US_PER_DAY)
         (sort_by_start busy).
Proof.
  intros Ht H; apply Slots.sort_by_start_Forall.
  eapply Forall_impl; [|exact H]; intros b [Hs He].
  apply Slots.date_of_bounds in Hs, He; unfold Py.US_PER_DAY in *; zlia.
Qed.

(** X11.  With a positive duration that does not reach past the last day
    of the calendar, the slot finder returns exactly this: for each gap it
    visits, in order (before the first busy interval, between consecutive
    ones by start time, after the last), the slots packed back to back
    from the gap's lower end, as many as fit, that is the integer part of
    the gap's length over the duration, and none for a gap shorter than
    the duration. *)
Theorem get_available_slots_fills_gaps fuel date d st target busy :
  0 < d ->
  strptime_date date = Some target -> 1 <= target ->
  d * Py.US_PER_MINUTE <= (Py.MAXORDINAL - target) * Py.US_PER_DAY ->
  collect_day_events target (get_calendar_events st) [] = Return busy ->
  Forall (fun g => (List.length (gap_starts (d * Py.US_PER_MINUTE)%Z g) < fuel)%nat)
         (gaps (Py.combine_hour target 9) (Py.combine_hour target 17)
               (sort_by_start busy)) ->
  get_available_slots fuel date d st
  = Return (map (slot_at (d * Py.US_PER_MINUTE))
                (flat_map (gap_starts (d * Py.US_PER_MINUTE))
                          (gaps (Py.combine_hour target 9)
                                (Py.combine_hour target 17)
                                (sort_by_start busy))))
  /\ (forall g, List.length (gap_starts (d * Py.US_PER_MINUTE) g)
               = Z.to_nat ((snd g - fst g) / (d * Py.US_PER_MINUTE)))
  /\ (forall g, snd g - fst g < d * Py.US_PER_MINUTE ->
               gap_starts (d * Py.US_PER_MINUTE) g = []).
Proof.
  intros Hd Hdate Ht Hmax Hc Hfuel; split; [|split].
  - rewrite (Slots.get_available_slots_parsed _ _ _ _ _ Hdate), Hc; cbn [bind].
    apply (walk_exact _ _ _ _ _ ((target + 1) * Py.US_PER_DAY)); auto.
    + unfold Py.combine_hour, Py.US_PER_DAY, Py.US_PER_HOUR; lia.
    + unfold Py.combine_hour, Py.US_PER_DAY, Py.US_PER_HOUR; lia.
    + apply day_bounds; [exact Ht|].
      eapply collect_day_events_on_day; [exact Hc|constructor].
    + unfold Py.US_PER_DAY in *; lia.
  - intros g; unfold gap_starts; rewrite length_map, length_seq; reflexivity.
  - intros [lo hi'] Hshort; simpl in Hshort.
    apply gap_starts_none; unfold Py.US_PER_MINUTE in *; lia.
Qed.

(** One emission loop with a positive step, whatever its bound: it
    returns the slots that fit unless an instant it computes, the last
    being the end of the first slot that no longer fits, lies past the
    calendar; then it raises. *)
Lemma emit_exact_or_overflow fuel sd cur bound acc :
  0 < sd -> Py.US_PER_DAY <= cur ->
  (List.length (gap_starts sd (cur, bound)) < fuel)%nat ->
  emit fuel sd cur bound acc
  = if cur + (Z.of_nat (List.length (gap_starts sd (cur, bound))) + 1) * sd
       <? (Py.MAXORDINAL + 1) * Py.US_PER_DAY
    then Return (acc ++ map (slot_at sd) (gap_starts sd (cur, bound)))
    else Raise OverflowError.
Proof.
  intros Hsd; revert cur acc; induction fuel as [|fuel IH]; intros cur acc Hlo Hfuel;
    [lia|].
  rewrite Slots.emit_unfold; unfold Py.add, Py.datetime_in_range.
  replace (Py.US_PER_DAY <=? cur + sd) with true by (symmetry; apply Z.leb_le; lia).
  cbn [andb].
  destruct (Z.ltb_spec (cur + sd) ((Py.MAXORDINAL + 1) * Py.US_PER_DAY)) as [Hin|Hout].
  - destruct (Z.leb_spec (cur + sd) bound) as [Hle|Hgt].
    + pose proof (gap_starts_step _ _ _ Hsd Hle) as Hstep.
      unfold Py.datetime in *; rewrite Hstep in Hfuel; rewrite Hstep.
      simpl List.length in *.
      rewrite IH by lia.
      match goal with
      | |- (if ?a <? _ then _ else _) = (if ?b <? _ then _ else _) =>
          replace b with a by (rewrite Nat2Z.inj_succ; ring)
      end.
      simpl map; rewrite <- app_assoc; reflexivity.
    + pose proof (gap_starts_none _ _ _ Hsd Hgt) as Hnone.
      unfold Py.datetime in *; rewrite Hnone; cbn [List.length map Z.of_nat].
      replace (cur + (0 + 1) * sd) with (cur + sd) by ring.
      destruct (Z.ltb_spec (cur + sd) ((Py.MAXORDINAL + 1) * Py.US_PER_DAY));
        [rewrite app_nil_r; reflexivity|lia].
  - destruct (Z.ltb_spec
                (cur + (Z.of_nat (List.length (gap_starts sd (cur, bound))) + 1) * sd)
                ((Py.MAXORDINAL + 1) * Py.US_PER_DAY)); [|reflexivity].
    exfalso; nia.
Qed.

(** X12.  On a day, on or after 0001-01-01, with no considered event, and
    for a positive duration of [d] minutes, the slot finder returns the
    slots that start at 09:00 plus a multiple of the duration and end by
    17:00, the integer part of 480 over [d] many (none for a duration
    above eight hours), provided the end of the first slot that no longer
    fits, 09:00 plus (that number plus one) times the duration, is still
    an instant of the calendar; otherwise it raises [OverflowError]. *)
Theorem empty_day_slot_count fuel date d st target :
  0 < d ->
  strptime_date date = Some target -> 1 <= target ->
  collect_day_events target (get_calendar_events st) [] = Return [] ->
  (Z.to_nat (480 / d) < fuel)%nat ->
  get_available_slots fuel date d st
  = if Py.combine_hour target 9 + (480 / d + 1) * (d * Py.US_PER_MINUTE)
       <? (Py.MAXORDINAL + 1) * Py.US_PER_DAY
    then Return (map (fun i => slot_at (d * Py.US_PER_MINUTE)
                                 (Py.combine_hour target 9
                                  + Z.of_nat i * (d * Py.US_PER_MINUTE)))
                     (seq 0 (Z.to_nat (480 / d))))
    else Raise OverflowError.
Proof.
  intros Hd Hdate Ht Hc Hfuel.
  assert (Hn : (Py.combine_hour target 17 - Py.combine_hour target 9)
               / (d * Py.US_PER_MINUTE) = 480 / d).
  { unfold Py.combine_hour, Py.US_PER_HOUR, Py.US_PER_MINUTE.
    replace (target * Py.US_PER_DAY + 17 * 3600000000
             - (target * Py.US_PER_DAY + 9 * 3600000000))
      with (480 * 60000000) by lia.
    apply Z.div_mul_cancel_r; lia. }
  assert (Hq : 0 <= 480 / d) by (apply Z.div_pos; lia).
  assert (Hlen : List.length (gap_starts (d * Py.US_PER_MINUTE)
                                (Py.combine_hour target 9, Py.combine_hour target 17))
                 = Z.to_nat (480 / d)).
  { unfold gap_starts; cbn [fst snd]; rewrite length_map, length_seq, Hn; reflexivity. }
  rewrite (Slots.get_available_slots_parsed _ _ _ _ _ Hdate), Hc; cbn [bind].
  unfold walk, Py.timedelta_minutes, Py.timedelta_in_range; simpl sort_by_start.
  replace (- Py.MAX_DELTA_DAYS * Py.US_PER_DAY <=? d * Py.US_PER_MINUTE) with true
    by (symmetry; apply Z.leb_le;
        unfold Py.MAX_DELTA_DAYS, Py.US_PER_DAY, Py.US_PER_MINUTE; lia).
  cbn [andb].
  destruct (Z.ltb_spec (d * Py.US_PER_MINUTE)
              ((Py.MAX_DELTA_DAYS + 1) * Py.US_PER_DAY)) as [Htd|Htd];
    cbn [bind or_raise].
  - rewrite emit_exact_or_overflow.
    + unfold Py.datetime in *; rewrite Hlen, Z2Nat.id by exact Hq.
      unfold gap_starts; cbn [fst snd]; rewrite Hn, map_map; reflexivity.
    + unfold Py.US_PER_MINUTE; lia.
    + unfold Py.combine_hour, Py.US_PER_DAY, Py.US_PER_HOUR; lia.
    + unfold Py.datetime in *; rewrite Hlen; exact Hfuel.
  - destruct (Z.ltb_spec
                (Py.combine_hour target 9 + (480 / d + 1) * (d * Py.US_PER_MINUTE))
                ((Py.MAXORDINAL + 1) * Py.US_PER_DAY)) as [Hlt|]; [|reflexivity].
    exfalso; revert Hlt Htd.
    unfold Py.combine_hour, Py.MAX_DELTA_DAYS, Py.MAXORDINAL, Py.US_PER_DAY,
      Py.US_PER_HOUR, Py.US_PER_MINUTE; nia.
Qed.

(** *** Durations that are not positive *)

Lemma emit_nonpositive_stuck fuel sd cur bound acc slots :
  sd <= 0 -> cur <= bound -> emit fuel sd cur bound acc <> Return slots.
Proof.
  intros Hsd; revert cur acc; induction fuel as [|fuel IH]; intros cur acc Hle;
    [discriminate|].
  rewrite Slots.emit_unfold; unfold Py.add.
  destruct (Py.datetime_in_range (cur + sd)); [|discriminate].
  destruct (Z.leb_spec (cur + sd) bound); [apply IH; lia|lia].
Qed.

Lemma emit_nonpositive_return fuel sd cur bound acc slots :
  sd <= 0 -> emit fuel sd cur bound acc = Return slots -> slots = acc.
Proof.
  intros Hsd; destruct fuel as [|fuel]; [discriminate|].
  rewrite Slots.emit_unfold; unfold Py.add.
  destruct (Py.datetime_in_range (cur + sd)); [|discriminate].
  destruct (Z.leb_spec (cur + sd) bound) as [Hle|Hgt].
  - intros H; exfalso; revert H; apply emit_nonpositive_stuck; assumption.
  - intros [= <-]; reflexivity.
Qed.

Lemma between_nonpositive_return fuel sd occ acc slots :
  sd <= 0 -> between fuel sd occ acc = Return slots -> slots = acc.
Proof.
  intros Hsd; revert acc; induction occ as [|cur rest IH]; intros acc.
  - intros [= <-]; reflexivity.
  - destruct rest as [|next rest]; [intros [= <-]; reflexivity|].
    rewrite Slots.between_unfold; intros H.
    apply bind_Return in H as (acc' & H1 & H2).
    apply (emit_nonpositive_return _ _ _ _ _ _ Hsd) in H1 as ->.
    apply IH, H2.
Qed.

(** X18.  For a duration of zero or less the slot finder never returns a
    slot: whenever the call returns, it returns the empty list. *)
Theorem nonpositive_duration_no_slot fuel date d st slots :
  d <= 0 ->
  get_available_slots fuel date d st = Return slots -> slots = [].
Proof.
  intros Hd H; unfold get_available_slots in H.
  apply bind_Return in H as (target & _ & H).
  apply bind_Return in H as (busy & _ & H).
  unfold walk in H; apply bind_Return in H as (sd & Hsd & H).
  assert (Hneg : sd <= 0).
  { unfold Py.timedelta_minutes in Hsd.
    destruct (Py.timedelta_in_range _); [|discriminate].
    injection Hsd as <-; unfold Py.US_PER_MINUTE; lia. }
  destruct (sort_by_start busy) as [|first rest].
  - apply (emit_nonpositive_return _ _ _ _ _ _ Hneg H).
  - apply bind_Return in H as (acc1 & H1 & H).
    apply bind_Return in H as (acc2 & H2 & H3).
    assert (acc1 = []) as ->.
    { revert H1; destruct (_ <? _); [|intros [= <-]; reflexivity].
      apply emit_nonpositive_return, Hneg. }
    apply (between_nonpositive_return _ _ _ _ _ Hneg) in H2 as ->.
    apply (emit_nonpositive_return _ _ _ _ _ _ Hneg H3).
Qed.

(** *** The order of the stored events *)

Lemma insert_by_start_comm x y l :
  fst x <> fst y ->
  insert_by_start x (insert_by_start y l) = insert_by_start y (insert_by_start x l).
Proof.
  intros Hne; induction l as [|z l IH]; simpl;
    repeat (match goal with
            | |- context [?a <=? ?b] => destruct (Z.leb_spec a b); simpl
            end);
    try reflexivity; try (exfalso; zlia).
  rewrite IH; reflexivity.
Qed.

Lemma sort_by_start_Permutation l l' :
  Permutation l l' -> NoDup (map fst l) -> sort_by_start l = sort_by_start l'.
Proof.
  induction 1 as [|x l l' Hp IH|x y l|l l' l'' Hp1 IH1 Hp2 IH2]; intros Hnd.
  - reflexivity.
  - simpl in *; inversion Hnd; subst; rewrite IH; auto.
  - simpl in *; inversion Hnd as [|? ? Hy Hnd']; subst.
    apply insert_by_start_comm; intros Heq; apply Hy; left; auto.
  - rewrite IH1, IH2; auto.
    eapply Permutation_NoDup; [apply Permutation_map; exact Hp1|exact Hnd].
Qed.

Lemma collect_day_events_unparsable target events acc :
  Exists (fun e => parsable e = false) events ->
  collect_day_events target events acc = Raise ValueError.
Proof.
  intros H; revert acc; induction H as [e rest He|e rest _ IH]; intros acc;
    rewrite Slots.collect_day_events_unfold.
  - unfold parsable in He; destruct (parsed e); [discriminate|reflexivity].
  - destruct (parsed e); [|reflexivity].
    destruct (considered target e); apply IH.
Qed.

Lemma filter_Permutation {A : Type} (f : A -> bool) (l l' : list A) :
  Permutation l l' -> Permutation (filter f l) (filter f l').
Proof.
  induction 1 as [|x l l' Hp IH|x y l|l l' l'' Hp1 IH1 Hp2 IH2]; simpl.
  - constructor.
  - destruct (f x); [constructor|]; exact IH.
  - destruct (f x), (f y); try apply Permutation_refl; apply perm_swap.
  - eapply Permutation_trans; eassumption.
Qed.

Lemma all_parsable_or_not events :
  Forall (fun e => parsable e = true) events
  \/ Exists (fun e => parsable e = false) events.
Proof.
  induction events as [|e rest [IH|IH]]; [left; constructor| |right; auto].
  destruct (parsable e) eqn:He; [left; auto|right; auto].
Qed.

(** X19.  When the considered events start at pairwise different
    instants, the outcome of the slot finder does not depend on the order
    in which the events are stored. *)
Theorem get_available_slots_order_free fuel date d st st' target :
  strptime_date date = Some target ->
  Permutation (get_calendar_events st) (get_calendar_events st') ->
  NoDup (map (fun e => fst (interval_of e))
             (filter (considered target) (get_calendar_events st))) ->
  get_available_slots fuel date d st = get_available_slots fuel date d st'.
Proof.
  intros Hdate Hperm Hnd.
  rewrite !(Slots.get_available_slots_parsed _ _ _ _ _ Hdate).
  destruct (all_parsable_or_not (get_calendar_events st)) as [Hall|Hex1].
  - assert (Hall' : Forall (fun e => parsable e = true) (get_calendar_events st'))
      by (eapply Permutation_Forall; eassumption).
    rewrite (Slots.collect_day_events_filter _ _ [] Hall),
      (Slots.collect_day_events_filter _ _ [] Hall'); cbn [bind app].
    f_equal; apply sort_by_start_Permutation.
    + apply Permutation_map, filter_Permutation, Hperm.
    + rewrite map_map; exact Hnd.
  - assert (Hex2 : Exists (fun e => parsable e = false) (get_calendar_events st')).
    { apply Exists_exists in Hex1 as (e & Hin & He); apply Exists_exists.
      exists e; split; [eapply Permutation_in; eassumption|exact He]. }
    rewrite (collect_day_events_unparsable _ _ _ Hex1),
      (collect_day_events_unparsable _ _ _ Hex2); reflexivity.
Qed.

(** *** The storage and the slot finder together *)

Lemma conflict_free_apart target events :
  conflict_free events ->
  ForallOrdPairs apart (map interval_of (filter (considered target) events)).
Proof.
  induction 1 as [|a l Ha _ IH]; simpl; [constructor|].
  destruct (considered target a) eqn:Hca; [|exact IH].
  simpl; constructor; [|exact IH].
  apply Forall_forall; intros i Hi.
  apply in_map_iff in Hi as (b & <- & Hb); apply filter_In in Hb as [Hb Hcb].
  rewrite Forall_forall in Ha; specialize (Ha b Hb).
  apply Slots.considered_spec in Hca as (s1 & e1 & Hp1 & _ & _ & Hl1).
  apply Slots.considered_spec in Hcb as (s2 & e2 & Hp2 & _ & _ & Hl2).
  unfold clash in Ha; unfold interval_of, apart; rewrite Hp1, Hp2 in *.
  rewrite Hl1, Hl2, Z.gtb_ltb in Ha; simpl in Ha |- *.
  destruct (Z.ltb_spec s1 e2), (Z.ltb_spec s2 e1); try discriminate; lia.
Qed.

(** X8.  On a storage in which no two events clash, as [create_event]
    keeps it, and whose considered events all end after they start, no
    slot the slot finder returns meets a considered event: each slot ends
    by the time the event starts or starts when it has ended. *)
Theorem conflict_free_storage_slots_clear fuel date d st target slots :
  0 <= d ->
  strptime_date date = Some target ->
  conflict_free (get_calendar_events st) ->
  Forall (fun e => considered target e = true ->
                   fst (interval_of e) < snd (interval_of e))
         (get_calendar_events st) ->
  get_available_slots fuel date d st = Return slots ->
  exists starts,
    slots = map (slot_at (d * Py.US_PER_MINUTE)) starts
    /\ forall t e,
        In t starts -> In e (get_calendar_events st) ->
        considered target e = true ->
        clear_of (d * Py.US_PER_MINUTE) t (interval_of e).
Proof.
  intros Hd Hdate Hfree Hwf H.
  assert (Hall : Forall (fun e => parsable e = true) (get_calendar_events st)).
  { destruct (all_parsable_or_not (get_calendar_events st)) as [Hall|Hex1];
      [exact Hall|exfalso].
    rewrite (Slots.get_available_slots_parsed _ _ _ _ _ Hdate),
      (collect_day_events_unparsable _ _ _ Hex1) in H; discriminate. }
  pose proof (Slots.collect_day_events_filter target _ [] Hall) as Hc.
  simpl app in Hc.
  destruct (Slots.slots_lie_in_gaps _ _ _ _ _ _ _ Hd Hdate Hc H)
    as (starts & -> & Hin).
  exists starts; split; [reflexivity|].
  intros t e Ht He Hce.
  rewrite Forall_forall in Hin; apply Hin in Ht.
  apply Exists_exists in Ht as (g & Hg & Hlo & Hhi).
  set (busy := map interval_of (filter (considered target) (get_calendar_events st)))
    in *.
  assert (Hwfb : Forall (fun b : Py.datetime * Py.datetime => fst b < snd b) busy).
  { apply Forall_forall; intros b Hb.
    apply in_map_iff in Hb as (x & <- & Hx); apply filter_In in Hx as [Hx Hcx].
    rewrite Forall_forall in Hwf; apply Hwf; assumption. }
  assert (Hwfs : Forall (fun b : Py.datetime * Py.datetime => fst b <= snd b)
                        (sort_by_start busy)).
  { apply Slots.sort_by_start_Forall; eapply Forall_impl; [|exact Hwfb].
    simpl; intros; zlia. }
  assert (Hbe : In (interval_of e) (sort_by_start busy)).
  { apply Slots.sort_by_start_In, in_map_iff; exists e; split; [reflexivity|].
    apply filter_In; auto. }
  destruct (Slots.chain_gaps_clear _ _ _ g (interval_of e)
              (Slots.sort_by_start_chain _ Hwfb (conflict_free_apart target _ Hfree))
              Hwfs Hg Hbe) as [Hl|Hr]; unfold clear_of; zlia.
Qed.

(** X20.  When the stored ids are pairwise distinct, an update that sets
    an event to cancelled and is accepted leaves the slot finder with the
    same outcome as deleting the event would. *)
Theorem cancelling_like_deleting fuel date d event_id updated st r st1 :
  NoDup (map id (get_calendar_events st)) ->
  is_cancelled updated = true ->
  update_event event_id updated st = (Return r, st1) ->
  get_available_slots fuel date d st1
  = get_available_slots fuel date d (snd (delete_event event_id st)).
Proof.
  intros Hnd Hcan Hup.
  destruct (get_event_scan event_id (get_calendar_events st)) as [e| err |] eqn:Hg.
  - apply Routes.get_event_scan_Return in Hg as (pre & post & Hst & He & Hpre).
    rewrite (Routes.update_event_found _ _ _ _ _ _ Hst Hpre He) in Hup.
    assert (Hdel : snd (delete_event event_id st) = Some (pre ++ post)).
    { unfold delete_event; rewrite Hst in Hnd |- *.
      rewrite (Routes.NoDup_ids_filter_other _ _ _ _ Hnd He), !length_app; simpl.
      replace (List.length pre + List.length post
               =? List.length pre + S (List.length post))%nat with false;
        [reflexivity|symmetry; apply Nat.eqb_neq; lia]. }
    rewrite Hdel.
    destruct (is_conflicting updated _) as [[|]| err |] eqn:Hc; try discriminate.
    injection Hup as <- <-.
    apply Routes.checked_no_clash in Hc as [Hp _].
    unfold get_available_slots.
    destruct (strptime_date date) as [target|]; cbn [bind or_raise]; [|reflexivity].
    simpl get_calendar_events.
    rewrite (Slots.collect_day_events_skip target pre updated post [] Hp);
      [reflexivity|].
    unfold considered; destruct (parsed updated) as [[s0 t0]|]; [|reflexivity].
    rewrite Hcan; simpl; apply andb_false_r.
  - apply Routes.get_event_scan_Raise in Hg as [_ Hg].
    unfold update_event in Hup.
    rewrite (Routes.update_scan_missing _ _ _ _ _ Hg) in Hup; discriminate.
  - apply Routes.get_event_scan_fuel_free in Hg; contradiction.
Qed.

(** *** The events the slot finder works on *)

(** The filter loop on any storage: the intervals of the considered
    events, in stored order, when every stored timestamp parses, and
    [ValueError] otherwise. *)
Lemma collect_day_events_all target events :
  collect_day_events target events []
  = if forallb parsable events
    then Return (map interval_of (filter (considered target) events))
    else Raise ValueError.
Proof.
  destruct (forallb parsable events) eqn:Hall.
  - apply (Slots.collect_day_events_filter target events []).
    apply Forall_forall; intros e He.
    exact (proj1 (forallb_forall parsable events) Hall e He).
  - destruct (all_parsable_or_not events) as [Hf | He].
    + assert (forallb parsable events = true) as Ht
        by (apply forallb_forall; intros e Hin;
            exact (proj1 (Forall_forall _ events) Hf e Hin)).
      congruence.
    + apply collect_day_events_unparsable; exact He.
Qed.

(** C5.  With a date that parses, the slot finder works on exactly the
    stored events that start on the date, end on the date and are not
    cancelled.  On any storage its outcome is that of the walk over the
    intervals of these events, sorted by start, when every stored
    timestamp parses, and [ValueError] otherwise.  For a positive duration
    that does not reach past the last day of the calendar, a date on or
    after 0001-01-01 and a storage whose timestamps all parse, it returns
    the slots packed into the gaps these intervals leave between 09:00 and
    17:00, and no others; whatever slots it returns for a duration that is
    not negative lie in these gaps.  The outcome is the same for the
    storage cut down to these events, and an event with parsable
    timestamps that is cancelled, or that starts or ends on another date
    (outside the date, or across midnight), can be removed from the
    storage without changing the outcome. *)
Theorem slot_finder_considers_exactly fuel date d target :
  strptime_date date = Some target ->
  (forall e,
      considered target e = true <->
      exists s t,
        parsed e = Some (s, t) /\ Py.date_of s = target
        /\ Py.date_of t = target /\ is_cancelled e = false)
  /\ (forall events,
        get_available_slots fuel date d (Some events)
        = if forallb parsable events
          then walk fuel d (Py.combine_hour target 9) (Py.combine_hour target 17)
                    (sort_by_start
                       (map interval_of (filter (considered target) events)))
          else Raise ValueError)
  /\ (forall events,
        0 < d -> 1 <= target ->
        d * Py.US_PER_MINUTE <= (Py.MAXORDINAL - target) * Py.US_PER_DAY ->
        forallb parsable events = true ->
        Forall (fun g =>
                  (List.length (gap_starts (d * Py.US_PER_MINUTE)%Z g) < fuel)%nat)
               (gaps (Py.combine_hour target 9) (Py.combine_hour target 17)
                     (sort_by_start
                        (map interval_of (filter (considered target) events)))) ->
        get_available_slots fuel date d (Some events)
        = Return (map (slot_at (d * Py.US_PER_MINUTE))
                      (flat_map (gap_starts (d * Py.US_PER_MINUTE))
                                (gaps (Py.combine_hour target 9)
                                      (Py.combine_hour target 17)
                                      (sort_by_start
                                         (map interval_of
                                              (filter (considered target)
                                                      events)))))))
  /\ (forall events slots,
        0 <= d ->
        get_available_slots fuel date d (Some events) = Return slots ->
        exists starts,
          slots = map (slot_at (d * Py.US_PER_MINUTE)) starts
          /\ Forall (fun t =>
                       Exists (in_gap (d * Py.US_PER_MINUTE) t)
                              (gaps (Py.combine_hour target 9)
                                    (Py.combine_hour target 17)
                                    (sort_by_start
                                       (map interval_of
                                            (filter (considered target) events)))))
                    starts)
  /\ (forall events,
        forallb parsable events = true ->
        get_available_slots fuel date d (Some events)
        = get_available_slots fuel date d
            (Some (filter (considered target) events)))
  /\ (forall pre e post s t,
        parsed e = Some (s, t) ->
        is_cancelled e = true \/ Py.date_of s <> target \/ Py.date_of t <> target ->
        get_available_slots fuel date d (Some (pre ++ e :: post))
        = get_available_slots fuel date d (Some (pre ++ post))).
Proof.
  intros Hd.
  assert (Hres : forall events,
             get_available_slots fuel date d (Some events)
             = if forallb parsable events
               then walk fuel d (Py.combine_hour target 9)
                         (Py.combine_hour target 17)
                         (sort_by_start
                            (map interval_of (filter (considered target) events)))
               else Raise ValueError).
  { intros events.
    rewrite (Slots.get_available_slots_parsed _ _ _ _ _ Hd);
      simpl get_calendar_events.
    rewrite collect_day_events_all.
    destruct (forallb parsable events); reflexivity. }
  assert (Hcol : forall events,
             forallb parsable events = true ->
             collect_day_events target (get_calendar_events (Some events)) []
             = Return (map interval_of (filter (considered target) events))).
  { intros events Hall; simpl get_calendar_events.
    rewrite collect_day_events_all, Hall; reflexivity. }
  split; [apply Slots.considered_spec|].
  split; [exact Hres|].
  split; [|split; [|split]].
  - intros events Hpos Ht Hmax Hall Hfuel.
    rewrite Hres, Hall.
    apply (walk_exact _ _ _ _ _ ((target + 1) * Py.US_PER_DAY)); auto.
    + unfold Py.combine_hour, Py.US_PER_DAY, Py.US_PER_HOUR; lia.
    + unfold Py.combine_hour, Py.US_PER_DAY, Py.US_PER_HOUR; lia.
    + apply day_bounds; [exact Ht|].
      eapply collect_day_events_on_day; [exact (Hcol events Hall)|constructor].
    + unfold Py.US_PER_DAY in *; lia.
  - intros events slots Hnn Hret.
    destruct (forallb parsable events) eqn:Hall.
    + exact (Slots.slots_lie_in_gaps _ _ _ _ _ _ _ Hnn Hd (Hcol events Hall) Hret).
    + rewrite Hres, Hall in Hret; discriminate.
  - intros events Hall.
    assert (Hfil : forallb parsable (filter (considered target) events) = true).
    { apply forallb_forall; intros e Hin.
      exact (proj1 (Forall_forall _ _)
                   (Slots.filter_considered_parsable target events) e Hin). }
    rewrite !Hres, Hall, Hfil, Slots.filter_idempotent; reflexivity.
  - intros pre e post s t Hp Hout.
    rewrite !(Slots.get_available_slots_parsed _ _ _ _ _ Hd);
      simpl get_calendar_events.
    rewrite Slots.collect_day_events_skip; [reflexivity| |].
    + unfold parsable; rewrite Hp; reflexivity.
    + unfold considered; rewrite Hp.
      destruct Hout as [Hc | [Hs | Ht]].
      * rewrite Hc; simpl; apply andb_false_r.
      * apply Z.eqb_neq in Hs; rewrite Hs; reflexivity.
      * apply Z.eqb_neq in Ht; rewrite Ht, andb_false_r; reflexivity.
Qed.

End SlotFacts.

(** *** The slot finder on 2025-04-15 *)

Lemma slots_have_requested_duration_witness :
  get_available_slots 100 "2025-04-15" 180 one_meeting_day = Return afternoon_slots
  /\ Forall (fun slot =>
               exists t, start slot = isoformat t
                         /\ end_ slot = isoformat (t + 180 * Py.US_PER_MINUTE))
            afternoon_slots.
Proof.
  assert (H : get_available_slots 100 "2025-04-15" 180 one_meeting_day
              = Return afternoon_slots) by (vm_compute; reflexivity).
  split; [exact H|].
  exact (Slots.slots_have_requested_duration _ _ _ _ _ H).
Defined.

Lemma slots_chronological_witness :
  0 <= 180
  /\ strptime_date "2025-04-15" = Some 739356
  /\ collect_day_events 739356 (get_calendar_events one_meeting_day) []
     = Return [(at_ten, at_eleven)]
  /\ Forall (fun b => fst b <= snd b) [(at_ten, at_eleven)]
  /\ get_available_slots 100 "2025-04-15" 180 one_meeting_day = Return afternoon_slots
  /\ exists starts,
      afternoon_slots = map (slot_at (180 * Py.US_PER_MINUTE)) starts
      /\ forall i j ti tj,
          (i < j)%nat -> nth_error starts i = Some ti -> nth_error starts j = Some tj ->
          ti + 180 * Py.US_PER_MINUTE <= tj.
Proof.
  assert (H1 : 0 <= 180) by lia.
  assert (H2 : strptime_date "2025-04-15" = Some 739356) by (vm_compute; reflexivity).
  assert (H3 : collect_day_events 739356 (get_calendar_events one_meeting_day) []
               = Return [(at_ten, at_eleven)]) by (vm_compute; reflexivity).
  assert (H4 : Forall (fun b : Py.datetime * Py.datetime => fst b <= snd b)
                      [(at_ten, at_eleven)])
    by (constructor; [vm_compute; discriminate|constructor]).
  assert (H5 : get_available_slots 100 "2025-04-15" 180 one_meeting_day
               = Return afternoon_slots) by (vm_compute; reflexivity).
  repeat (split; [assumption|]).
  exact (Slots.slots_chronological _ _ _ _ _ _ _ H1 H2 H3 H4 H5).
Defined.

Lemma slots_clear_of_separate_events_witness :
  0 <= 180
  /\ strptime_date "2025-04-15" = Some 739356
  /\ collect_day_events 739356 (get_calendar_events one_meeting_day) []
     = Return [(at_ten, at_eleven)]
  /\ Forall (fun b => fst b < snd b) [(at_ten, at_eleven)]
  /\ ForallOrdPairs apart [(at_ten, at_eleven)]
  /\ get_available_slots 100 "2025-04-15" 180 one_meeting_day = Return afternoon_slots
  /\ exists starts,
      afternoon_slots = map (slot_at (180 * Py.US_PER_MINUTE)) starts
      /\ Forall (fun t => Forall (clear_of (180 * Py.US_PER_MINUTE) t)
                                 [(at_ten, at_eleven)]) starts.
Proof.
  assert (H1 : 0 <= 180) by lia.
  assert (H2 : strptime_date "2025-04-15" = Some 739356) by (vm_compute; reflexivity).
  assert (H3 : collect_day_events 739356 (get_calendar_events one_meeting_day) []
               = Return [(at_ten, at_eleven)]) by (vm_compute; reflexivity).
  assert (H4 : Forall (fun b : Py.datetime * Py.datetime => fst b < snd b)
                      [(at_ten, at_eleven)])
    by (constructor; [reflexivity|constructor]).
  assert (H5 : ForallOrdPairs apart [(at_ten, at_eleven)]) by (repeat constructor).
  assert (H6 : get_available_slots 100 "2025-04-15" 180 one_meeting_day
               = Return afternoon_slots) by (vm_compute; reflexivity).
  repeat (split; [assumption|]).
  exact (Slots.slots_clear_of_separate_events _ _ _ _ _ _ _ H1 H2 H3 H4 H5 H6).
Defined.

Lemma slots_within_hours_of_inner_events_witness :
  0 <= 180
  /\ strptime_date "2025-04-15" = Some 739356
  /\ collect_day_events 739356 (get_calendar_events one_meeting_day) []
     = Return [(at_ten, at_eleven)]
  /\ Forall (fun b =>
               Py.combine_hour 739356 9 <= fst b <= Py.combine_hour 739356 17
               /\ Py.combine_hour 739356 9 <= snd b <= Py.combine_hour 739356 17)
            [(at_ten, at_eleven)]
  /\ get_available_slots 100 "2025-04-15" 180 one_meeting_day = Return afternoon_slots
  /\ exists starts,
      afternoon_slots = map (slot_at (180 * Py.US_PER_MINUTE)) starts
      /\ Forall (fun t => Py.combine_hour 739356 9 <= t
                          /\ t + 180 * Py.US_PER_MINUTE <= Py.combine_hour 739356 17)
                starts.
Proof.
  assert (H1 : 0 <= 180) by lia.
  assert (H2 : strptime_date "2025-04-15" = Some 739356) by (vm_compute; reflexivity).
  assert (H3 : collect_day_events 739356 (get_calendar_events one_meeting_day) []
               = Return [(at_ten, at_eleven)]) by (vm_compute; reflexivity).
  assert (H4 : Forall (fun b : Py.datetime * Py.datetime =>
                         Py.combine_hour 739356 9 <= fst b <= Py.combine_hour 739356 17
                         /\ Py.combine_hour 739356 9 <= snd b
                            <= Py.combine_hour 739356 17)
                      [(at_ten, at_eleven)])
    by (constructor; [repeat split; vm_compute; discriminate|constructor]).
  assert (H5 : get_available_slots 100 "2025-04-15" 180 one_meeting_day
               = Return afternoon_slots) by (vm_compute; reflexivity).
  repeat (split; [assumption|]).
  exact (Slots.slots_within_hours_of_inner_events _ _ _ _ _ _ _ H1 H2 H3 H4 H5).
Defined.

Lemma zero_duration_diverges_witness :
  strptime_date "2025-04-15" = Some 739356
  /\ 1 <= 739356 <= Py.MAXORDINAL
  /\ collect_day_events 739356 (get_calendar_events None) [] = Return []
  /\ get_available_slots 1000 "2025-04-15" 0 None = OutOfFuel.
Proof.
  assert (H1 : strptime_date "2025-04-15" = Some 739356) by (vm_compute; reflexivity).
  assert (H2 : 1 <= 739356 <= Py.MAXORDINAL) by (split; vm_compute; discriminate).
  assert (H3 : collect_day_events 739356 (get_calendar_events None) [] = Return [])
    by reflexivity.
  repeat (split; [assumption|]).
  exact (Slots.zero_duration_diverges 1000 _ _ _ H1 H2 H3).
Defined.

Lemma nonpositive_duration_no_slot_witness :
  -30 <= 0
  /\ get_available_slots 1 "2025-04-15" (-30) all_day_busy = Return []
  /\ @nil TimeSlot = [].
Proof.
  assert (H1 : -30 <= 0) by lia.
  assert (H2 : get_available_slots 1 "2025-04-15" (-30) all_day_busy = Return [])
    by (vm_compute; reflexivity).
  repeat (split; [assumption|]).
  exact (nonpositive_duration_no_slot _ _ _ _ _ H1 H2).
Defined.

Lemma get_available_slots_fills_gaps_witness :
  0 < 180
  /\ strptime_date "2025-04-15" = Some 739356
  /\ 1 <= 739356
  /\ 180 * Py.US_PER_MINUTE <= (Py.MAXORDINAL - 739356) * Py.US_PER_DAY
  /\ collect_day_events 739356 (get_calendar_events one_meeting_day) []
     = Return [(at_ten, at_eleven)]
  /\ Forall (fun g => (List.length (gap_starts (180 * Py.US_PER_MINUTE)%Z g) < 100)%nat)
            (gaps (Py.combine_hour 739356 9) (Py.combine_hour 739356 17)
                  (sort_by_start [(at_ten, at_eleven)]))
  /\ get_available_slots 100 "2025-04-15" 180 one_meeting_day
     = Return (map (slot_at (180 * Py.US_PER_MINUTE))
                   (flat_map (gap_starts (180 * Py.US_PER_MINUTE))
                             (gaps (Py.combine_hour 739356 9)
                                   (Py.combine_hour 739356 17)
                                   (sort_by_start [(at_ten, at_eleven)])))).
Proof.
  assert (H1 : 0 < 180) by lia.
  assert (H2 : strptime_date "2025-04-15" = Some 739356) by (vm_compute; reflexivity).
  assert (H3 : 1 <= 739356) by lia.
  assert (H4 : 180 * Py.US_PER_MINUTE <= (Py.MAXORDINAL - 739356) * Py.US_PER_DAY)
    by (vm_compute; discriminate).
  assert (H5 : collect_day_events 739356 (get_calendar_events one_meeting_day) []
               = Return [(at_ten, at_eleven)]) by (vm_compute; reflexivity).
  assert (H6 : Forall (fun g => (List.length
                                   (gap_starts (180 * Py.US_PER_MINUTE)%Z g) < 100)%nat)
                      (gaps (Py.combine_hour 739356 9) (Py.combine_hour 739356 17)
                            (sort_by_start [(at_ten, at_eleven)]))).
  { simpl; repeat (constructor; [vm_compute; lia|]); constructor. }
  repeat (split; [assumption|]).
  exact (proj1 (get_available_slots_fills_gaps 100 "2025-04-15" 180 one_meeting_day
                  739356 [(at_ten, at_eleven)] H1 H2 H3 H4 H5 H6)).
Defined.

Lemma empty_day_slot_count_witness :
  0 < 180
  /\ strptime_date "2025-04-15" = Some 739356
  /\ 1 <= 739356
  /\ collect_day_events 739356 (get_calendar_events None) [] = Return []
  /\ (Z.to_nat (480 / 180) < 100)%nat
  /\ get_available_slots 100 "2025-04-15" 180 None
     = Return [mkTimeSlot "2025-04-15T09:00:00" "2025-04-15T12:00:00";
               mkTimeSlot "2025-04-15T12:00:00" "2025-04-15T15:00:00"]
  /\ strptime_date "9999-12-31" = Some Py.MAXORDINAL
  /\ 1 <= Py.MAXORDINAL
  /\ collect_day_events Py.MAXORDINAL (get_calendar_events None) [] = Return []
  /\ (Z.to_nat (480 / 480) < 100)%nat
  /\ get_available_slots 100 "9999-12-31" 480 None = Raise OverflowError.
Proof.
  assert (H1 : 0 < 180) by lia.
  assert (H2 : strptime_date "2025-04-15" = Some 739356) by (vm_compute; reflexivity).
  assert (H3 : 1 <= 739356) by lia.
  assert (H5 : collect_day_events 739356 (get_calendar_events None) [] = Return [])
    by reflexivity.
  assert (H6 : (Z.to_nat (480 / 180) < 100)%nat) by (vm_compute; lia).
  assert (K1 : 0 < 480) by lia.
  assert (K2 : strptime_date "9999-12-31" = Some Py.MAXORDINAL)
    by (vm_compute; reflexivity).
  assert (K3 : 1 <= Py.MAXORDINAL) by (vm_compute; discriminate).
  assert (K5 : collect_day_events Py.MAXORDINAL (get_calendar_events None) []
               = Return []) by reflexivity.
  assert (K6 : (Z.to_nat (480 / 480) < 100)%nat) by (vm_compute; lia).
  repeat (split; [assumption|]); split.
  - rewrite (empty_day_slot_count 100 "2025-04-15" 180 None 739356 H1 H2 H3 H5 H6).
    vm_compute; reflexivity.
  - repeat (split; [assumption|]).
    rewrite (empty_day_slot_count 100 "9999-12-31" 480 None Py.MAXORDINAL
               K1 K2 K3 K5 K6).
    vm_compute; reflexivity.
Defined.

Lemma get_available_slots_order_free_witness :
  strptime_date "2025-04-15" = Some 739356
  /\ Permutation (get_calendar_events two_meetings)
                 (get_calendar_events two_meetings_reversed)
  /\ NoDup (map (fun e => fst (interval_of e))
                (filter (considered 739356) (get_calendar_events two_meetings)))
  /\ get_available_slots 100 "2025-04-15" 180 two_meetings
     = get_available_slots 100 "2025-04-15" 180 two_meetings_reversed.
Proof.
  assert (H1 : strptime_date "2025-04-15" = Some 739356) by (vm_compute; reflexivity).
  assert (H2 : Permutation (get_calendar_events two_meetings)
                           (get_calendar_events two_meetings_reversed))
    by apply perm_swap.
  assert (H3 : NoDup (map (fun e => fst (interval_of e))
                          (filter (considered 739356)
                                  (get_calendar_events two_meetings)))).
  { vm_compute; repeat constructor; simpl; intuition discriminate. }
  repeat (split; [assumption|]).
  exact (get_available_slots_order_free 100 "2025-04-15" 180 _ _ 739356 H1 H2 H3).
Defined.

Lemma conflict_free_storage_slots_clear_witness :
  0 <= 180
  /\ strptime_date "2025-04-15" = Some 739356
  /\ conflict_free (get_calendar_events two_meetings)
  /\ Forall (fun e => considered 739356 e = true ->
                      fst (interval_of e) < snd (interval_of e))
            (get_calendar_events two_meetings)
  /\ get_available_slots 100 "2025-04-15" 180 two_meetings
     = Return [mkTimeSlot "2025-04-15T12:00:00" "2025-04-15T15:00:00"]
  /\ exists starts,
      [mkTimeSlot "2025-04-15T12:00:00" "2025-04-15T15:00:00"]
      = map (slot_at (180 * Py.US_PER_MINUTE)) starts
      /\ forall t e,
          In t starts -> In e (get_calendar_events two_meetings) ->
          considered 739356 e = true ->
          clear_of (180 * Py.US_PER_MINUTE) t (interval_of e).
Proof.
  assert (H1 : 0 <= 180) by lia.
  assert (H2 : strptime_date "2025-04-15" = Some 739356) by (vm_compute; reflexivity).
  assert (H3 : conflict_free (get_calendar_events two_meetings))
    by (repeat constructor).
  assert (H4 : Forall (fun e => considered 739356 e = true ->
                                fst (interval_of e) < snd (interval_of e))
                      (get_calendar_events two_meetings))
    by (repeat constructor).
  assert (H5 : get_available_slots 100 "2025-04-15" 180 two_meetings
               = Return [mkTimeSlot "2025-04-15T12:00:00" "2025-04-15T15:00:00"])
    by (vm_compute; reflexivity).
  repeat (split; [assumption|]).
  exact (conflict_free_storage_slots_clear _ _ _ _ _ _ H1 H2 H3 H4 H5).
Defined.

Lemma cancelling_like_deleting_witness :
  NoDup (map id (get_calendar_events two_meetings))
  /\ is_cancelled (named "a" cancelled_ten_to_eleven) = true
  /\ update_event "a" (named "a" cancelled_ten_to_eleven) two_meetings
     = (Return (named "a" cancelled_ten_to_eleven), first_cancelled)
  /\ get_available_slots 100 "2025-04-15" 30 first_cancelled
     = get_available_slots 100 "2025-04-15" 30 (snd (delete_event "a" two_meetings)).
Proof.
  assert (H1 : NoDup (map id (get_calendar_events two_meetings))).
  { repeat constructor; simpl; intuition discriminate. }
  assert (H2 : is_cancelled (named "a" cancelled_ten_to_eleven) = true)
    by reflexivity.
  assert (H3 : update_event "a" (named "a" cancelled_ten_to_eleven) two_meetings
               = (Return (named "a" cancelled_ten_to_eleven), first_cancelled))
    by (vm_compute; reflexivity).
  repeat (split; [assumption|]).
  exact (cancelling_like_deleting 100 "2025-04-15" 30 _ _ _ _ _ H1 H2 H3).
Defined.

(** On a day with a confirmed 10:00-11:00 meeting, a cancelled 14:00-15:00
    one and an event running past midnight, three-hour slots are found
    around the confirmed meeting alone, unlike on the empty day; dropping
    the cancelled or the overnight event changes nothing; and a single
    cancelled 10:00-11:00 event leaves the sixteen half-hour slots of the
    empty day. *)
Lemma slot_finder_considers_exactly_witness :
  strptime_date "2025-04-15" = Some 739356
  /\ filter (considered 739356) mixed_day = [ten_to_eleven]
  /\ get_available_slots 100 "2025-04-15" 180 (Some mixed_day)
     = Return afternoon_slots
  /\ get_available_slots 100 "2025-04-15" 180 (Some [])
     = Return [mkTimeSlot "2025-04-15T09:00:00" "2025-04-15T12:00:00";
               mkTimeSlot "2025-04-15T12:00:00" "2025-04-15T15:00:00"]
  /\ get_available_slots 100 "2025-04-15" 180
       (Some ([ten_to_eleven] ++ cancelled_two_to_three :: [overnight]))
     = get_available_slots 100 "2025-04-15" 180
         (Some ([ten_to_eleven] ++ [overnight]))
  /\ get_available_slots 100 "2025-04-15" 180
       (Some ([ten_to_eleven; cancelled_two_to_three] ++ overnight :: []))
     = get_available_slots 100 "2025-04-15" 180
         (Some ([ten_to_eleven; cancelled_two_to_three] ++ []))
  /\ get_available_slots 100 "2025-04-15" 30
       (Some ([] ++ cancelled_ten_to_eleven :: []))
     = get_available_slots 100 "2025-04-15" 30 (Some ([] ++ []))
  /\ option_map (@List.length TimeSlot)
       (match get_available_slots 100 "2025-04-15" 30 (Some []) with
        | Return slots => Some slots
        | _ => None
        end) = Some 16%nat.
Proof.
  assert (Hd : strptime_date "2025-04-15" = Some 739356) by (vm_compute; reflexivity).
  destruct (slot_finder_considers_exactly 100 "2025-04-15" 180 739356 Hd)
    as (_ & _ & Hfill & _ & _ & Hdrop).
  assert (Hfilter : filter (considered 739356) mixed_day = [ten_to_eleven])
    by (vm_compute; reflexivity).
  split; [exact Hd|]. split; [exact Hfilter|]. split; [|split; [|split; [|split]]].
  - rewrite (Hfill mixed_day).
    + rewrite Hfilter; vm_compute; reflexivity.
    + lia.
    + lia.
    + vm_compute; discriminate.
    + vm_compute; reflexivity.
    + rewrite Hfilter; simpl; repeat (constructor; [vm_compute; lia|]); constructor.
  - rewrite (Hfill []).
    + vm_compute; reflexivity.
    + lia.
    + lia.
    + vm_compute; discriminate.
    + reflexivity.
    + simpl; repeat (constructor; [vm_compute; lia|]); constructor.
  - apply (Hdrop [ten_to_eleven] cancelled_two_to_three [overnight]
             63880408800000000 63880412400000000).
    + vm_compute; reflexivity.
    + left; reflexivity.
  - apply (Hdrop [ten_to_eleven; cancelled_two_to_three] overnight []
             63880416000000000 63880452000000000).
    + vm_compute; reflexivity.
    + right; right; vm_compute; discriminate.
  - split.
    + destruct (slot_finder_considers_exactly 100 "2025-04-15" 30 739356 Hd)
        as (_ & _ & _ & _ & _ & Hdrop30).
      apply (Hdrop30 [] cancelled_ten_to_eleven [] at_ten at_eleven).
      * vm_compute; reflexivity.
      * left; reflexivity.
    + vm_compute; reflexivity.
Defined.

End SlotFacts.
